(** * Expense tracker backend: controllers, middleware and router

    A shallow embedding of [transactionController.ts], [authController.ts],
    [authMiddleware.ts], [transactionRoutes.ts] and of the two schemas.
    The record store (a MongoDB collection reached through Mongoose) is a
    list of documents in insertion order; every handler is a function of
    the store, the authenticated caller and the request, and returns the
    HTTP response (and the new store when it writes).

    Conventions of the model:
    - an [ObjectId] is its 24-digit lowercase hexadecimal text;
    - a [Date] is its number of milliseconds since the epoch; the
      server's time zone and locale are the parameters of a [Host];
    - texts are sequences of UTF-8 bytes;
    - amounts are integers, on which JavaScript's doubles and the store's
      sums are exact as long as they stay within 2^53; a statement about
      sums says so in a hypothesis;
    - a JavaScript number that may be [NaN] or infinite is a [JsNum];
    - a field of a request is given by what the code's conversion makes
      of it ([new Date(..)], [Number(..)], the casts of the schema), so
      that a text that is no date, or no number, is a value of the
      model ([Uncastable]), and the handlers' [catch] blocks are
      reached;
    - a list query is sorted on its date and on nothing else: the order
      of documents of equal date is a parameter of each list query;
    - the objects that [getAnalytics] uses as maps are plain objects,
      which inherit the members of [Object.prototype];
    - [bcrypt], [jsonwebtoken] and the environment variable
      [JWT_SECRET] are parameters of the authentication code. *)

From Stdlib Require Import ZArith QArith Qround Lia Ascii String.
From stdpp Require Import gmap strings list sorting.

Local Open Scope Z_scope.

(** ** JavaScript numbers, [parseInt] and [Math.max] *)

Inductive JsNum : Type :=
| JNaN
| JNum (z : Z)
| JInf (negative : bool).

(** The double nearest to a natural number, ties to the even mantissa
    (exact below 2^53). *)
Definition round_to_double (n : Z) : Z :=
  if n <? 2 ^ 53 then n
  else
    let e := Z.log2 n - 52 in
    let q := n / 2 ^ e in
    let r := n mod 2 ^ e in
    let half := 2 ^ (e - 1) in
    let q' := if (half <? r) || ((r =? half) && Z.odd q) then q + 1 else q in
    q' * 2 ^ e.

(** The Number value of an integer: the nearest double, infinite from
    2^1024 on. *)
Definition to_double (z : Z) : JsNum :=
  let a := round_to_double (Z.abs z) in
  if 2 ^ 1024 <=? a then JInf (z <? 0) else JNum (Z.sgn z * a).

Definition byte_is (c : ascii) (n : nat) : bool :=
  (Ascii.nat_of_ascii c =? n)%nat.

(** The white space and line terminators of one byte: TAB, LF, VT, FF,
    CR and the space. *)
Definition is_space (c : ascii) : bool :=
  let n := Ascii.nat_of_ascii c in
  ((9 <=? n)%nat && (n <=? 13)%nat) || (n =? 32)%nat.

(** U+00A0 in UTF-8. *)
Definition is_space2 (c1 c2 : ascii) : bool :=
  byte_is c1 194 && byte_is c2 160.

(** The white space of three bytes: U+1680, U+2000..U+200A, U+2028,
    U+2029, U+202F, U+205F, U+3000 and U+FEFF. *)
Definition is_space3 (c1 c2 c3 : ascii) : bool :=
  let n3 := Ascii.nat_of_ascii c3 in
  (byte_is c1 225 && byte_is c2 154 && byte_is c3 128)
  || (byte_is c1 226 && byte_is c2 128
      && (((128 <=? n3)%nat && (n3 <=? 138)%nat)
          || byte_is c3 168 || byte_is c3 169 || byte_is c3 175))
  || (byte_is c1 226 && byte_is c2 129 && byte_is c3 159)
  || (byte_is c1 227 && byte_is c2 128 && byte_is c3 128)
  || (byte_is c1 239 && byte_is c2 187 && byte_is c3 191).

Definition digit_of (c : ascii) : option Z :=
  let n := Z.of_nat (Ascii.nat_of_ascii c) in
  if (48 <=? n) && (n <=? 57) then Some (n - 48) else None.

(** The text without its leading white space. *)
Fixpoint trim_start (s : string) : string :=
  match s with
  | String c1 s1 =>
      if is_space c1 then trim_start s1
      else
        match s1 with
        | String c2 s2 =>
            if is_space2 c1 c2 then trim_start s2
            else
              match s2 with
              | String c3 s3 =>
                  if is_space3 c1 c2 c3 then trim_start s3 else s
              | EmptyString => s
              end
        | EmptyString => s
        end
  | EmptyString => s
  end.

(** The longest prefix of decimal digits, read left to right; [acc] is
    [None] until the first digit has been seen. *)
Fixpoint read_digits (s : string) (acc : option Z) : option Z :=
  match s with
  | String c s' =>
      match digit_of c with
      | Some d => read_digits s' (Some (10 * default 0 acc + d))
      | None => acc
      end
  | EmptyString => acc
  end.

(** [parseInt(s, 10)]: leading white space is skipped, one sign is
    accepted, then digits are read up to the first other character; no
    digit at all gives [NaN], and the integer read is turned into a
    Number.  (Past twenty significant digits an engine may read the
    further digits as zeros.) *)
Definition parseInt (s : string) : JsNum :=
  match trim_start s with
  | String "-"%char r =>
      match read_digits r None with Some n => to_double (- n) | None => JNaN end
  | String "+"%char r =>
      match read_digits r None with Some n => to_double n | None => JNaN end
  | r =>
      match read_digits r None with Some n => to_double n | None => JNaN end
  end.

(** [Math.max(a, x)] with an integer first argument. *)
Definition Math_max (a : Z) (x : JsNum) : JsNum :=
  match x with
  | JNaN => JNaN
  | JNum z => JNum (Z.max a z)
  | JInf true => JNum a
  | JInf false => JInf false
  end.

(** [Math.ceil(a / b)] on integers, the quotient taken in the rationals. *)
Definition Math_ceil_div (a b : Z) : Z :=
  Qceiling (inject_Z a / inject_Z b).

(** The largest range of integers that doubles hold without gaps. *)
Definition MAX_SAFE : Z := 2 ^ 53.

(** ** Calendar arithmetic on dates *)

Abbreviation Date := Z (only parsing).

Definition msPerDay : Z := 86400000.

(** [Day(t)] and [TimeWithinDay(t)] of ECMAScript. *)
Definition Day (t : Date) : Z := t / msPerDay.
Definition TimeWithinDay (t : Date) : Z := t mod msPerDay.

(** Days since the epoch of the civil date [y]-[m]-[d], [m] in 1..12
    (proleptic Gregorian calendar). *)
Definition days_from_civil (y m d : Z) : Z :=
  let y' := if m <=? 2 then y - 1 else y in
  let era := y' / 400 in
  let yoe := y' - era * 400 in
  let mp := (m + 9) mod 12 in
  let doy := (153 * mp + 2) / 5 + d - 1 in
  let doe := yoe * 365 + yoe / 4 - yoe / 100 + doy in
  era * 146097 + doe - 719468.

(** The civil date (year, month 1..12, day of month) of a day number. *)
Definition civil_from_days (z : Z) : Z * Z * Z :=
  let z' := z + 719468 in
  let era := z' / 146097 in
  let doe := z' - era * 146097 in
  let yoe := (doe - doe / 1460 + doe / 36524 - doe / 146096) / 365 in
  let doy := doe - (365 * yoe + yoe / 4 - yoe / 100) in
  let mp := (5 * doy + 2) / 153 in
  let d := doy - (153 * mp + 2) / 5 + 1 in
  let m := if mp <? 10 then mp + 3 else mp - 9 in
  let y := yoe + era * 400 in
  (if m <=? 2 then y + 1 else y, m, d).

Arguments days_from_civil : simpl never.
Arguments civil_from_days : simpl never.

(** [YearFromTime], [MonthFromTime] (counted from 0) and [DateFromTime]
    of a time value. *)
Definition YearFromTime (t : Z) : Z := (civil_from_days (Day t)).1.1.
Definition MonthFromTime (t : Z) : Z := (civil_from_days (Day t)).1.2 - 1.
Definition DateFromTime (t : Z) : Z := (civil_from_days (Day t)).2.

(** [MakeDay(year, month, date)]: the month may lie outside 0..11 and the
    day outside the month; both overflow into the neighbouring months. *)
Definition MakeDay (year month date : Z) : Z :=
  days_from_civil (year + month / 12) (month mod 12 + 1) 1 + date - 1.

(** The date built from a civil date and a time of day in milliseconds. *)
Definition mkDate (y m d ms : Z) : Date := days_from_civil y m d * msPerDay + ms.

(** What the server's environment decides: the offset of local time
    ([LocalTZA(t, isUTC)], in milliseconds) and the abbreviated month
    names of the default locale, by month counted from 0. *)
Record Host : Type := mkHost {
  LocalTZA : Z -> bool -> Z;
  monthShort : Z -> string;
}.

Definition LocalTime (h : Host) (t : Date) : Z := t + LocalTZA h t true.
Definition UTC (h : Host) (t : Z) : Date := t - LocalTZA h t false.

(** [d.getMonth()], in local time. *)
Definition getMonth (h : Host) (t : Date) : Z := MonthFromTime (LocalTime h t).

(** [d.setMonth(month)]. *)
Definition setMonth (h : Host) (t : Date) (month : Z) : Date :=
  let lt := LocalTime h t in
  UTC h (MakeDay (YearFromTime lt) month (DateFromTime lt) * msPerDay
         + TimeWithinDay lt).

(** [d.setHours(0, 0, 0, 0)]. *)
Definition setHours0 (h : Host) (t : Date) : Date :=
  UTC h (Day (LocalTime h t) * msPerDay).

(** A server whose local time is a fixed offset from UTC and whose
    locale has the given month names, January first. *)
Definition fixed_host (offset : Z) (names : list string) : Host :=
  mkHost (fun _ _ => offset) (fun i => default "" (names !! Z.to_nat i)).

Definition english_months : list string :=
  ["Jan"; "Feb"; "Mar"; "Apr"; "May"; "Jun";
   "Jul"; "Aug"; "Sep"; "Oct"; "Nov"; "Dec"].

Definition spanish_months : list string :=
  ["ene"; "feb"; "mar"; "abr"; "may"; "jun";
   "jul"; "ago"; "sept"; "oct"; "nov"; "dic"].

(** A server in UTC with an English locale, and one two hours east of
    UTC with a Spanish locale. *)
Definition Host_UTC : Host := fixed_host 0 english_months.
Definition Host_east : Host := fixed_host 7200000 spanish_months.

(** The Gregorian calendar, stated on its own: leap years and the
    lengths of the months. *)
Definition is_leap (y : Z) : bool :=
  (((y mod 4 =? 0) && negb (y mod 100 =? 0)) || (y mod 400 =? 0))%bool.

Definition days_in_month (y m : Z) : Z :=
  if m =? 2 then (if is_leap y then 29 else 28)
  else if ((m =? 4) || (m =? 6) || (m =? 9) || (m =? 11))%bool then 30
  else 31.
(** ** Data model: [transactionModel.ts] *)

Abbreviation ObjectId := string (only parsing).

Definition is_hex (c : ascii) : bool :=
  let n := Ascii.nat_of_ascii c in
  ((48 <=? n) && (n <=? 57) || (97 <=? n) && (n <=? 102)
   || (65 <=? n) && (n <=? 70))%nat.

Definition lower_hex (c : ascii) : ascii :=
  let n := Ascii.nat_of_ascii c in
  if ((65 <=? n) && (n <=? 70))%nat then Ascii.ascii_of_nat (n + 32) else c.

Fixpoint all_hex (s : string) : bool :=
  match s with
  | String c s' => is_hex c && all_hex s'
  | EmptyString => true
  end.

Fixpoint lower_hex_string (s : string) : string :=
  match s with
  | String c s' => String (lower_hex c) (lower_hex_string s')
  | EmptyString => EmptyString
  end.

(** [mongoose.isValidObjectId] on a path parameter: the text of an
    ObjectId is 24 hexadecimal digits (the 12-byte raw form that some
    driver versions also accept is left out). *)
Definition isValidObjectId (id : string) : bool :=
  (String.length id =? 24)%nat && all_hex id.

(** The two values of the schema's [enum]. *)
Definition type_enum : list string := ["income"; "expense"].

(** The schema's validator for [type]: [enum: ["income", "expense"]].
    It runs when a document is created, not when one is updated. *)
Definition valid_type (s : string) : bool :=
  bool_decide (s ∈ type_enum).

(** A stored document: the fields of [ITransaction], the [_id] given by
    the store and the two fields added by [timestamps: true].  [type] is
    the text that is stored, and [amount] an integer. *)
Record ITransaction : Type := mkTransaction {
  _id : ObjectId;
  userId : ObjectId;
  title : string;
  amount : Z;
  type : string;
  category : option string;
  date : Date;
  createdAt : Date;
  updatedAt : Date;
}.

(** The collection, oldest document first. *)
Abbreviation Store := (list ITransaction) (only parsing).

(** ** Requests *)

(** A field of a request body or a parameter of a query, by what the
    code's conversion to the type [T] makes of it: the field is absent
    (or, in a create body, null), it has the value [v], or it has a
    value that the conversion refuses: a text that is no date for [new Date(..)] and
    the schema's Date, a text that is no number for [Number(..)] and the
    schema's Number, an array or an object for the schema's String.
    (Where a text is expected, the values covered are texts, arrays and
    objects; where an amount is expected, integers and what is no
    number.) *)
Inductive Field (T : Type) : Type :=
| Absent
| Given (v : T)
| Uncastable.

Arguments Absent {T}.
Arguments Given {T} v.
Arguments Uncastable {T}.

(** [!f] on a text field: absent and empty are falsy, an array or an
    object is truthy. *)
Definition falsy_field (f : Field string) : bool :=
  match f with
  | Absent => true
  | Given s => String.eqb s ""
  | Uncastable => false
  end.

(** [f == null]. *)
Definition absent {T : Type} (f : Field T) : bool :=
  match f with
  | Absent => true
  | _ => false
  end.

(** The outcome of a cast: [None] when it throws, [Some None] when there
    is nothing to set. *)
Definition cast {T : Type} (f : Field T) : option (option T) :=
  match f with
  | Absent => Some None
  | Given v => Some (Some v)
  | Uncastable => None
  end.

(** The cast to the schema's ObjectId: the text must be that of an
    ObjectId, in the sense of [isValidObjectId], and is stored in lower
    case. *)
Definition castObjectId (f : Field string) : option (option ObjectId) :=
  match f with
  | Absent => Some None
  | Given s => if isValidObjectId s then Some (Some (lower_hex_string s)) else None
  | Uncastable => None
  end.

(** ** Responses *)

(** One group of the monthly pipeline of [getSummary]. *)
Record MonthGroup : Type := mkMonthGroup {
  mg_year : Z;
  mg_month : Z;
  mg_income : Z;
  mg_expense : Z;
}.

(** A value held by a property of the objects built by [getAnalytics]: a
    number, [NaN], or a text (which is what [+=] leaves when the
    property read is a function or an object of [Object.prototype]). *)
Inductive JsVal : Type :=
| VNum (z : Z)
| VNaN
| VText.

(** A plain object, by its own properties. *)
Abbreviation JsObject := (gmap string JsVal) (only parsing).

Inductive Body : Type :=
| Message (message : string)
| Document (t : ITransaction)
| Page (transactions : list ITransaction) (total : Z) (page : Z) (pages : Z)
| Summary (monthly : list MonthGroup) (category : list (option string * Z))
    (totalIncome totalExpense : Z)
| Analytics (monthly : gmap string JsObject) (categoryTotals : JsObject).

Record Response : Type := mkResponse {
  status : Z;
  body : Body;
}.

(** [res.json(b)] answers 200, [res.status(n).json(b)] answers [n]. *)
Definition res_json (b : Body) : Response := mkResponse 200 b.
Definition res_status_json (n : Z) (b : Body) : Response := mkResponse n b.

(** What every [catch] of the transaction controller but the last
    answers. *)
Definition server_error : Response :=
  res_status_json 500 (Message "Server error").

(** ** Store operations used by the controller *)

(** [Transaction.findById(id)]: the document whose [_id] is the ObjectId
    written [id], with its position in the collection. *)
Definition findById (db : Store) (id : string) : option (nat * ITransaction) :=
  list_find (fun t => _id t = lower_hex_string id) db.

(** The body of a PUT request, by the paths it sets: a body made of
    the six fields that the schema declares, with values that are not
    null (update operators and the paths of [timestamps] are left out).
    [userId] and [type] are the raw texts. *)
Record Updates : Type := mkUpdates {
  set_userId : Field string;
  set_title : Field string;
  set_amount : Field Z;
  set_type : Field string;
  set_category : Field string;
  set_date : Field Date;
}.

(** A body after the casts of the schema. *)
Record CastedUpdates : Type := mkCastedUpdates {
  c_userId : option ObjectId;
  c_title : option string;
  c_amount : option Z;
  c_type : option string;
  c_category : option string;
  c_date : option Date;
}.

(** The casts that [findByIdAndUpdate] applies to the body: each value
    is cast to the type of its path and one failure fails the call.  The
    validators of the schema do not run, so [type] takes any text. *)
Definition castUpdates (updates : Updates) : option CastedUpdates :=
  uid ← castObjectId (set_userId updates);
  ttl ← cast (set_title updates);
  amt ← cast (set_amount updates);
  ty ← cast (set_type updates);
  cat ← cast (set_category updates);
  dt ← cast (set_date updates);
  Some (mkCastedUpdates uid ttl amt ty cat dt).

(** The document after [findByIdAndUpdate(id, updates, { new: true })]:
    every path present in [updates] is set, [_id] and [createdAt] are
    kept, and [timestamps] stamps [updatedAt] with the time of the
    write. *)
Definition applyUpdates (now : Date) (updates : CastedUpdates) (t : ITransaction)
  : ITransaction :=
  {| _id := _id t;
     userId := default (userId t) (c_userId updates);
     title := default (title t) (c_title updates);
     amount := default (amount t) (c_amount updates);
     type := default (type t) (c_type updates);
     category := match c_category updates with
                 | Some c => Some c
                 | None => category t
                 end;
     date := default (date t) (c_date updates);
     createdAt := createdAt t;
     updatedAt := now |}.

(** ** Single-record handlers *)

(** GET /api/transactions/:id *)
Definition getTransactionById (db : Store) (user : ObjectId) (id : string)
  : Response :=
  if negb (isValidObjectId id) then
    res_status_json 400 (Message "Invalid id")
  else
    match findById db id with
    | None => res_status_json 404 (Message "Transaction not found")
    | Some (_, transaction) =>
        let ownerId := userId transaction in
        let requesterId := user in
        if negb (String.eqb ownerId requesterId) then
          res_status_json 403 (Message "Not authorized")
        else res_json (Document transaction)
    end.

(** PUT /api/transactions/:id; [now] is the clock at the write.  A cast
    that fails makes [findByIdAndUpdate] throw before anything is
    written, and the [catch] answers 500. *)
Definition updateTransaction (now : Date) (db : Store) (user : ObjectId)
    (id : string) (updates : Updates) : Response * Store :=
  if negb (isValidObjectId id) then
    (res_status_json 400 (Message "Invalid id"), db)
  else
    match findById db id with
    | None => (res_status_json 404 (Message "Transaction not found"), db)
    | Some (i, existing) =>
        let ownerId := userId existing in
        let requesterId := user in
        if negb (String.eqb ownerId requesterId) then
          (res_status_json 403 (Message "Not authorized"), db)
        else
          match castUpdates updates with
          | None => (server_error, db)
          | Some casted =>
              let updated := applyUpdates now casted existing in
              (res_json (Document updated), <[i := updated]> db)
          end
    end.

(** DELETE /api/transactions/:id *)
Definition deleteTransaction (db : Store) (user : ObjectId) (id : string)
  : Response * Store :=
  if negb (isValidObjectId id) then
    (res_status_json 400 (Message "Invalid id"), db)
  else
    match findById db id with
    | None => (res_status_json 404 (Message "Transaction not found"), db)
    | Some (i, transaction) =>
        let ownerId := userId transaction in
        let requesterId := user in
        if negb (String.eqb ownerId requesterId) then
          (res_status_json 403 (Message "Not authorized"), db)
        else (res_json (Message "Transaction deleted"), delete i db)
    end.

(** ** Creation *)

(** The body of a POST request.  [new_amount] is absent when [amount ==
    null] and otherwise what [Number(amount)] gives; [new_date] is
    absent when [date] is falsy and otherwise what [new Date(date)]
    gives. *)
Record NewTransaction : Type := mkNewTransaction {
  new_title : Field string;
  new_amount : Field Z;
  new_type : Field string;
  new_category : Field string;
  new_date : Field Date;
}.

(** [Transaction.create(doc)]: every value is cast to the type of its
    path, and [type] is validated against the schema's [enum]; a failure
    of either rejects the document.  A valid document receives the
    store's fresh [_id], the default [date] and both timestamps, and is
    appended to the collection. *)
Definition Transaction_create (now : Date) (fresh : ObjectId) (db : Store)
    (owner : ObjectId) (req : NewTransaction) : option (ITransaction * Store) :=
  ttl ← cast (new_title req);
  amt ← cast (new_amount req);
  ty ← cast (new_type req);
  cat ← cast (new_category req);
  dt ← cast (new_date req);
  if valid_type (default "" ty) then
    let doc := {| _id := fresh; userId := owner; title := default "" ttl;
                  amount := default 0 amt; type := default "" ty;
                  category := cat; date := default now dt;
                  createdAt := now; updatedAt := now |} in
    Some (doc, db ++ [doc])
  else None.

(** POST /api/transactions; a rejected [create] is caught and answered
    with 500. *)
Definition createTransaction (now : Date) (fresh : ObjectId) (db : Store)
    (user : ObjectId) (req : NewTransaction) : Response * Store :=
  if falsy_field (new_title req) || absent (new_amount req)
     || falsy_field (new_type req) then
    (res_status_json 400 (Message "title, amount and type are required"), db)
  else
    match Transaction_create now fresh db user req with
    | Some (transaction, db') =>
        (res_status_json 201 (Document transaction), db')
    | None => (server_error, db)
    end.

#[global] Instance Field_eq_dec {T : Type} `{EqDecision T} : EqDecision (Field T).
Proof. solve_decision. Defined.

(** ** Listing: filter, sort, skip, limit *)

(** The query string of GET /api/transactions, each parameter given at
    most once.  [page], [limit], [category] and [type] are the raw
    texts; a date bound is absent when its text is absent or empty, and
    otherwise what [new Date(text)] gives. *)
Record ListQuery : Type := mkListQuery {
  q_page : option string;
  q_limit : option string;
  q_startDate : Field Date;
  q_endDate : Field Date;
  q_category : option string;
  q_type : option string;
}.

(** [!s] on an optional string: absent and empty are both falsy. *)
Definition falsy (s : option string) : bool :=
  match s with
  | None => true
  | Some s' => String.eqb s' ""
  end.

(** The filter object handed to the store. *)
Record Filter : Type := mkFilter {
  f_userId : ObjectId;
  f_type : option string;
  f_category : option string;
  f_date_gte : Field Date;
  f_date_lte : Field Date;
}.

Definition buildFilter (user : ObjectId) (q : ListQuery) : Filter :=
  {| f_userId := user;
     f_type := if falsy (q_type q) then None else q_type q;
     f_category := if falsy (q_category q) then None else q_category q;
     f_date_gte := q_startDate q;
     f_date_lte := q_endDate q |}.

(** The cast of a filter: an Invalid Date under [$gte] or [$lte] makes
    the query throw. *)
Definition filter_casts (f : Filter) : bool :=
  bool_decide (is_Some (cast (f_date_gte f)))
  && bool_decide (is_Some (cast (f_date_lte f))).

(** Whether a document satisfies a filter: equality on the paths that are
    set, [$gte] and [$lte] on [date]. *)
Definition matches (f : Filter) (t : ITransaction) : bool :=
  String.eqb (userId t) (f_userId f)
  && match f_type f with
     | Some ty => String.eqb (type t) ty
     | None => true
     end
  && match f_category f with
     | Some c => bool_decide (category t = Some c)
     | None => true
     end
  && match f_date_gte f with Given d => d <=? date t | _ => true end
  && match f_date_lte f with Given d => date t <=? d | _ => true end.

(** The order of [sort({ date: -1 })]: later dates first. *)
Definition date_desc (a b : ITransaction) : Prop := date b <= date a.

#[global] Instance date_desc_dec : RelDecision date_desc.
Proof. intros a b. unfold date_desc. apply _. Defined.

(** The order in which one query returns the documents: by [date]
    descending, and among documents of equal date by whatever rank the
    store gives them for this query ([tie], by [_id]); the sort names no
    second key, and the rank may differ from one query to the next. *)
Definition query_order (tie : ObjectId -> Z) (a b : ITransaction) : Prop :=
  date b < date a \/ (date a = date b /\ tie (_id a) <= tie (_id b)).

#[global] Instance query_order_dec tie : RelDecision (query_order tie).
Proof. intros a b. unfold query_order. apply _. Defined.

(** [Transaction.countDocuments(filter)]. *)
Definition countDocuments (f : Filter) (db : Store) : option Z :=
  if filter_casts f then Some (Z.of_nat (length (List.filter (matches f) db)))
  else None.

(** [find(filter).sort({ date: -1 })]. *)
Definition find_sorted (tie : ObjectId -> Z) (f : Filter) (db : Store)
  : option (list ITransaction) :=
  if filter_casts f then
    Some (merge_sort (query_order tie) (List.filter (matches f) db))
  else None.

(** [.skip(n).limit(m)] on a result list. *)
Definition skip_limit (n m : Z) (l : list ITransaction) : list ITransaction :=
  take (Z.to_nat m) (drop (Z.to_nat n) l).

Definition pageNum (q : ListQuery) : JsNum :=
  Math_max 1 (parseInt (default "1" (q_page q))).

Definition lim (q : ListQuery) : JsNum :=
  Math_max 1 (parseInt (default "20" (q_limit q))).

(** [x - 1] and [x * y] on numbers that hold integers: the exact result,
    rounded. *)
Definition js_pred (x : JsNum) : JsNum :=
  match x with
  | JNum z => to_double (z - 1)
  | _ => x
  end.

Definition js_mul (x y : JsNum) : JsNum :=
  match x, y with
  | JNum a, JNum b => to_double (a * b)
  | JNaN, _ => JNaN
  | _, JNaN => JNaN
  | JInf s, JNum b => if b =? 0 then JNaN else JInf (xorb s (b <? 0))
  | JNum a, JInf s => if a =? 0 then JNaN else JInf (xorb s (a <? 0))
  | JInf s, JInf s' => JInf (xorb s s')
  end.

(** What [skip] and [limit] take: a number that is an integer of at most
    63 bits and not negative; [NaN], an infinity and what is larger are
    refused, by an error that the handler catches. *)
Definition store_takes (x : JsNum) : option Z :=
  match x with
  | JNum z => if (0 <=? z) && (z <? 2 ^ 63) then Some z else None
  | _ => None
  end.

(** The [try] block of [getTransactions]; [None] when it throws. *)
Definition try_getTransactions (tie : ObjectId -> Z) (db : Store) (user : ObjectId)
    (q : ListQuery) : option Body :=
  let filter := buildFilter user q in
  total ← countDocuments filter db;
  found ← find_sorted tie filter db;
  n ← store_takes (js_mul (js_pred (pageNum q)) (lim q));
  m ← store_takes (lim q);
  match pageNum q with
  | JNum p => Some (Page (skip_limit n m found) total p (Math_ceil_div total m))
  | _ => None
  end.

(** GET /api/transactions; [tie] is the rank that the store gives to
    documents of equal date at this query. *)
Definition getTransactions (tie : ObjectId -> Z) (db : Store) (user : ObjectId)
    (q : ListQuery) : Response :=
  match try_getTransactions tie db user q with
  | Some b => res_json b
  | None => server_error
  end.
(** ** Aggregation: [getSummary] *)

(** One [$group] stage: documents are folded into groups keyed by [key],
    in order of first occurrence; [acc] folds a document into the
    accumulator of its group ([None] for a new group). *)
Fixpoint upsert {K V : Type} `{EqDecision K} (k : K) (f : option V -> V)
    (gs : list (K * V)) : list (K * V) :=
  match gs with
  | [] => [(k, f None)]
  | (k', v) :: gs' =>
      if decide (k = k') then (k', f (Some v)) :: gs'
      else (k', v) :: upsert k f gs'
  end.

Definition group_by {A K V : Type} `{EqDecision K} (key : A -> K)
    (acc : option V -> A -> V) (l : list A) : list (K * V) :=
  foldl (fun gs a => upsert (key a) (fun o => acc o a) gs) [] l.

(** The accumulator [{ $sum: e }]. *)
Definition sum_acc {A : Type} (e : A -> Z) (o : option Z) (a : A) : Z :=
  default 0 o + e a.

(** [$year] and [$month] (1..12) of a date; the aggregation reads them
    in UTC. *)
Definition year_of (d : Date) : Z := YearFromTime d.
Definition month_of (d : Date) : Z := MonthFromTime d + 1.

(** [$cond: [{ $eq: ["$type", k] }, "$amount", 0]]. *)
Definition amount_if (k : string) (t : ITransaction) : Z :=
  if String.eqb (type t) k then amount t else 0.

(** The order of [$sort: { "_id.year": 1, "_id.month": 1 }]. *)
Definition month_asc (a b : MonthGroup) : Prop :=
  mg_year a < mg_year b \/ (mg_year a = mg_year b /\ mg_month a <= mg_month b).

#[global] Instance month_asc_dec : RelDecision month_asc.
Proof. intros a b. unfold month_asc. apply _. Defined.

(** The order of [$sort: { total: -1 }]. *)
Definition total_desc (a b : option string * Z) : Prop := b.2 <= a.2.

#[global] Instance total_desc_dec : RelDecision total_desc.
Proof. intros a b. unfold total_desc. apply _. Defined.

(** The first instant of the monthly window: [new Date()], moved back by
    [setMonth(getMonth() - 5)], then [setHours(0, 0, 0, 0)], all in the
    server's time. *)
Definition summary_startDate (h : Host) (now : Date) : Date :=
  setHours0 h (setMonth h now (getMonth h now - 5)).

Definition monthly_pipeline (startDate : Date) (user : ObjectId) (db : Store)
  : list MonthGroup :=
  let matched :=
    List.filter (fun t => String.eqb (userId t) user && (startDate <=? date t)) db in
  let grouped :=
    group_by (fun t => (year_of (date t), month_of (date t)))
      (fun o t => (sum_acc (amount_if "income") (fst <$> o) t,
                   sum_acc (amount_if "expense") (snd <$> o) t))
      matched in
  merge_sort month_asc
    (List.map (fun g => mkMonthGroup g.1.1 g.1.2 g.2.1 g.2.2) grouped).

Definition category_pipeline (user : ObjectId) (db : Store)
  : list (option string * Z) :=
  take 10
    (merge_sort total_desc
       (group_by category (sum_acc amount)
          (List.filter (fun t => String.eqb (userId t) user) db))).

Definition totals_pipeline (user : ObjectId) (db : Store) : list (string * Z) :=
  group_by type (sum_acc amount)
    (List.filter (fun t => String.eqb (userId t) user) db).

(** [totals.find((t) => t._id === k)?.total || 0]. *)
Definition total_of (k : string) (totals : list (string * Z)) : Z :=
  match List.find (fun g => String.eqb g.1 k) totals with
  | Some g => g.2
  | None => 0
  end.

(** GET /api/transactions/summary; [now] is the clock. *)
Definition getSummary (h : Host) (now : Date) (db : Store) (user : ObjectId)
  : Response :=
  let startDate := summary_startDate h now in
  let monthly := monthly_pipeline startDate user db in
  let category := category_pipeline user db in
  let totals := totals_pipeline user db in
  let totalIncome := total_of "income" totals in
  let totalExpense := total_of "expense" totals in
  res_json (Summary monthly category totalIncome totalExpense).

(** ** Aggregation: [getAnalytics] *)

(** [new Date(d).toLocaleString("default", { month: "short" })]: the
    name that the server's locale gives to the month of [d] in the
    server's time. *)
Definition month_short (h : Host) (d : Date) : string :=
  monthShort h (getMonth h d).

(** The names of the members of [Object.prototype], which every plain
    object inherits. *)
Definition Object_prototype : list string :=
  ["constructor"; "__defineGetter__"; "__defineSetter__"; "hasOwnProperty";
   "__lookupGetter__"; "__lookupSetter__"; "isPrototypeOf";
   "propertyIsEnumerable"; "toString"; "valueOf"; "__proto__";
   "toLocaleString"].

Definition inherited (k : string) : bool :=
  bool_decide (k ∈ Object_prototype).

(** What [o[k]] reads from a plain object: an own property, a member of
    [Object.prototype] (a function, or the prototype itself for
    [__proto__]), or [undefined]. *)
Inductive Lookup : Type :=
| Own (v : JsVal)
| Inherited
| Undefined.

Definition js_get (o : JsObject) (k : string) : Lookup :=
  match o !! k with
  | Some v => Own v
  | None => if inherited k then Inherited else Undefined
  end.

(** [o[k] = v] for a number or a text [v]: an own property is written,
    except under the name [__proto__], whose setter drops such a value. *)
Definition js_set (o : JsObject) (k : string) (v : JsVal) : JsObject :=
  if String.eqb k "__proto__" then o else <[k := v]> o.

(** [x + a] for what [o[k]] has read and a number [a]: [undefined] gives
    [NaN], a function or an object gives a text. *)
Definition plus_amount (x : Lookup) (a : Z) : JsVal :=
  match x with
  | Own (VNum z) => VNum (z + a)
  | Own VNaN => VNaN
  | Own VText => VText
  | Inherited => VText
  | Undefined => VNaN
  end.

(** [(x || 0) + a]. *)
Definition or_zero_plus (x : Lookup) (a : Z) : JsVal :=
  match x with
  | Own (VNum z) => VNum (z + a)
  | Own VNaN => VNum a
  | Own VText => VText
  | Inherited => VText
  | Undefined => VNum a
  end.

(** [{ income: 0, expense: 0 }]. *)
Definition new_bucket : JsObject :=
  <["income" := VNum 0]> (<["expense" := VNum 0]> ∅).

(** [o[k] += a]. *)
Definition add_amount (k : string) (a : Z) (o : JsObject) : JsObject :=
  js_set o k (plus_amount (js_get o k) a).

(** One turn of the first [forEach].  Under a month name that
    [Object.prototype] has, [monthly[month]] is truthy from the start:
    no bucket is made and [+=] writes to that member, not to [monthly]. *)
Definition monthly_step (h : Host) (monthly : gmap string JsObject)
    (t : ITransaction) : gmap string JsObject :=
  let month := month_short h (date t) in
  match monthly !! month with
  | Some bucket => <[month := add_amount (type t) (amount t) bucket]> monthly
  | None =>
      if inherited month then monthly
      else <[month := add_amount (type t) (amount t) new_bucket]> monthly
  end.

(** [t.category || "Uncategorized"]. *)
Definition category_label (t : ITransaction) : string :=
  if falsy (category t) then "Uncategorized" else default "" (category t).

(** One turn of the second [forEach]. *)
Definition category_step (categoryTotals : JsObject) (t : ITransaction)
  : JsObject :=
  if String.eqb (type t) "expense" then
    let cat := category_label t in
    js_set categoryTotals cat
      (or_zero_plus (js_get categoryTotals cat) (amount t))
  else categoryTotals.

(** GET /api/transactions/analytics *)
Definition getAnalytics (h : Host) (db : Store) (user : ObjectId) : Response :=
  let transactions := List.filter (fun t => String.eqb (userId t) user) db in
  let monthly := foldl (monthly_step h) ∅ transactions in
  let categoryTotals := foldl category_step ∅ transactions in
  res_json (Analytics monthly categoryTotals).

(** ** Predicates and sums used in the statements *)

(** [_id] is the primary key of the collection. *)
Definition unique_ids (db : Store) : Prop := NoDup (_id <$> db).

(** The documents of one owner, in store order. *)
Definition owned (user : ObjectId) (db : Store) : list ITransaction :=
  List.filter (fun t => String.eqb (userId t) user) db.

(** The sum of [amount] over a list of documents. *)
Definition sum_amount (l : list ITransaction) : Z :=
  foldr (fun t s => amount t + s) 0 l.

(** The sum of the sizes of the amounts of a list of documents.  While
    it stays within [MAX_SAFE], every sum of some of these amounts, in
    any order, is exact in double precision. *)
Definition sum_abs (l : list ITransaction) : Z :=
  foldr (fun t s => Z.abs (amount t) + s) 0 l.

(** The documents of a list that have a given type. *)
Definition of_type (k : string) (l : list ITransaction) : list ITransaction :=
  List.filter (fun t => bool_decide (type t = k)) l.


(** The day after a civil date. *)
Definition next_day (c : Z * Z * Z) : Z * Z * Z :=
  let '(y, m, d) := c in
  if d <? days_in_month y m then (y, m, d + 1)
  else if m <? 12 then (y, m + 1, 1)
  else (y + 1, 1, 1).


(** No month name of the server's locale is the name of a member of
    [Object.prototype]. *)
Definition plain_months (h : Host) : Prop :=
  forall i, monthShort h i ∉ Object_prototype.

(** The label under which the category breakdown files a document: its
    category, or ["Uncategorized"] when it has none or an empty one. *)
Definition label_of (t : ITransaction) : string :=
  match category t with
  | Some c => if String.eqb c "" then "Uncategorized" else c
  | None => "Uncategorized"
  end.


(** The documents a list request selects: the caller's own, narrowed by
    the type, the category and the date bounds that the query gives. *)
Definition selected (user : ObjectId) (q : ListQuery) (t : ITransaction) : Prop :=
  userId t = user
  /\ (forall ty, q_type q = Some ty -> ty <> "" -> type t = ty)
  /\ (forall c, q_category q = Some c -> c <> "" -> category t = Some c)
  /\ (forall d, q_startDate q = Given d -> d <= date t)
  /\ (forall d, q_endDate q = Given d -> date t <= d).

#[global] Instance forall_Some_dec {A : Type} (o : option A) (R : A -> Prop)
    `{forall x, Decision (R x)} : Decision (forall x, o = Some x -> R x).
Proof.
  destruct o as [a|].
  - destruct (decide (R a)) as [Ha|Ha].
    + left. intros x [= <-]. exact Ha.
    + right. intros H'. apply Ha, H'. reflexivity.
  - left. discriminate.
Defined.

#[global] Instance forall_Given_dec {A : Type} (f : Field A) (R : A -> Prop)
    `{forall x, Decision (R x)} : Decision (forall x, f = Given x -> R x).
Proof.
  destruct f as [|a|].
  - left. discriminate.
  - destruct (decide (R a)) as [Ha|Ha].
    + left. intros x [= <-]. exact Ha.
    + right. intros H'. apply Ha, H'. reflexivity.
  - left. discriminate.
Defined.

#[global] Instance selected_dec user q t : Decision (selected user q t).
Proof. unfold selected. apply _. Defined.

(** Both date bounds of a query, where given, are dates. *)
Definition dated_bounds (q : ListQuery) : Prop :=
  q_startDate q <> Uncastable /\ q_endDate q <> Uncastable.

(** Two queries with the same filter parameters. *)
Definition same_filter (q q0 : ListQuery) : Prop :=
  q_type q = q_type q0 /\ q_category q = q_category q0
  /\ q_startDate q = q_startDate q0 /\ q_endDate q = q_endDate q0.

(** A page number and a page size whose product, like themselves, stays
    within the range of exact integers. *)
Definition safe_page (p L : Z) : Prop :=
  p < MAX_SAFE /\ L < MAX_SAFE /\ (p - 1) * L < MAX_SAFE.

(** The accumulator of the group keyed [k] in the result of a [$group]
    stage. *)
Definition assoc {K V : Type} `{EqDecision K} (k : K) (gs : list (K * V))
  : option V :=
  snd <$> List.find (fun g => bool_decide (g.1 = k)) gs.

(** The owner's documents dated [startDate] or later whose date falls,
    in UTC, in the calendar month [(y, m)]. *)
Definition in_window_month (startDate : Date) (user : ObjectId) (y m : Z)
    (db : Store) : list ITransaction :=
  List.filter
    (fun t => bool_decide (((civil_from_days (Day (date t))).1.1,
                            (civil_from_days (Day (date t))).1.2) = (y, m)))
    (List.filter
       (fun t => String.eqb (userId t) user && (startDate <=? date t)) db).

(** The documents carried by a list response. *)
Definition transactions_of (r : Response) : list ITransaction :=
  match body r with
  | Page transactions _ _ _ => transactions
  | _ => []
  end.

(** ** A small collection for the examples *)

Module Sample.
Definition alice : ObjectId := "aaaaaaaaaaaaaaaaaaaaaaaa".
Definition bob : ObjectId := "bbbbbbbbbbbbbbbbbbbbbbbb".

(** 2025-01-10, 2024-01-20, 2025-09-01 and 2025-02-01, at 00:00 UTC. *)
Definition coffee : ITransaction :=
  mkTransaction "65a000000000000000000001" alice "Coffee" 5 "expense"
    (Some "Food") 1736467200000 1736467200000 1736467200000.
Definition salary : ITransaction :=
  mkTransaction "65a000000000000000000002" alice "Salary" 1000 "income"
    None 1705708800000 1705708800000 1705708800000.
Definition rent : ITransaction :=
  mkTransaction "65a000000000000000000003" bob "Rent" 700 "expense"
    (Some "") 1756684800000 1756684800000 1756684800000.
Definition books : ITransaction :=
  mkTransaction "65a000000000000000000004" alice "Books" 40 "expense"
    (Some "Food") 1736467200000 1738368000000 1738368000000.

Definition store : Store := [coffee; salary; rent; books].

Definition no_updates : Updates :=
  mkUpdates Absent Absent Absent Absent Absent Absent.
Definition query (page limit : option string) : ListQuery :=
  mkListQuery page limit Absent Absent None None.

(** Two ranks for Alice's two documents of 2025-01-10: the coffee
    first, and the books first. *)
Definition coffee_first (id : ObjectId) : Z :=
  if String.eqb id "65a000000000000000000001" then 0 else 1.
Definition books_first (id : ObjectId) : Z :=
  if String.eqb id "65a000000000000000000004" then 0 else 1.
End Sample.

(** ** Further notions used in the statements *)

(** The documents of a list stored with exactly the category [c]
    ([None] for an absent one). *)
Definition with_category (c : option string) (l : list ITransaction)
  : list ITransaction :=
  List.filter (fun t => bool_decide (category t = c)) l.

(** The number held by a property, when it holds one. *)
Definition number_of (v : JsVal) : option Z :=
  match v with
  | VNum z => Some z
  | _ => None
  end.

(** The sum of the numbers among the entries of an object. *)
Definition sum_values (m : gmap string JsVal) : Z :=
  map_fold (fun _ v s => default 0 (number_of v) + s) 0 m.



(** The value that a field gives, if it gives one. *)
Definition value_of {T : Type} (f : Field T) : option T :=
  match f with
  | Given v => Some v
  | _ => None
  end.

(** Whether every value of an update body can be cast to the type of its
    path: the owner, if given, is the text of an ObjectId, and no other
    value is refused. *)
Definition castable (updates : Updates) : bool :=
  match set_userId updates with
  | Absent => true
  | Given s => isValidObjectId s
  | Uncastable => false
  end
  && bool_decide (set_title updates <> Uncastable)
  && bool_decide (set_amount updates <> Uncastable)
  && bool_decide (set_type updates <> Uncastable)
  && bool_decide (set_category updates <> Uncastable)
  && bool_decide (set_date updates <> Uncastable).


(** The number held by an optional property, 0 when there is none. *)
Definition held (o : option JsVal) : Z := default 0 (o ≫= number_of).

(** A bucket of the monthly breakdown that holds the income [i] and the
    expense [e]. *)
Definition bucket_amounts (b : JsObject) (i e : Z) : Prop :=
  b !! "income" = Some (VNum i) /\ b !! "expense" = Some (VNum e).

(** The sums of the numbers under [income] and under [expense] in the
    buckets of a [monthly] object. *)
Definition sum_incomes (m : gmap string JsObject) : Z :=
  map_fold (fun _ b s => held (b !! "income") + s) 0 m.
Definition sum_expenses (m : gmap string JsObject) : Z :=
  map_fold (fun _ b s => held (b !! "expense") + s) 0 m.



(** Whether the text, after its leading white space, begins with a
    minus sign. *)
Definition negative (s : string) : bool :=
  match trim_start s with
  | String "-"%char _ => true
  | _ => false
  end.

(** Every bucket of a [monthly] object holds a number under [k]. *)
Definition buckets_hold (k : string) (m : gmap string JsObject) : Prop :=
  forall name b, m !! name = Some b -> exists x, b !! k = Some (VNum x).




(** ** The calendar, one era at a time *)

(** The part of [civil_from_days] that works within one era of 400
    years: from the day of the era to the year of the era (which begins
    in March), the month and the day. *)
Definition civil_of_doe (doe : Z) : Z * Z * Z :=
  let yoe := (doe - doe / 1460 + doe / 36524 - doe / 146096) / 365 in
  let doy := doe - (365 * yoe + yoe / 4 - yoe / 100) in
  let mp := (5 * doy + 2) / 153 in
  let d := doy - (153 * mp + 2) / 5 + 1 in
  let m := if mp <? 10 then mp + 3 else mp - 9 in
  (yoe, m, d).

(** The civil year of a month of a year of the era. *)
Definition civil_year (yoe m : Z) : Z := if m <=? 2 then yoe + 1 else yoe.

Definition triple_eqb (a b : Z * Z * Z) : bool :=
  (a.1.1 =? b.1.1) && (a.1.2 =? b.1.2) && (a.2 =? b.2).

(** From one day of the era to the next, the civil date moves to the
    next day of the calendar. *)
Definition step_ok (doe : Z) : bool :=
  let '(yoe, m, d) := civil_of_doe doe in
  let '(yoe', m', d') := civil_of_doe (doe + 1) in
  triple_eqb (next_day (civil_year yoe m, m, d)) (civil_year yoe' m', m', d').

(** [P] holds of the [n] integers from [z] on. *)
Fixpoint all_below (n : nat) (z : Z) (P : Z -> bool) : bool :=
  match n with
  | O => true
  | S n' => P z && all_below n' (z + 1) P
  end.

(** ** Users: [userModel.ts] *)

(** A stored user: the fields of [IUser], the [_id] given by the store
    and the two timestamps. *)
Record IUser : Type := mkUser {
  u_id : ObjectId;
  u_name : string;
  u_email : string;
  u_password : string;
  u_createdAt : Date;
  u_updatedAt : Date;
}.

Abbreviation Users := (list IUser) (only parsing).

(** A user document read with [select("-password")]. *)
Record PublicUser : Type := mkPublicUser {
  p_id : ObjectId;
  p_name : string;
  p_email : string;
  p_createdAt : Date;
  p_updatedAt : Date;
}.

Definition without_password (u : IUser) : PublicUser :=
  mkPublicUser (u_id u) (u_name u) (u_email u) (u_createdAt u) (u_updatedAt u).

(** [User.findOne({ email })]. *)
Definition User_findOne (users : Users) (email : string) : option IUser :=
  snd <$> list_find (fun u => u_email u = email) users.

(** [User.findById(id)] on an id that is the text of an ObjectId. *)
Definition User_findById (users : Users) (id : string) : option IUser :=
  snd <$> list_find (fun u => u_id u = lower_hex_string id) users.

(** ** Authentication: [authController.ts] and [authMiddleware.ts] *)

Inductive AuthBody : Type :=
| AuthMessage (message : string)
| Session (id : ObjectId) (name email token : string)
| Profile (user : PublicUser).

Record AuthResponse : Type := mkAuthResponse {
  auth_status : Z;
  auth_body : AuthBody;
}.

(** The body of POST /api/auth/register; [None] is an absent field. *)
Record RegisterBody : Type := mkRegisterBody {
  reg_name : option string;
  reg_email : option string;
  reg_password : option string;
}.

(** The body of POST /api/auth/login, both fields present. *)
Record LoginBody : Type := mkLoginBody {
  login_email : string;
  login_password : string;
}.

(** What [protect] does with a request: it calls [next()] with the user
    it has attached, or it answers itself. *)
Inductive Guarded : Type :=
| Next (user : PublicUser)
| Answered (r : Response).

(** [h.split(" ")]: every single space separates two fields. *)
Fixpoint split_space (s : string) : list string :=
  match s with
  | EmptyString => [EmptyString]
  | String c s' =>
      if Ascii.eqb c " "%char then EmptyString :: split_space s'
      else match split_space s' with
           | h :: t => String c h :: t
           | [] => [String c EmptyString]
           end
  end.

Section Auth.
(** The two libraries the controller relies on.  [bcrypt_hash p salt] is
    [bcrypt.hash], [bcrypt_compare p h] is [bcrypt.compare]; [jwt_sign
    now id] is [jwt.sign({ id }, secret, { expiresIn: "30d" })] at time
    [now]; [jwt_verify now token] is [jwt.verify(token, secret)] at time
    [now]: [None] when it throws, [Some None] for a payload without
    [id], [Some (Some id)] otherwise. *)
Variable bcrypt_hash : string -> string -> string.
Variable bcrypt_compare : string -> string -> bool.
Variable JWT_SECRET : option string.
Variable jwt_sign : Date -> string -> ObjectId -> string.
Variable jwt_verify : Date -> string -> string -> option (option string).

(** [process.env.JWT_SECRET || " "], the secret that signs. *)
Definition signing_secret : string :=
  if falsy JWT_SECRET then " " else default "" JWT_SECRET.

(** [process.env.JWT_SECRET || ""], the secret that verifies. *)
Definition verifying_secret : string :=
  if falsy JWT_SECRET then "" else default "" JWT_SECRET.

Definition generateToken (now : Date) (id : ObjectId) : string :=
  jwt_sign now signing_secret id.

(** POST /api/auth/register; [fresh] is the [_id] the store assigns and
    [salt] the outcome of [bcrypt.genSalt(10)]. *)
Definition registerUser (now : Date) (fresh : ObjectId) (salt : string)
    (users : Users) (req : RegisterBody) : AuthResponse * Users :=
  if falsy (reg_name req) || falsy (reg_email req) || falsy (reg_password req)
  then (mkAuthResponse 400 (AuthMessage "Please fill all fields"), users)
  else
    let name := default "" (reg_name req) in
    let email := default "" (reg_email req) in
    let password := default "" (reg_password req) in
    match User_findOne users email with
    | Some _ => (mkAuthResponse 400 (AuthMessage "User already exists"), users)
    | None =>
        let hashedPassword := bcrypt_hash password salt in
        let user := mkUser fresh name email hashedPassword now now in
        (mkAuthResponse 201
           (Session (u_id user) (u_name user) (u_email user)
              (generateToken now (u_id user))),
         users ++ [user])
    end.

(** POST /api/auth/login *)
Definition loginUser (now : Date) (users : Users) (req : LoginBody)
  : AuthResponse :=
  match User_findOne users (login_email req) with
  | None => mkAuthResponse 400 (AuthMessage "Invalid credentials")
  | Some user =>
      let isMatch := bcrypt_compare (login_password req) (u_password user) in
      if negb isMatch then mkAuthResponse 400 (AuthMessage "Invalid credentials")
      else mkAuthResponse 200
             (Session (u_id user) (u_name user) (u_email user)
                (generateToken now (u_id user)))
  end.

(** GET /api/auth/profile, for the user [protect] has attached. *)
Definition getProfile (users : Users) (user : PublicUser) : AuthResponse :=
  match User_findById users (p_id user) with
  | None => mkAuthResponse 404 (AuthMessage "User not found")
  | Some u => mkAuthResponse 200 (Profile (without_password u))
  end.

(** The middleware [protect], given the [Authorization] header.  An id
    in the token that is not the text of an ObjectId makes [findById]
    throw, which the [catch] answers like a failed verification. *)
Definition protect (now : Date) (users : Users) (authorization : option string)
  : Guarded :=
  if negb (falsy authorization)
     && String.prefix "Bearer" (default "" authorization) then
    let token := split_space (default "" authorization) !! 1%nat in
    if falsy token then
      Answered (res_status_json 401 (Message "Not authorized, token missing"))
    else
      match jwt_verify now verifying_secret (default "" token) with
      | None =>
          Answered (res_status_json 401 (Message "Not authorized, token failed"))
      | Some None =>
          Answered (res_status_json 401 (Message "Invalid token payload"))
      | Some (Some id) =>
          if negb (isValidObjectId id) then
            Answered (res_status_json 401 (Message "Not authorized, token failed"))
          else
            match User_findById users id with
            | None => Answered (res_status_json 401 (Message "User not found"))
            | Some u => Next (without_password u)
            end
      end
  else Answered (res_status_json 401 (Message "Not authorized, no token")).

(** ** Routing: [transactionRoutes.ts] *)

Inductive Method : Type :=
| GET
| POST
| PUT
| DELETE.

(** A request below the router's mount point: [path] holds the segments
    of the path, [[]] for [/]; the body is read as a create body by POST
    and as an update body by PUT. *)
Record Request : Type := mkRequest {
  method : Method;
  path : list string;
  authorization : option string;
  query : ListQuery;
  create_body : NewTransaction;
  update_body : Updates;
}.

(** A route [(protect, handler)]: the handler runs only after [next()]. *)
Definition protected (now : Date) (users : Users) (db : Store) (req : Request)
    (handler : PublicUser -> Response * Store) : Response * Store :=
  match protect now users (authorization req) with
  | Answered r => (r, db)
  | Next user => handler user
  end.

(** The router, its routes tried in the order of their registration;
    [None] when no route takes the request.  [fresh] is the [_id] the
    store would assign, [tie] the rank it gives to documents of equal
    date if it is queried. *)
Definition transactionRoutes (h : Host) (tie : ObjectId -> Z) (now : Date)
    (fresh : ObjectId) (users : Users) (db : Store) (req : Request)
  : option (Response * Store) :=
  match path req, method req with
  | [], GET =>
      Some (protected now users db req
              (fun user => (getTransactions tie db (p_id user) (query req), db)))
  | [], POST =>
      Some (protected now users db req
              (fun user =>
                 createTransaction now fresh db (p_id user) (create_body req)))
  | [seg], GET =>
      if String.eqb seg "summary" then
        Some (protected now users db req
                (fun user => (getSummary h now db (p_id user), db)))
      else if String.eqb seg "analytics" then
        Some (protected now users db req
                (fun user => (getAnalytics h db (p_id user), db)))
      else
        Some (protected now users db req
                (fun user => (getTransactionById db (p_id user) seg, db)))
  | [id], PUT =>
      Some (protected now users db req
              (fun user =>
                 updateTransaction now db (p_id user) id (update_body req)))
  | [id], DELETE =>
      Some (protected now users db req
              (fun user => deleteTransaction db (p_id user) id))
  | _, _ => None
  end.
End Auth.

(** Whether a text is free of spaces, as the compact form of a token is. *)
Fixpoint no_space (s : string) : bool :=
  match s with
  | String c s' => negb (Ascii.eqb c " "%char) && no_space s'
  | EmptyString => true
  end.

(** The lifetime given to [jwt.sign]: ["30d"], in seconds, the unit in
    which a token records the times of its issue and of its expiry. *)
Definition token_lifetime : Z := 30 * 86400.

(** The clock of a token: whole seconds since the epoch. *)
Definition seconds (t : Date) : Z := t / 1000.

(** ** Stand-ins for the two libraries, for the examples *)

Module Toy.
(** A hash that only marks the password, and ignores the salt. *)
Definition hash (password salt : string) : string := "hashed:" +:+ password.
Definition compare (password hashed : string) : bool :=
  String.eqb ("hashed:" +:+ password) hashed.
(** [s] without its prefix [p], when it has it. *)
Fixpoint strip_prefix (p s : string) : option string :=
  match p, s with
  | EmptyString, _ => Some s
  | String a p', String b s' =>
      if Ascii.eqb a b then strip_prefix p' s' else None
  | String _ _, EmptyString => None
  end.
(** A token is the secret, a dot and the id; it verifies under the
    secret it starts with, at any time, and an empty secret is refused. *)
Definition sign (now : Date) (secret : string) (id : ObjectId) : string :=
  secret +:+ "." +:+ id.
Definition verify (now : Date) (secret token : string)
  : option (option string) :=
  if String.eqb secret "" then None
  else Some <$> strip_prefix (secret +:+ ".") token.

Definition carol : IUser :=
  mkUser "cccccccccccccccccccccccc" "Carol" "carol@example.org"
    (hash "secret" "salt") 5 5.
Definition users : Users := [carol].
End Toy.

(** * Properties *)

(** ** The store *)

Lemma findById_None (db : Store) (id : string) :
  findById db id = None <-> forall t, t ∈ db -> _id t <> lower_hex_string id.
Proof.
  unfold findById. rewrite list_find_None, Forall_forall. reflexivity.
Qed.

Lemma findById_Some (db : Store) (id : string) (i : nat) (t : ITransaction) :
  unique_ids db ->
  db !! i = Some t -> _id t = lower_hex_string id ->
  findById db id = Some (i, t).
Proof.
  intros Hu Hi Ht. unfold findById. apply list_find_Some.
  split; [exact Hi|]. split; [exact Ht|].
  intros j y Hj Hlt Hy.
  assert (i = j) as ->; [|lia].
  eapply (NoDup_lookup (_id <$> db)); [exact Hu| |].
  - rewrite list_lookup_fmap, Hi. reflexivity.
  - rewrite list_lookup_fmap, Hj. simpl. congruence.
Qed.

Lemma eqb_string_false (a b : string) : a <> b -> String.eqb a b = false.
Proof. intros H. apply String.eqb_neq. exact H. Qed.

(** ** Ownership guard *)

Section OwnershipGuard.
Variables (now : Date) (db : Store) (user : ObjectId) (id : string)
          (updates : Updates).
Hypothesis Hvalid : isValidObjectId id = true.

Lemma guard_missing :
  (forall t, t ∈ db -> _id t <> lower_hex_string id) ->
  getTransactionById db user id
    = res_status_json 404 (Message "Transaction not found")
  /\ updateTransaction now db user id updates
    = (res_status_json 404 (Message "Transaction not found"), db)
  /\ deleteTransaction db user id
    = (res_status_json 404 (Message "Transaction not found"), db).
Proof.
  intros Hnone. apply findById_None in Hnone.
  unfold getTransactionById, updateTransaction, deleteTransaction.
  rewrite Hvalid, Hnone. simpl. auto.
Qed.

Lemma guard_foreign (i : nat) (t : ITransaction) :
  unique_ids db -> db !! i = Some t -> _id t = lower_hex_string id ->
  userId t <> user ->
  getTransactionById db user id = res_status_json 403 (Message "Not authorized")
  /\ updateTransaction now db user id updates
    = (res_status_json 403 (Message "Not authorized"), db)
  /\ deleteTransaction db user id
    = (res_status_json 403 (Message "Not authorized"), db).
Proof.
  intros Hu Hi Ht Hne. pose proof (findById_Some _ _ _ _ Hu Hi Ht) as Hf.
  unfold getTransactionById, updateTransaction, deleteTransaction.
  rewrite Hvalid, Hf. simpl. rewrite (eqb_string_false _ _ Hne). simpl. auto.
Qed.

Lemma guard_owner (i : nat) (t : ITransaction) :
  unique_ids db -> db !! i = Some t -> _id t = lower_hex_string id ->
  userId t = user ->
  getTransactionById db user id = res_json (Document t)
  /\ updateTransaction now db user id updates
    = match castUpdates updates with
      | Some casted =>
          (res_json (Document (applyUpdates now casted t)),
           <[i := applyUpdates now casted t]> db)
      | None => (server_error, db)
      end
  /\ deleteTransaction db user id
    = (res_json (Message "Transaction deleted"), delete i db).
Proof.
  intros Hu Hi Ht Heq. pose proof (findById_Some _ _ _ _ Hu Hi Ht) as Hf.
  unfold getTransactionById, updateTransaction, deleteTransaction.
  rewrite Hvalid, Hf. simpl. rewrite Heq, String.eqb_refl. simpl. auto.
Qed.
End OwnershipGuard.

(** C1, as amended.  For a well-formed id and a collection keyed by
    [_id], get-by-id, update and delete answer 404 when no document has
    the id, whoever the caller is; 403 when the document exists and its
    owner is not the caller, leaving the store as it was; and only when
    owner and caller are equal is the document returned, modified or
    deleted (the update then writes the body once its values are cast,
    and writes nothing when a cast fails).  An id that is not well formed
    is answered 400 before any lookup. *)
Theorem ownership_guard (now : Date) (db : Store) (user : ObjectId)
    (id : string) (updates : Updates) :
  unique_ids db ->
  (isValidObjectId id = false ->
     getTransactionById db user id = res_status_json 400 (Message "Invalid id")
     /\ updateTransaction now db user id updates
        = (res_status_json 400 (Message "Invalid id"), db)
     /\ deleteTransaction db user id
        = (res_status_json 400 (Message "Invalid id"), db))
  /\ (isValidObjectId id = true ->
      ((forall t, t ∈ db -> _id t <> lower_hex_string id) ->
         status (getTransactionById db user id) = 404
         /\ status (updateTransaction now db user id updates).1 = 404
         /\ (updateTransaction now db user id updates).2 = db
         /\ status (deleteTransaction db user id).1 = 404
         /\ (deleteTransaction db user id).2 = db)
      /\ (forall i t, db !! i = Some t -> _id t = lower_hex_string id ->
          (userId t <> user ->
             status (getTransactionById db user id) = 403
             /\ status (updateTransaction now db user id updates).1 = 403
             /\ (updateTransaction now db user id updates).2 = db
             /\ status (deleteTransaction db user id).1 = 403
             /\ (deleteTransaction db user id).2 = db)
          /\ (userId t = user ->
             getTransactionById db user id = res_json (Document t)
             /\ (forall casted, castUpdates updates = Some casted ->
                 updateTransaction now db user id updates
                 = (res_json (Document (applyUpdates now casted t)),
                    <[i := applyUpdates now casted t]> db))
             /\ (castUpdates updates = None ->
                 updateTransaction now db user id updates = (server_error, db))
             /\ deleteTransaction db user id
                = (res_json (Message "Transaction deleted"), delete i db)))).
Proof.
  intros Hu. split.
  - intros Hinv.
    unfold getTransactionById, updateTransaction, deleteTransaction.
    rewrite Hinv. simpl. auto.
  - intros Hvalid. split.
    + intros Hnone.
      destruct (guard_missing now db user id updates Hvalid Hnone)
        as (-> & -> & ->).
      simpl. auto.
    + intros i t Hi Ht. split.
      * intros Hne.
        destruct (guard_foreign now db user id updates Hvalid i t Hu Hi Ht Hne)
          as (-> & -> & ->).
        simpl. auto.
      * intros Heq.
        destruct (guard_owner now db user id updates Hvalid i t Hu Hi Ht Heq)
          as (Hg & Hup & Hd).
        split; [exact Hg|]. split; [|split; [|exact Hd]].
        -- intros casted Hc. rewrite Hup, Hc. reflexivity.
        -- intros Hc. rewrite Hup, Hc. reflexivity.
Qed.

Lemma sample_store_unique_ids : unique_ids Sample.store.
Proof. unfold unique_ids. apply (bool_decide_unpack _). vm_compute. exact I. Defined.

(** The guard at work on the sample collection: Bob asks for Alice's
    coffee and is refused, Alice receives it. *)
Lemma ownership_guard_witness :
  unique_ids Sample.store
  /\ isValidObjectId "65A000000000000000000001" = true
  /\ Sample.store !! 0%nat = Some Sample.coffee
  /\ userId Sample.coffee <> Sample.bob
  /\ status (getTransactionById Sample.store Sample.bob
               "65A000000000000000000001") = 403
  /\ getTransactionById Sample.store Sample.alice "65A000000000000000000001"
     = res_json (Document Sample.coffee).
Proof.
  pose proof (ownership_guard 0 Sample.store Sample.bob
                "65A000000000000000000001" Sample.no_updates
                sample_store_unique_ids) as [_ Hb].
  pose proof (ownership_guard 0 Sample.store Sample.alice
                "65A000000000000000000001" Sample.no_updates
                sample_store_unique_ids) as [_ Ha].
  specialize (Hb eq_refl) as [_ Hb].
  specialize (Ha eq_refl) as [_ Ha].
  specialize (Hb 0%nat Sample.coffee eq_refl eq_refl) as [Hb _].
  specialize (Ha 0%nat Sample.coffee eq_refl eq_refl) as [_ Ha].
  assert (userId Sample.coffee <> Sample.bob) as Hne by discriminate.
  split; [exact sample_store_unique_ids|].
  split; [reflexivity|]. split; [reflexivity|]. split; [exact Hne|].
  split; [exact (proj1 (Hb Hne))|exact (proj1 (Ha eq_refl))].
Defined.

(** C1, as stated, fails: no document has the id ["abc"], yet the answer
    is 400 and not 404, because the shape of the id is checked first. *)
Lemma malformed_id_is_not_a_404 :
  ~ (forall (db : Store) (user : ObjectId) (id : string),
       (forall t, t ∈ db -> _id t <> id) ->
       status (getTransactionById db user id) = 404).
Proof.
  intros H.
  specialize (H Sample.store Sample.alice "abc").
  assert (forall t, t ∈ Sample.store -> _id t <> "abc") as Hnone.
  { apply Forall_forall. unfold Sample.store. repeat constructor; discriminate. }
  specialize (H Hnone). vm_compute in H. discriminate H.
Qed.

(** ** Update *)

Lemma castUpdates_castable (updates : Updates) :
  castable updates = true ->
  castUpdates updates
  = Some {| c_userId := lower_hex_string <$> value_of (set_userId updates);
            c_title := value_of (set_title updates);
            c_amount := value_of (set_amount updates);
            c_type := value_of (set_type updates);
            c_category := value_of (set_category updates);
            c_date := value_of (set_date updates) |}.
Proof.
  destruct updates as [u a b c d e]. unfold castable, castUpdates. simpl.
  destruct u as [|s|]; simpl; [|destruct (isValidObjectId s); simpl|];
    try discriminate;
    destruct a, b, c, d, e; simpl; intros H; try discriminate H; reflexivity.
Qed.

Lemma castUpdates_not_castable (updates : Updates) :
  castable updates = false -> castUpdates updates = None.
Proof.
  destruct updates as [u a b c d e]. unfold castable, castUpdates. simpl.
  destruct u as [|s|]; simpl; [|destruct (isValidObjectId s); simpl|];
    try reflexivity;
    destruct a, b, c, d, e; simpl; intros H; try discriminate H; reflexivity.
Qed.





(** The same refusal seen from the claim's side: a body whose date is
    the text of no date passes both checks and refreshes nothing. *)
Lemma update_with_a_bad_date_refreshes_nothing :
  ~ (forall (now : Date) (db : Store) (user : ObjectId) (id : string)
            (updates : Updates) (i : nat) (t : ITransaction),
       isValidObjectId id = true -> db !! i = Some t ->
       _id t = lower_hex_string id -> userId t = user ->
       exists t', (updateTransaction now db user id updates).2 !! i = Some t'
                  /\ updatedAt t' = now).
Proof.
  intros H.
  destruct (H 7 Sample.store Sample.alice "65a000000000000000000001"
              (mkUpdates Absent Absent Absent Absent Absent Uncastable)
              0%nat Sample.coffee eq_refl eq_refl eq_refl eq_refl)
    as (t' & Ht & Hup).
  vm_compute in Ht. injection Ht as <-. vm_compute in Hup. discriminate Hup.
Qed.

(** ** Creation *)

Lemma valid_type_spec (ty : string) :
  valid_type ty = true <-> ty = "income" \/ ty = "expense".
Proof.
  unfold valid_type, type_enum. rewrite bool_decide_eq_true.
  split.
  - intros H. inversion H as [|? ? ? H']; subst; [left; reflexivity|].
    inversion H' as [|? ? ? H'']; subst; [right; reflexivity|].
    inversion H''.
  - intros [-> | ->]; repeat constructor.
Qed.

Lemma valid_type_false (ty : string) :
  valid_type ty = false <-> ty <> "income" /\ ty <> "expense".
Proof.
  rewrite <- not_true_iff_false, valid_type_spec. tauto.
Qed.

Lemma falsy_field_Given (s : string) : s <> "" -> falsy_field (Given s) = false.
Proof. intros H. simpl. apply String.eqb_neq. exact H. Qed.

(** C8, as amended.  A create request whose title or type is absent or
    empty, or whose amount is absent, is answered 400 and creates
    nothing.  Otherwise, when title, type and category are texts, the
    amount is a number, the date (if given) is a date and the type is
    ["income"] or ["expense"], it is answered 201 with the new document,
    which is owned by the caller and is the one document added to the
    store.  Any other type is refused by the schema's [enum], and an
    amount that is no number, a date that is no date or a value that is
    no text is refused by the schema's casts: nothing is created and the
    answer is 500. *)
Theorem create_outcomes (now : Date) (fresh : ObjectId) (db : Store)
    (user : ObjectId) (req : NewTransaction) :
  (falsy_field (new_title req) = true \/ new_amount req = Absent
   \/ falsy_field (new_type req) = true ->
     createTransaction now fresh db user req
     = (res_status_json 400 (Message "title, amount and type are required"), db))
  /\ (forall ttl amt ty,
        new_title req = Given ttl -> ttl <> "" ->
        new_amount req = Given amt ->
        new_type req = Given ty -> ty <> "" ->
        new_category req <> Uncastable -> new_date req <> Uncastable ->
        (ty = "income" \/ ty = "expense" ->
           let doc := {| _id := fresh; userId := user; title := ttl;
                         amount := amt; type := ty;
                         category := value_of (new_category req);
                         date := default now (value_of (new_date req));
                         createdAt := now; updatedAt := now |} in
           createTransaction now fresh db user req
           = (res_status_json 201 (Document doc), db ++ [doc]))
        /\ (ty <> "income" -> ty <> "expense" ->
            createTransaction now fresh db user req = (server_error, db)))
  /\ (falsy_field (new_title req) = false -> new_amount req <> Absent ->
      falsy_field (new_type req) = false ->
      new_title req = Uncastable \/ new_amount req = Uncastable
      \/ new_type req = Uncastable \/ new_category req = Uncastable
      \/ new_date req = Uncastable ->
      createTransaction now fresh db user req = (server_error, db)).
Proof.
  unfold createTransaction. split; [|split].
  - intros Hm.
    assert (falsy_field (new_title req) || absent (new_amount req)
            || falsy_field (new_type req) = true) as ->; [|reflexivity].
    destruct Hm as [H | [H | H]]; rewrite H.
    + reflexivity.
    + simpl. rewrite orb_true_r. reflexivity.
    + apply orb_true_r.
  - intros ttl amt ty Ht Hne Ha Hty Hne' Hcat Hdate.
    unfold Transaction_create.
    rewrite Ht, Ha, Hty, (falsy_field_Given _ Hne'), (falsy_field_Given _ Hne).
    cbn [absent orb cast mbind option_bind default].
    destruct (new_category req) as [|c|] eqn:Hc; [| |congruence];
      destruct (new_date req) as [|d|] eqn:Hd; try congruence;
      cbn [cast mbind option_bind default from_option id value_of];
      (split;
       [intros Hk; rewrite (proj2 (valid_type_spec ty) Hk); reflexivity
       |intros H1 H2; rewrite (proj2 (valid_type_false ty) (conj H1 H2));
        reflexivity]).
  - intros Ht Ha Hty Hbad. rewrite Ht, Hty.
    destruct (new_amount req) as [|amt|] eqn:Ham; [congruence| |].
    + cbn [absent orb]. unfold Transaction_create. rewrite Ham.
      destruct (new_title req) as [|ttl|] eqn:Htt; [discriminate Ht| |reflexivity].
      destruct (new_type req) as [|ty|] eqn:Hty'; [discriminate Hty| |reflexivity].
      destruct Hbad as [H | [H | [H | [H | H]]]]; try discriminate H;
        rewrite H; cbn [cast mbind option_bind]; [reflexivity|].
      destruct (new_category req); reflexivity.
    + cbn [absent orb]. unfold Transaction_create. rewrite Ham.
      destruct (new_title req); reflexivity.
Qed.

(** A complete request creates Alice's document; one without a title
    is answered 400; one whose date is the text of no date is answered
    500. *)
Lemma create_outcomes_witness :
  let req := mkNewTransaction (Given "Tea") (Given 3) (Given "expense")
               (Given "Food") Absent in
  createTransaction 9 "65a000000000000000000005" Sample.store Sample.alice req
  = (res_status_json 201
       (Document (mkTransaction "65a000000000000000000005" Sample.alice "Tea"
                    3 "expense" (Some "Food") 9 9 9)),
     Sample.store
       ++ [mkTransaction "65a000000000000000000005" Sample.alice "Tea"
             3 "expense" (Some "Food") 9 9 9])
  /\ createTransaction 9 "65a000000000000000000005" Sample.store Sample.alice
       (mkNewTransaction Absent (Given 3) (Given "expense") Absent Absent)
     = (res_status_json 400 (Message "title, amount and type are required"),
        Sample.store)
  /\ createTransaction 9 "65a000000000000000000005" Sample.store Sample.alice
       (mkNewTransaction (Given "Tea") (Given 3) (Given "expense") Absent
          Uncastable)
     = (server_error, Sample.store).
Proof.
  intros req. split; [|split].
  - assert ("Tea" <> "") as H1 by discriminate.
    assert ("expense" <> "") as H2 by discriminate.
    assert (new_category req <> Uncastable) as H3 by discriminate.
    assert (new_date req <> Uncastable) as H4 by discriminate.
    exact (proj1 (proj1 (proj2 (create_outcomes 9 "65a000000000000000000005"
                                  Sample.store Sample.alice req))
                    "Tea" 3 "expense" eq_refl H1 eq_refl eq_refl H2 H3 H4)
             (or_intror eq_refl)).
  - exact (proj1 (create_outcomes 9 "65a000000000000000000005" Sample.store
                    Sample.alice
                    (mkNewTransaction Absent (Given 3) (Given "expense")
                       Absent Absent))
             (or_introl eq_refl)).
  - assert (Given 3 <> @Absent Z) as Hn by discriminate.
    exact (proj2 (proj2 (create_outcomes 9 "65a000000000000000000005"
                           Sample.store Sample.alice
                           (mkNewTransaction (Given "Tea") (Given 3)
                              (Given "expense") Absent Uncastable)))
             eq_refl Hn eq_refl
             (or_intror (or_intror (or_intror (or_intror eq_refl))))).
Defined.

(** C8, as stated, fails: a request with a title, an amount and the type
    ["transfer"] misses nothing, yet it is answered 500, not 201, and it
    creates no document. *)
Lemma create_with_unknown_type_is_not_a_201 :
  ~ (forall (now : Date) (fresh : ObjectId) (db : Store) (user : ObjectId)
            (req : NewTransaction),
       falsy_field (new_title req) = false -> new_amount req <> Absent ->
       falsy_field (new_type req) = false ->
       status (createTransaction now fresh db user req).1 = 201).
Proof.
  intros H.
  specialize (H 9 "65a000000000000000000005" Sample.store Sample.alice
                (mkNewTransaction (Given "Tea") (Given 3) (Given "transfer")
                   Absent Absent)
                eq_refl).
  assert (Given 3 <> @Absent Z) as Hn by discriminate.
  specialize (H Hn eq_refl). vm_compute in H. discriminate H.
Qed.

(** ** Page and limit parameters *)

Lemma Math_max_ge (a : Z) (x : JsNum) (z : Z) :
  Math_max a x = JNum z -> a <= z.
Proof.
  destruct x as [|y|[|]]; simpl; try discriminate; intros [= <-]; lia.
Qed.

(** Whenever the page number and the page size resolve to numbers, both
    are at least 1. *)
Lemma resolved_at_least_1 (q : ListQuery) (p L : Z) :
  pageNum q = JNum p -> lim q = JNum L -> 1 <= p /\ 1 <= L.
Proof.
  unfold pageNum, lim. intros Hp HL.
  split; eapply Math_max_ge; eassumption.
Qed.

(** C9 at its failing input: [?page=abc&limit=abc].  [parseInt] yields
    [NaN], [Math.max(1, NaN)] is [NaN], so neither value is a number that
    is at least 1; the same holds for the empty texts of [?page=&limit=]. *)
Theorem malformed_page_resolves_to_NaN :
  pageNum (Sample.query (Some "abc") (Some "abc")) = JNaN
  /\ lim (Sample.query (Some "abc") (Some "abc")) = JNaN
  /\ pageNum (Sample.query (Some "") (Some "")) = JNaN
  /\ lim (Sample.query (Some "") (Some "")) = JNaN
  /\ ~ (forall q : ListQuery, exists p L,
          pageNum q = JNum p /\ lim q = JNum L /\ 1 <= p /\ 1 <= L).
Proof.
  repeat split; try reflexivity.
  intros H. destruct (H (Sample.query (Some "abc") (Some "abc")))
    as (p & L & Hp & _).
  vm_compute in Hp. discriminate Hp.
Qed.

(** ** Summary: totals *)

Lemma total_of_upsert (k k' : string) (x : Z) (gs : list (string * Z)) :
  total_of k (upsert k' (fun o => default 0 o + x) gs)
  = total_of k gs + (if decide (k' = k) then x else 0).
Proof.
  unfold total_of. induction gs as [|[k0 v] gs IH]; simpl.
  - destruct (decide (k' = k)) as [->|Hne].
    + rewrite String.eqb_refl. simpl. lia.
    + rewrite (eqb_string_false _ _ Hne). simpl. lia.
  - destruct (decide (k' = k0)) as [->|Hne]; simpl.
    + destruct (decide (k0 = k)) as [->|Hne'].
      * rewrite String.eqb_refl. simpl. lia.
      * rewrite (eqb_string_false _ _ Hne'). lia.
    + destruct (decide (k0 = k)) as [->|Hne'].
      * rewrite String.eqb_refl. simpl.
        rewrite decide_False by exact Hne. lia.
      * rewrite (eqb_string_false _ _ Hne'). exact IH.
Qed.

Lemma total_of_foldl (k : string) (l : list ITransaction)
    (gs : list (string * Z)) :
  total_of k
    (foldl (fun gs a => upsert (type a) (fun o => sum_acc amount o a) gs) gs l)
  = total_of k gs + sum_amount (of_type k l).
Proof.
  unfold sum_acc. revert gs. induction l as [|t l IH]; intros gs; simpl.
  - lia.
  - rewrite IH, total_of_upsert.
    destruct (decide (type t = k)) as [Hk|Hk].
    + rewrite bool_decide_eq_true_2 by exact Hk. simpl. lia.
    + rewrite bool_decide_eq_false_2 by exact Hk. lia.
Qed.

Lemma total_of_totals (k : string) (user : ObjectId) (db : Store) :
  total_of k (totals_pipeline user db) = sum_amount (of_type k (owned user db)).
Proof.
  unfold totals_pipeline, group_by. rewrite total_of_foldl. reflexivity.
Qed.





(** ** Summary: the monthly groups *)

Section GroupBy.
Context {A K V : Type} `{EqDecision K}.

Lemma assoc_upsert (k k' : K) (f : option V -> V) (gs : list (K * V)) :
  assoc k (upsert k' f gs)
  = if decide (k' = k) then Some (f (assoc k gs)) else assoc k gs.
Proof.
  unfold assoc. induction gs as [|[k0 v] gs IH]; simpl.
  - destruct (decide (k' = k)) as [->|Hne].
    + rewrite bool_decide_eq_true_2 by reflexivity. reflexivity.
    + rewrite bool_decide_eq_false_2 by exact Hne. reflexivity.
  - destruct (decide (k' = k0)) as [->|Hne]; simpl.
    + destruct (decide (k0 = k)) as [->|Hne'].
      * rewrite bool_decide_eq_true_2 by reflexivity. reflexivity.
      * rewrite bool_decide_eq_false_2 by exact Hne'. reflexivity.
    + destruct (decide (k0 = k)) as [->|Hne'].
      * rewrite bool_decide_eq_true_2 by reflexivity.
        rewrite decide_False by exact Hne. reflexivity.
      * rewrite bool_decide_eq_false_2 by exact Hne'. exact IH.
Qed.

Lemma upsert_keys (k : K) (f : option V -> V) (gs : list (K * V)) :
  (upsert k f gs).*1 = if decide (k ∈ gs.*1) then gs.*1 else gs.*1 ++ [k].
Proof.
  induction gs as [|[k0 v] gs IH]; cbn [upsert].
  - destruct (decide (k ∈ ([] : list (K * V)).*1)) as [Hin|Hin];
      [|reflexivity].
    apply elem_of_nil in Hin. contradiction.
  - rewrite fmap_cons. cbn [fst].
    destruct (decide (k = k0)) as [->|Hne].
    + rewrite decide_True by apply list_elem_of_here. reflexivity.
    + rewrite fmap_cons, IH. cbn [fst].
      destruct (decide (k ∈ gs.*1)) as [Hin|Hin].
      * rewrite decide_True by (apply list_elem_of_further; exact Hin).
        reflexivity.
      * rewrite decide_False; [reflexivity|].
        intros [?|?]%elem_of_cons; contradiction.
Qed.

Lemma upsert_NoDup (k : K) (f : option V -> V) (gs : list (K * V)) :
  NoDup gs.*1 -> NoDup (upsert k f gs).*1.
Proof.
  intros Hnd. rewrite upsert_keys.
  destruct (decide (k ∈ gs.*1)) as [Hin|Hin]; [exact Hnd|].
  apply NoDup_app. split; [exact Hnd|]. split; [|apply NoDup_singleton].
  intros x Hx ->%list_elem_of_singleton. contradiction.
Qed.

Lemma group_by_NoDup (key : A -> K) (acc : option V -> A -> V) (l : list A) :
  NoDup (group_by key acc l).*1.
Proof.
  unfold group_by.
  assert (forall gs : list (K * V), NoDup gs.*1 ->
            NoDup (foldl (fun gs a => upsert (key a) (fun o => acc o a) gs) gs l).*1)
    as Hgen.
  { induction l as [|a l IH]; intros gs Hgs; simpl; [exact Hgs|].
    apply IH, upsert_NoDup, Hgs. }
  apply Hgen, NoDup_nil_2.
Qed.

Lemma assoc_elem_of (k : K) (v : V) (gs : list (K * V)) :
  NoDup gs.*1 -> (k, v) ∈ gs <-> assoc k gs = Some v.
Proof.
  unfold assoc. induction gs as [|[k0 v0] gs IH]; simpl; intros Hnd.
  - split; [intros []%elem_of_nil|discriminate].
  - apply NoDup_cons in Hnd as [Hk0 Hnd].
    destruct (decide (k0 = k)) as [->|Hne].
    + rewrite bool_decide_eq_true_2 by reflexivity. simpl. split.
      * intros [[= ->]|Hin]%elem_of_cons; [reflexivity|].
        exfalso. apply Hk0. apply list_elem_of_fmap. exists (k, v). auto.
      * intros [= ->]. apply list_elem_of_here.
    + rewrite bool_decide_eq_false_2 by exact Hne.
      rewrite <- (IH Hnd). split.
      * intros [[= -> ->]|Hin]%elem_of_cons; [contradiction|exact Hin].
      * apply list_elem_of_further.
Qed.

Lemma assoc_group_by (key : A -> K) (acc : option V -> A -> V) (k : K)
    (l : list A) :
  assoc k (group_by key acc l)
  = foldl (fun o a => Some (acc o a)) None
      (List.filter (fun a => bool_decide (key a = k)) l).
Proof.
  unfold group_by.
  assert (forall gs : list (K * V),
            assoc k (foldl (fun gs a => upsert (key a) (fun o => acc o a) gs) gs l)
            = foldl (fun o a => Some (acc o a)) (assoc k gs)
                (List.filter (fun a => bool_decide (key a = k)) l)) as Hgen.
  { induction l as [|a l IH]; intros gs; simpl; [reflexivity|].
    rewrite IH, assoc_upsert.
    destruct (decide (key a = k)) as [Hk|Hk].
    - rewrite bool_decide_eq_true_2 by exact Hk. reflexivity.
    - rewrite bool_decide_eq_false_2 by exact Hk. reflexivity. }
  apply Hgen.
Qed.
End GroupBy.

Lemma sum_amount_if (k : string) (l : list ITransaction) :
  foldr (fun t s => amount_if k t + s) 0 l = sum_amount (of_type k l).
Proof.
  induction l as [|t l IH]; simpl; [reflexivity|].
  unfold amount_if at 1. destruct (String.eqb_spec (type t) k) as [Hk|Hk].
  - rewrite bool_decide_eq_true_2 by exact Hk. simpl. lia.
  - rewrite bool_decide_eq_false_2 by exact Hk. lia.
Qed.

(** The two [$sum] accumulators of a month group, folded over its
    documents. *)
Lemma foldl_month_acc (l : list ITransaction) (o : option (Z * Z)) :
  foldl (fun o t => Some (sum_acc (amount_if "income") (fst <$> o) t,
                          sum_acc (amount_if "expense") (snd <$> o) t)) o l
  = match l with
    | [] => o
    | _ :: _ =>
        Some (default 0 (fst <$> o) + sum_amount (of_type "income" l),
              default 0 (snd <$> o) + sum_amount (of_type "expense" l))
    end.
Proof.
  revert o. induction l as [|t l IH]; intros o; [reflexivity|].
  simpl foldl. rewrite IH. rewrite <- !sum_amount_if. unfold sum_acc.
  destruct l as [|t' l]; simpl; f_equal; f_equal; lia.
Qed.

#[local] Instance month_asc_total : Total month_asc.
Proof. intros a b. unfold month_asc. lia. Qed.

#[local] Instance month_asc_trans : Transitive month_asc.
Proof. intros a b c. unfold month_asc. lia. Qed.

Lemma group_key (d : Date) :
  (year_of d, month_of d)
  = ((civil_from_days (Day d)).1.1, (civil_from_days (Day d)).1.2).
Proof. unfold year_of, month_of, YearFromTime, MonthFromTime. f_equal. lia. Qed.

(** The monthly series of the summary, for the window that opens at
    [startDate]: the groups come in ascending (year, month) order, no
    month occurs twice, and a group is present exactly when the owner
    has a document of that month in the window, with the income and
    expense sums of those documents. *)
Lemma monthly_pipeline_spec (startDate : Date) (user : ObjectId) (db : Store) :
  StronglySorted month_asc (monthly_pipeline startDate user db)
  /\ NoDup ((fun g => (mg_year g, mg_month g))
              <$> monthly_pipeline startDate user db)
  /\ forall g,
       g ∈ monthly_pipeline startDate user db
       <-> in_window_month startDate user (mg_year g) (mg_month g) db <> []
           /\ mg_income g
              = sum_amount (of_type "income"
                  (in_window_month startDate user (mg_year g) (mg_month g) db))
           /\ mg_expense g
              = sum_amount (of_type "expense"
                  (in_window_month startDate user (mg_year g) (mg_month g) db)).
Proof.
  unfold monthly_pipeline.
  set (matched := List.filter _ db).
  set (grouped := group_by _ _ matched).
  assert (NoDup grouped.*1) as Hnd by apply group_by_NoDup.
  split; [apply StronglySorted_merge_sort; apply _|]. split.
  - rewrite merge_sort_Permutation.
    rewrite <- list_fmap_compose.
    erewrite list_fmap_ext; [exact Hnd|].
    intros i [[y m] [inc exp]] _. reflexivity.
  - intros g. rewrite merge_sort_Permutation.
    unfold in_window_month. fold matched.
    set (l := List.filter _ matched).
    assert (forall v, ((mg_year g, mg_month g), v) ∈ grouped
                      <-> l <> [] /\ v = (sum_amount (of_type "income" l),
                                          sum_amount (of_type "expense" l)))
      as Hgroup.
    { intros v. rewrite (assoc_elem_of _ _ _ Hnd). unfold grouped.
      rewrite assoc_group_by.
      rewrite (List.filter_ext
                 (fun t => bool_decide ((year_of (date t), month_of (date t))
                                        = (mg_year g, mg_month g)))
                 (fun t => bool_decide
                             (((civil_from_days (Day (date t))).1.1,
                               (civil_from_days (Day (date t))).1.2)
                              = (mg_year g, mg_month g))))
        by (intros t; rewrite group_key; reflexivity).
      fold l. rewrite foldl_month_acc.
      destruct l as [|t l'].
      - split; [discriminate|intros [[] _]; reflexivity].
      - cbn [fmap option_fmap option_map default]. rewrite !Z.add_0_l. split.
        + intros [= <-]. split; [discriminate|reflexivity].
        + intros [_ ->]. reflexivity. }
    rewrite list_elem_of_fmap. split.
    + intros ([[y m] [inc exp]] & -> & Hin). simpl in *.
      apply Hgroup in Hin as [Hne [= -> ->]]. auto.
    + intros (Hne & Hinc & Hexp).
      exists ((mg_year g, mg_month g), (mg_income g, mg_expense g)).
      split; [destruct g; reflexivity|].
      apply Hgroup. split; [exact Hne|]. rewrite Hinc, Hexp. reflexivity.
Qed.

(** ** Summary: the monthly window *)

(** C4 at its failing input.  The clock reads 2025-10-15 12:00 and Alice
    has one income of 100 dated 2025-04-20.  Midnight of the day six
    months before now is 2025-04-15, so the document lies in the window
    the claim describes; the handler's window opens on 2025-05-15, five
    months back, and the monthly series is empty. *)
Theorem summary_window_opens_five_months_back :
  let now := mkDate 2025 10 15 43200000 in
  let bonus := mkTransaction "65a000000000000000000009" Sample.alice "Bonus"
                 100 "income" None (mkDate 2025 4 20 0) (mkDate 2025 4 20 0)
                 (mkDate 2025 4 20 0) in
  setHours0 Host_UTC (setMonth Host_UTC now (getMonth Host_UTC now - 6))
  = mkDate 2025 4 15 0
  /\ setHours0 Host_UTC (setMonth Host_UTC now (getMonth Host_UTC now - 6))
     <= date bonus
  /\ summary_startDate Host_UTC now = mkDate 2025 5 15 0
  /\ getSummary Host_UTC now [bonus] Sample.alice
     = res_json (Summary [] [(None, 100)] 100 0).
Proof.
  repeat split; vm_compute; try reflexivity; discriminate.
Qed.

(** ** The calendar *)

Lemma all_below_spec (n : nat) (z : Z) (P : Z -> bool) :
  all_below n z P = true -> forall x, z <= x < z + Z.of_nat n -> P x = true.
Proof.
  revert z. induction n as [|n IH]; intros z H x Hx; [lia|].
  simpl in H. apply andb_true_iff in H as [Hz Hrest].
  destruct (decide (x = z)) as [->|Hne]; [exact Hz|].
  apply (IH (z + 1) Hrest). lia.
Qed.

Lemma steps_ok : all_below (Z.to_nat 146096) 0 step_ok = true.
Proof. vm_compute. reflexivity. Qed.

Lemma triple_eqb_eq (a b : Z * Z * Z) : triple_eqb a b = true -> a = b.
Proof.
  destruct a as [[a1 a2] a3], b as [[b1 b2] b3]. unfold triple_eqb. simpl.
  rewrite !andb_true_iff, !Z.eqb_eq. intros [[-> ->] ->]. reflexivity.
Qed.

Lemma civil_from_days_era (z : Z) :
  civil_from_days z
  = let era := (z + 719468) / 146097 in
    let '(yoe, m, d) := civil_of_doe ((z + 719468) - era * 146097) in
    (civil_year yoe m + era * 400, m, d).
Proof.
  unfold civil_from_days, civil_of_doe, civil_year. cbv zeta.
  set (era := (z + 719468) / 146097).
  set (doe := z + 719468 - era * 146097).
  set (yoe := (doe - doe / 1460 + doe / 36524 - doe / 146096) / 365).
  set (doy := doe - (365 * yoe + yoe / 4 - yoe / 100)).
  set (mp := (5 * doy + 2) / 153).
  destruct (mp <? 10); destruct (_ <=? 2); f_equal; f_equal; lia.
Qed.

Lemma is_leap_era (y k : Z) : is_leap (y + k * 400) = is_leap y.
Proof.
  unfold is_leap.
  replace ((y + k * 400) mod 4) with (y mod 4)
    by (replace (k * 400) with (k * 100 * 4) by lia;
        symmetry; apply Z_mod_plus_full).
  replace ((y + k * 400) mod 100) with (y mod 100)
    by (replace (k * 400) with (k * 4 * 100) by lia;
        symmetry; apply Z_mod_plus_full).
  rewrite Z_mod_plus_full. reflexivity.
Qed.

Lemma next_day_era (y m d k : Z) :
  next_day (y + k * 400, m, d)
  = let '(y', m', d') := next_day (y, m, d) in (y' + k * 400, m', d').
Proof.
  unfold next_day, days_in_month. rewrite is_leap_era.
  destruct (d <? _); [reflexivity|].
  destruct (m <? 12); [reflexivity|]. f_equal. f_equal. lia.
Qed.

(** The calendar that [civil_from_days] counts in: day 0 is the first of
    January 1970, and the day after [z] is the next day of the Gregorian
    calendar, with its months of 28 to 31 days and its leap years. *)
Lemma civil_from_days_epoch : civil_from_days 0 = (1970, 1, 1).
Proof. reflexivity. Qed.

Lemma civil_from_days_next (z : Z) :
  civil_from_days (z + 1) = next_day (civil_from_days z).
Proof.
  rewrite !civil_from_days_era. cbv zeta.
  set (era := (z + 719468) / 146097).
  set (doe := z + 719468 - era * 146097).
  assert (0 <= doe < 146097) as Hdoe.
  { unfold doe, era.
    pose proof (Z.mod_pos_bound (z + 719468) 146097 ltac:(lia)) as Hb.
    rewrite Z.mod_eq in Hb by lia. lia. }
  destruct (decide (doe = 146096)) as [Hlast|Hnot].
  - assert ((z + 1 + 719468) / 146097 = era + 1) as ->.
    { symmetry. apply (Z.div_unique _ _ _ 0); lia. }
    replace (z + 1 + 719468 - (era + 1) * 146097) with 0 by lia.
    rewrite Hlast.
    change (civil_of_doe 0) with (0, 3, 1).
    change (civil_of_doe 146096) with (399, 2, 29).
    cbv beta iota.
    change (civil_year 0 3) with 0. change (civil_year 399 2) with 400.
    rewrite next_day_era. change (next_day (400, 2, 29)) with (400, 3, 1).
    f_equal. f_equal. lia.
  - assert ((z + 1 + 719468) / 146097 = era) as ->.
    { symmetry. apply (Z.div_unique _ _ _ (doe + 1)); lia. }
    replace (z + 1 + 719468 - era * 146097) with (doe + 1) by lia.
    pose proof (all_below_spec _ _ _ steps_ok doe ltac:(lia)) as Hstep.
    unfold step_ok in Hstep.
    destruct (civil_of_doe doe) as [[yoe m] d].
    destruct (civil_of_doe (doe + 1)) as [[yoe' m'] d'].
    apply triple_eqb_eq in Hstep.
    rewrite next_day_era, Hstep. reflexivity.
Qed.

(** ** Analytics *)

Lemma inherited_false (k : string) : k ∉ Object_prototype -> inherited k = false.
Proof. intros H. apply bool_decide_eq_false_2. exact H. Qed.


Lemma proto_in_prototype : "__proto__" ∈ Object_prototype.
Proof. apply (bool_decide_unpack _). vm_compute. exact I. Qed.

Lemma income_plain : "income" ∉ Object_prototype.
Proof. apply (bool_decide_unpack _). vm_compute. exact I. Qed.

Lemma expense_plain : "expense" ∉ Object_prototype.
Proof. apply (bool_decide_unpack _). vm_compute. exact I. Qed.

(** What [o[ty] += a] leaves under a name [k] that plain objects do not
    inherit. *)
Lemma add_amount_lookup (ty : string) (a : Z) (o : JsObject) (k : string) :
  k ∉ Object_prototype ->
  add_amount ty a o !! k
  = if String.eqb ty k then Some (plus_amount (js_get o k) a) else o !! k.
Proof.
  intros Hk. unfold add_amount, js_set.
  destruct (String.eqb_spec ty k) as [->|Hne].
  - destruct (String.eqb_spec k "__proto__") as [->|Hp].
    + exfalso. apply Hk, proto_in_prototype.
    + apply lookup_insert_eq.
  - destruct (String.eqb ty "__proto__"); [reflexivity|].
    apply lookup_insert_ne. exact Hne.
Qed.




Lemma category_label_spec (t : ITransaction) : category_label t = label_of t.
Proof.
  unfold category_label, label_of. destruct (category t) as [c|]; simpl;
    [destruct (String.eqb c "")|]; reflexivity.
Qed.





Lemma fixed_host_plain (offset : Z) (names : list string) :
  Forall (fun n => n ∉ Object_prototype) ("" :: names) ->
  plain_months (fixed_host offset names).
Proof.
  intros H i. simpl.
  apply Forall_cons in H as [He Hn].
  destruct (names !! Z.to_nat i) as [n|] eqn:Hi; simpl; [|exact He].
  eapply Forall_lookup_1 in Hn; [exact Hn|exact Hi].
Qed.

Lemma Host_UTC_plain : plain_months Host_UTC.
Proof.
  apply fixed_host_plain. apply (bool_decide_unpack _). vm_compute. exact I.
Defined.

Lemma sample_amounts_safe :
  sum_abs (owned Sample.alice Sample.store) <= MAX_SAFE.
Proof. vm_compute. discriminate. Defined.


(** The same collection on a server two hours east of UTC with Spanish
    month names: the bucket of the Januaries is called ["ene"]. *)
Example analytics_on_another_server :
  exists monthly categoryTotals bucket,
    getAnalytics Host_east Sample.store Sample.alice
    = res_json (Analytics monthly categoryTotals)
    /\ monthly !! "ene" = Some bucket
    /\ bucket_amounts bucket 1000 45
    /\ monthly !! "Jan" = None.
Proof.
  eexists _, _, _. split; [reflexivity|].
  split; [vm_compute; reflexivity|]. split; [split; reflexivity|].
  vm_compute. reflexivity.
Qed.


(** ** Listing *)

Lemma Math_ceil_div_pos (a b : Z) : 0 < b -> Math_ceil_div a b = - (- a / b).
Proof.
  intros Hb. destruct b as [|p|p]; try lia.
  unfold Math_ceil_div, Qceiling, Qfloor, Qdiv, Qmult, Qinv, Qopp, inject_Z.
  simpl. rewrite Z.mul_1_r. reflexivity.
Qed.

(** [Math.ceil(a / b)] is the least integer [n] with [a <= b * n]. *)
Lemma Math_ceil_div_bounds (a b : Z) :
  0 < b -> b * (Math_ceil_div a b - 1) < a <= b * Math_ceil_div a b.
Proof.
  intros Hb. rewrite Math_ceil_div_pos by exact Hb.
  pose proof (Z.mul_div_le (- a) b Hb).
  pose proof (Z.mul_succ_div_gt (- a) b Hb).
  lia.
Qed.

Lemma Math_ceil_div_0 (b : Z) : 0 < b -> Math_ceil_div 0 b = 0.
Proof. intros Hb. rewrite Math_ceil_div_pos by exact Hb. reflexivity. Qed.

(** Below 2^53 a natural number is its own double. *)
Lemma to_double_exact (z : Z) : 0 <= z < MAX_SAFE -> to_double z = JNum z.
Proof.
  unfold MAX_SAFE. intros Hz. unfold to_double, round_to_double.
  rewrite Z.abs_eq by lia.
  rewrite (proj2 (Z.ltb_lt z (2 ^ 53))) by lia.
  assert (2 ^ 53 < 2 ^ 1024) as Hpow by (apply Z.pow_lt_mono_r; lia).
  rewrite (proj2 (Z.leb_gt (2 ^ 1024) z)) by lia.
  f_equal. destruct (Z.eq_dec z 0) as [->|Hne]; [reflexivity|].
  rewrite Z.sgn_pos by lia. lia.
Qed.

Lemma store_takes_exact (z : Z) : 0 <= z < MAX_SAFE -> store_takes (JNum z) = Some z.
Proof.
  unfold MAX_SAFE. intros Hz. unfold store_takes.
  assert (2 ^ 53 < 2 ^ 63) as Hpow by (apply Z.pow_lt_mono_r; lia).
  rewrite (proj2 (Z.leb_le 0 z)) by lia.
  rewrite (proj2 (Z.ltb_lt z (2 ^ 63))) by lia. reflexivity.
Qed.

#[local] Instance query_order_total tie : Total (query_order tie).
Proof. intros a b. unfold query_order. lia. Qed.

#[local] Instance query_order_trans tie : Transitive (query_order tie).
Proof. intros a b c. unfold query_order. lia. Qed.

Lemma query_order_date_desc tie a b : query_order tie a b -> date_desc a b.
Proof. unfold query_order, date_desc. lia. Qed.

Lemma StronglySorted_weaken {A : Type} (R S : A -> A -> Prop) (l : list A) :
  (forall a b, R a b -> S a b) -> StronglySorted R l -> StronglySorted S l.
Proof.
  intros HRS. induction 1 as [|a l Hl IH Ha]; constructor; [exact IH|].
  eapply Forall_impl; [exact Ha|]. intros b. apply HRS.
Qed.

Lemma filter_casts_dated (user : ObjectId) (q : ListQuery) :
  filter_casts (buildFilter user q) = true <-> dated_bounds q.
Proof.
  unfold filter_casts, dated_bounds, buildFilter. simpl.
  rewrite andb_true_iff, !bool_decide_eq_true.
  destruct (q_startDate q), (q_endDate q); simpl;
    split; intros [H1 H2]; split;
    try congruence; try (eexists; reflexivity);
    try (destruct H1 as [? [=]]); try (destruct H2 as [? [=]]).
Qed.

(** What a filter built from a query selects. *)
Lemma matches_buildFilter (user : ObjectId) (q : ListQuery) (t : ITransaction) :
  matches (buildFilter user q) t = true <-> selected user q t.
Proof.
  unfold matches, buildFilter, selected. simpl.
  rewrite !andb_true_iff, String.eqb_eq.
  assert (forall (o : option string) (P : string -> Prop) (b : string -> bool),
            (forall s, b s = true <-> P s) ->
            match (if falsy o then None else o) with
            | Some s => b s
            | None => true
            end = true <-> (forall s, o = Some s -> s <> "" -> P s)) as Hopt.
  { intros o P b Hb. destruct o as [s|]; simpl.
    - destruct (String.eqb s "") eqn:Hs.
      + apply String.eqb_eq in Hs. subst s.
        split; [intros _ s [= <-] H; contradiction|reflexivity].
      + apply String.eqb_neq in Hs. rewrite Hb.
        split; [intros H s' [= <-] _; exact H|intros H; apply H; auto].
    - split; [discriminate|reflexivity]. }
  rewrite (Hopt (q_type q) (fun ty => type t = ty)
             (fun ty => String.eqb (type t) ty))
    by (intros s; apply String.eqb_eq).
  rewrite (Hopt (q_category q) (fun c => category t = Some c)
             (fun c => bool_decide (category t = Some c)))
    by (intros s; apply bool_decide_eq_true).
  assert (forall (o : Field Z) (P : Z -> Prop) (b : Z -> bool),
            (forall d, b d = true <-> P d) ->
            match o with Given d => b d | _ => true end = true
            <-> (forall d, o = Given d -> P d)) as Hbound.
  { intros o P b Hb. destruct o as [|d|].
    - split; [discriminate|reflexivity].
    - rewrite Hb. split; [intros H d' [= <-]; exact H|auto].
    - split; [discriminate|reflexivity]. }
  rewrite (Hbound (q_startDate q) (fun d => d <= date t) (fun d => d <=? date t))
    by (intros d; apply Z.leb_le).
  rewrite (Hbound (q_endDate q) (fun d => date t <= d) (fun d => date t <=? d))
    by (intros d; apply Z.leb_le).
  tauto.
Qed.

(** The documents that the store finds for a query are the selected
    ones, in store order. *)
Lemma matching_selected (db : Store) (user : ObjectId) (q : ListQuery) :
  List.filter (matches (buildFilter user q)) db = filter (selected user q) db.
Proof.
  induction db as [|t db IH]; [reflexivity|].
  cbn [List.filter]. rewrite filter_cons.
  destruct (decide (selected user q t)) as [Hs|Hs].
  - rewrite (proj2 (matches_buildFilter user q t) Hs), IH. reflexivity.
  - destruct (matches (buildFilter user q) t) eqn:Hm; [|exact IH].
    apply matches_buildFilter in Hm. contradiction.
Qed.

(** The [try] block of the list handler, for a query whose bounds are
    dates and whose page and size are within range. *)
Lemma list_page_resolved (tie : ObjectId -> Z) (db : Store) (user : ObjectId)
    (q : ListQuery) (p L : Z) :
  pageNum q = JNum p -> lim q = JNum L -> dated_bounds q -> safe_page p L ->
  try_getTransactions tie db user q
  = Some (Page
            (take (Z.to_nat L)
               (drop (Z.to_nat ((p - 1) * L))
                  (merge_sort (query_order tie) (filter (selected user q) db))))
            (Z.of_nat (length (filter (selected user q) db))) p
            (Math_ceil_div (Z.of_nat (length (filter (selected user q) db))) L)).
Proof.
  intros Hp HL Hd (Hsp & HsL & Hprod).
  destruct (resolved_at_least_1 q p L Hp HL) as [Hp1 HL1].
  unfold try_getTransactions, countDocuments, find_sorted.
  rewrite (proj2 (filter_casts_dated user q) Hd), matching_selected, Hp, HL.
  cbn [mbind option_bind js_pred js_mul].
  rewrite (to_double_exact (p - 1)) by lia. cbn [js_mul].
  rewrite (to_double_exact ((p - 1) * L)) by nia.
  rewrite (store_takes_exact ((p - 1) * L)) by nia.
  rewrite (store_takes_exact L) by lia.
  reflexivity.
Qed.

(** C2, as amended.  When the page number and the page size resolve to
    the numbers [p] and [L] (both then at least 1) within the range of
    exact integers, and the date bounds of the query, where given, are
    dates, the list request is answered 200 with: [total], the number of
    the owner's documents that the query selects; those documents sorted
    by date, latest first, with the first [(p - 1) * L] skipped and at
    most [L] taken; [page = p]; and [pages = ceil(total / L)], the least
    [n] with [total <= L * n].  With no selected document [pages] is 0
    and the page is empty, and a page number beyond [pages] gives an
    empty page, still with status 200.  This holds whatever order the
    store gives to documents of equal date. *)
Theorem list_page (tie : ObjectId -> Z) (db : Store) (user : ObjectId)
    (q : ListQuery) (p L : Z) :
  pageNum q = JNum p -> lim q = JNum L -> dated_bounds q -> safe_page p L ->
  let matching := filter (selected user q) db in
  let total := Z.of_nat (length matching) in
  exists sorted transactions pages,
    getTransactions tie db user q = res_json (Page transactions total p pages)
    /\ 1 <= p /\ 1 <= L
    /\ (forall t, t ∈ matching <-> t ∈ db /\ selected user q t)
    /\ sorted ≡ₚ matching
    /\ StronglySorted date_desc sorted
    /\ transactions
       = take (Z.to_nat L) (drop (Z.to_nat ((p - 1) * L)) sorted)
    /\ L * (pages - 1) < total <= L * pages
    /\ (total = 0 -> pages = 0 /\ transactions = [])
    /\ (pages < p -> transactions = []).
Proof.
  intros Hp HL Hd Hsafe matching total.
  destruct (resolved_at_least_1 q p L Hp HL) as [Hp1 HL1].
  assert (0 < L) as HL0 by lia.
  set (sorted := merge_sort (query_order tie) matching).
  assert (sorted ≡ₚ matching) as Hperm by apply merge_sort_Permutation.
  pose proof (Math_ceil_div_bounds total L HL0) as Hceil.
  assert (length sorted = length matching) as Hlen by (rewrite Hperm; reflexivity).
  exists sorted, (take (Z.to_nat L) (drop (Z.to_nat ((p - 1) * L)) sorted)),
    (Math_ceil_div total L).
  split.
  { unfold getTransactions.
    rewrite (list_page_resolved tie db user q p L Hp HL Hd Hsafe). reflexivity. }
  split; [exact Hp1|]. split; [exact HL1|].
  split; [intros t; unfold matching; rewrite list_elem_of_filter; tauto|].
  split; [exact Hperm|].
  split.
  { eapply StronglySorted_weaken; [apply query_order_date_desc|].
    apply StronglySorted_merge_sort; apply _. }
  split; [reflexivity|].
  split; [exact Hceil|]. split.
  - intros H0. split; [rewrite H0; apply Math_ceil_div_0; exact HL0|].
    assert (sorted = []) as ->.
    { apply length_zero_iff_nil. unfold total in H0. lia. }
    rewrite drop_nil, take_nil. reflexivity.
  - intros Hbeyond.
    rewrite drop_ge; [apply take_nil|].
    rewrite Hlen.
    assert (total <= (p - 1) * L) as Hskip by nia.
    unfold total in Hskip. lia.
Qed.

Lemma sample_query_dated (page limit : option string) :
  dated_bounds (Sample.query page limit).
Proof. split; discriminate. Defined.

Lemma small_page_safe (p L : Z) :
  0 <= p <= 1000 -> 0 <= L <= 1000 -> safe_page p L.
Proof. unfold safe_page, MAX_SAFE. intros Hp HL. nia. Defined.

(** The second page of size 2 of Alice's three documents. *)
Lemma list_page_witness :
  pageNum (Sample.query (Some "2") (Some "2")) = JNum 2
  /\ lim (Sample.query (Some "2") (Some "2")) = JNum 2
  /\ dated_bounds (Sample.query (Some "2") (Some "2"))
  /\ safe_page 2 2
  /\ exists transactions pages,
       getTransactions Sample.coffee_first Sample.store Sample.alice
         (Sample.query (Some "2") (Some "2"))
       = res_json (Page transactions 3 2 pages)
       /\ 2 * (pages - 1) < 3 <= 2 * pages.
Proof.
  assert (safe_page 2 2) as Hsafe by (apply small_page_safe; lia).
  split; [reflexivity|]. split; [reflexivity|].
  split; [apply sample_query_dated|]. split; [exact Hsafe|].
  destruct (list_page Sample.coffee_first Sample.store Sample.alice
              (Sample.query (Some "2") (Some "2")) 2 2 eq_refl eq_refl
              (sample_query_dated _ _) Hsafe)
    as (sorted & transactions & pages & Hr & _ & _ & _ & _ & _ & _ & Hc & _).
  exists transactions, pages. split; [exact Hr|exact Hc].
Defined.

(** The second page of two on the sample collection. *)
Example list_page_sample :
  getTransactions Sample.coffee_first Sample.store Sample.alice
    (Sample.query (Some "2") (Some "2"))
  = res_json (Page [Sample.salary] 3 2 2).
Proof. vm_compute. reflexivity. Qed.

(** C2, as stated, fails: with [?startDate=soon] the page number and the
    page size resolve to their defaults, 1 and 20, yet [new Date("soon")]
    is no date, the query throws on it and the answer is 500. *)
Lemma unparseable_bound_is_answered_500 :
  let q := mkListQuery None None Uncastable Absent None None in
  pageNum q = JNum 1 /\ lim q = JNum 20
  /\ getTransactions Sample.coffee_first Sample.store Sample.alice q
     = server_error
  /\ ~ (forall (tie : ObjectId -> Z) (db : Store) (user : ObjectId)
               (q : ListQuery) (p L : Z),
          pageNum q = JNum p -> lim q = JNum L ->
          status (getTransactions tie db user q) = 200).
Proof.
  intros q. split; [reflexivity|]. split; [reflexivity|].
  split; [reflexivity|].
  intros H.
  specialize (H Sample.coffee_first Sample.store Sample.alice q 1 20
                eq_refl eq_refl).
  vm_compute in H. discriminate H.
Qed.

(** ** Enumerating the pages *)

(** Consecutive windows of width [L] rebuild the prefix they cover. *)
Lemma join_windows {A : Type} (l : list A) (L n : nat) :
  mjoin ((fun i => take L (drop (i * L) l)) <$> seq 0 n) = take (n * L) l.
Proof.
  induction n as [|n IH]; [reflexivity|].
  rewrite seq_S, fmap_app, join_app, IH. simpl.
  rewrite app_nil_r, take_take_drop. f_equal. lia.
Qed.

Lemma NoDup_join_disjoint {A : Type} (ls : list (list A)) (i j : nat)
    (a b : list A) (x : A) :
  NoDup (mjoin ls) -> (i < j)%nat ->
  ls !! i = Some a -> ls !! j = Some b -> x ∈ a -> x ∉ b.
Proof.
  revert i j. induction ls as [|l0 ls IH]; intros i j Hnd Hij Hi Hj Hx.
  - discriminate Hi.
  - simpl in Hnd. apply NoDup_app in Hnd as (_ & Hdis & Hnd).
    destruct j as [|j]; [lia|]. simpl in Hj.
    destruct i as [|i]; simpl in Hi.
    + injection Hi as ->. intros Hb. apply (Hdis x Hx).
      apply list_elem_of_join. exists b. split; [exact Hb|].
      eapply list_elem_of_lookup_2. exact Hj.
    + apply (IH i j Hnd); [lia|exact Hi|exact Hj|exact Hx].
Qed.

#[local] Instance date_desc_trans : Transitive date_desc.
Proof. intros a b c. unfold date_desc. lia. Qed.

(** Where no two selected documents have the same date, the sorted list
    is the same at every query, whatever rank the store gives. *)
Lemma sorted_whatever_rank (tie tie' : ObjectId -> Z) (l : list ITransaction) :
  (forall a b, a ∈ l -> b ∈ l -> date a = date b -> a = b) ->
  merge_sort (query_order tie) l = merge_sort (query_order tie') l.
Proof.
  intros Hdistinct.
  apply (StronglySorted_unique_strong date_desc).
  - intros a b Ha Hb Hab Hba.
    rewrite merge_sort_Permutation in Ha, Hb.
    apply Hdistinct; [exact Ha|exact Hb|]. unfold date_desc in *. lia.
  - eapply StronglySorted_weaken; [apply query_order_date_desc|].
    apply StronglySorted_merge_sort; apply _.
  - eapply StronglySorted_weaken; [apply query_order_date_desc|].
    apply StronglySorted_merge_sort; apply _.
  - rewrite !merge_sort_Permutation. reflexivity.
Qed.

Lemma same_filter_selected (user : ObjectId) (q q0 : ListQuery) (db : Store) :
  same_filter q q0 ->
  filter (selected user q) db = filter (selected user q0) db.
Proof.
  intros (Ht & Hc & Hs & He). apply list_filter_iff. intros t.
  unfold selected. rewrite Ht, Hc, Hs, He. reflexivity.
Qed.

Lemma same_filter_dated (q q0 : ListQuery) :
  same_filter q q0 -> dated_bounds q0 -> dated_bounds q.
Proof. intros (_ & _ & Hs & He). unfold dated_bounds. rewrite Hs, He. tauto. Qed.

(** The page that a query returns once its parameters are resolved. *)
Lemma transactions_of_page (tie : ObjectId -> Z) (db : Store) (user : ObjectId)
    (q : ListQuery) (i : nat) (L : Z) :
  pageNum q = JNum (Z.of_nat i + 1) -> lim q = JNum L -> dated_bounds q ->
  safe_page (Z.of_nat i + 1) L ->
  transactions_of (getTransactions tie db user q)
  = take (Z.to_nat L)
      (drop (i * Z.to_nat L)
         (merge_sort (query_order tie) (filter (selected user q) db))).
Proof.
  intros Hp HL Hd Hsafe.
  destruct (resolved_at_least_1 q _ L Hp HL) as [_ HL1].
  unfold getTransactions.
  rewrite (list_page_resolved tie db user q _ L Hp HL Hd Hsafe).
  unfold transactions_of. cbn [body res_json]. do 2 f_equal.
  replace (Z.of_nat i + 1 - 1) with (Z.of_nat i) by lia.
  rewrite Z2Nat.inj_mul, Nat2Z.id by lia. reflexivity.
Qed.

(** C3, as amended.  Fix a filter and a page size [L >= 1], and let
    [qs] be the requests for pages 1, 2, ..., [pages] against an
    unchanged store in which no two of the selected documents have the
    same date.  Whatever rank the store gives at each of these queries,
    the pages put end to end hold exactly the owner's documents that the
    filter selects: each of them on one page and once, so that no two
    pages share a document. *)
Theorem pages_partition (ties : nat -> ObjectId -> Z) (db : Store)
    (user : ObjectId) (q0 : ListQuery) (L : Z) (qs : list ListQuery) :
  unique_ids db ->
  Z.of_nat (length db) < MAX_SAFE -> L < MAX_SAFE ->
  lim q0 = JNum L -> dated_bounds q0 ->
  (forall a b, a ∈ db -> b ∈ db -> selected user q0 a -> selected user q0 b ->
               date a = date b -> a = b) ->
  Z.of_nat (length qs)
  = Math_ceil_div (Z.of_nat (length (filter (selected user q0) db))) L ->
  (forall i q, qs !! i = Some q ->
     pageNum q = JNum (Z.of_nat i + 1) /\ lim q = JNum L /\ same_filter q q0) ->
  let page i q := transactions_of (getTransactions (ties i) db user q) in
  1 <= L
  /\ mjoin (imap page qs) ≡ₚ filter (selected user q0) db
  /\ (forall t, t ∈ mjoin (imap page qs) <-> t ∈ db /\ selected user q0 t)
  /\ NoDup (mjoin (imap page qs))
  /\ forall i j qi qj t,
       i <> j -> qs !! i = Some qi -> qs !! j = Some qj ->
       t ∈ page i qi -> t ∉ page j qj.
Proof.
  intros Hu Hdb HLsafe HL Hd Hdistinct Hn Hqs page.
  assert (1 <= L) as HL1 by (eapply Math_max_ge; exact HL).
  set (matching := filter (selected user q0) db) in *.
  set (total := Z.of_nat (length matching)) in *.
  set (sorted := merge_sort (query_order (ties 0%nat)) matching).
  assert (sorted ≡ₚ matching) as Hperm by apply merge_sort_Permutation.
  pose proof (Math_ceil_div_bounds total L ltac:(lia)) as Hc.
  assert (total <= Z.of_nat (length db)) as Htotal.
  { unfold total, matching. pose proof (length_filter (selected user q0) db). lia. }
  assert (forall a b, a ∈ matching -> b ∈ matching -> date a = date b -> a = b)
    as Hdist.
  { intros a b [Ha Ha']%list_elem_of_filter [Hb Hb']%list_elem_of_filter.
    apply Hdistinct; assumption. }
  assert (mjoin (imap page qs) = sorted) as Hjoin.
  { assert (imap page qs
            = (fun i => take (Z.to_nat L) (drop (i * Z.to_nat L) sorted))
                <$> seq 0 (length qs)) as ->.
    { apply list_eq. intros i. rewrite list_lookup_imap, list_lookup_fmap.
      destruct (qs !! i) as [q|] eqn:Hq; simpl.
      - pose proof (lookup_lt_Some _ _ _ Hq) as Hi.
        rewrite lookup_seq_lt by exact Hi. simpl.
        destruct (Hqs i q Hq) as (Hp & HLq & Hf).
        f_equal. unfold page.
        rewrite (transactions_of_page (ties i) db user q i L Hp HLq).
        + rewrite (same_filter_selected user q q0 db Hf). fold matching.
          rewrite (sorted_whatever_rank (ties i) (ties 0%nat) matching Hdist).
          reflexivity.
        + exact (same_filter_dated q q0 Hf Hd).
        + unfold safe_page. nia.
      - rewrite lookup_seq_ge by (apply lookup_ge_None; exact Hq).
        reflexivity. }
    rewrite join_windows. apply take_ge.
    assert (length sorted = length matching) as Hlen
      by (rewrite Hperm; reflexivity).
    unfold total in *. nia. }
  assert (NoDup (mjoin (imap page qs))) as Hnd.
  { rewrite Hjoin, Hperm. apply NoDup_filter.
    eapply NoDup_fmap_1. exact Hu. }
  split; [exact HL1|]. split; [rewrite Hjoin; exact Hperm|].
  split.
  { intros t. rewrite Hjoin, Hperm. unfold matching.
    rewrite list_elem_of_filter. tauto. }
  split; [exact Hnd|].
  intros i j qi qj t Hij Hi Hj Ht Ht'.
  assert (imap page qs !! i = Some (page i qi)) as Hi'
    by (rewrite list_lookup_imap, Hi; reflexivity).
  assert (imap page qs !! j = Some (page j qj)) as Hj'
    by (rewrite list_lookup_imap, Hj; reflexivity).
  destruct (Nat.lt_total i j) as [Hlt | [Heq | Hlt]]; [|contradiction|].
  - exact (NoDup_join_disjoint _ i j _ _ t Hnd Hlt Hi' Hj' Ht Ht').
  - exact (NoDup_join_disjoint _ j i _ _ t Hnd Hlt Hj' Hi' Ht' Ht).
Qed.

(** Alice's coffee and salary, of different dates, enumerated in two
    pages of size 1, each page under another rank of the store. *)
Lemma pages_partition_witness :
  let db := [Sample.coffee; Sample.salary; Sample.rent] in
  let q0 := Sample.query None (Some "1") in
  let qs := [Sample.query (Some "1") (Some "1");
             Sample.query (Some "2") (Some "1")] in
  let ties (i : nat) :=
    if Nat.even i then Sample.coffee_first else Sample.books_first in
  let page i q := transactions_of (getTransactions (ties i) db Sample.alice q) in
  unique_ids db
  /\ lim q0 = JNum 1
  /\ (forall a b, a ∈ db -> b ∈ db ->
        selected Sample.alice q0 a -> selected Sample.alice q0 b ->
        date a = date b -> a = b)
  /\ mjoin (imap page qs) ≡ₚ [Sample.coffee; Sample.salary]
  /\ NoDup (mjoin (imap page qs)).
Proof.
  intros db q0 qs ties page.
  assert (unique_ids db) as Hu.
  { unfold unique_ids. apply (bool_decide_unpack _). vm_compute. exact I. }
  assert (forall a b, a ∈ db -> b ∈ db ->
            selected Sample.alice q0 a -> selected Sample.alice q0 b ->
            date a = date b -> a = b) as Hdistinct.
  { intros a b Ha Hb [Hoa _] [Hob _] Hdate.
    apply list_elem_of_In in Ha, Hb. simpl in Ha, Hb.
    destruct Ha as [<-|[<-|[<-|[]]]]; destruct Hb as [<-|[<-|[<-|[]]]];
      try reflexivity; try discriminate Hdate;
      try discriminate Hoa; discriminate Hob. }
  assert (forall i q, qs !! i = Some q ->
            pageNum q = JNum (Z.of_nat i + 1) /\ lim q = JNum 1
            /\ same_filter q q0) as Hqs.
  { intros [|[|i]] q Hq; simpl in Hq; try discriminate Hq;
      injection Hq as <-; repeat split; reflexivity. }
  assert (Z.of_nat (length db) < MAX_SAFE) as Hdb by (vm_compute; reflexivity).
  assert (1 < MAX_SAFE) as HL by (vm_compute; reflexivity).
  destruct (pages_partition ties db Sample.alice q0 1 qs Hu Hdb HL eq_refl
              (sample_query_dated _ _) Hdistinct eq_refl Hqs)
    as (_ & Hperm & _ & Hnd & _).
  split; [exact Hu|]. split; [reflexivity|]. split; [exact Hdistinct|].
  split; [exact Hperm|exact Hnd].
Defined.

(** C3, as stated, fails.  Alice's coffee and her books have the same
    date, and the sort names the date alone.  She asks for pages of size
    1; at the first query the store ranks the coffee first, at the
    second the books: the coffee is on page 1 and again on page 2, and
    the books are on no page, although the record set never changed. *)
Lemma equal_dates_can_repeat_across_pages :
  let page tie n :=
    transactions_of
      (getTransactions tie Sample.store Sample.alice
         (Sample.query (Some n) (Some "1"))) in
  date Sample.coffee = date Sample.books
  /\ page Sample.coffee_first "1" = [Sample.coffee]
  /\ page Sample.books_first "2" = [Sample.coffee]
  /\ page Sample.books_first "3" = [Sample.salary]
  /\ selected Sample.alice (Sample.query None (Some "1")) Sample.books
  /\ ~ (forall (tie tie' : ObjectId -> Z) (db : Store) (user : ObjectId)
               (q q' : ListQuery) (L : Z) (t : ITransaction),
          unique_ids db ->
          pageNum q = JNum 1 -> pageNum q' = JNum 2 ->
          lim q = JNum L -> lim q' = JNum L -> same_filter q q' ->
          t ∈ transactions_of (getTransactions tie db user q) ->
          t ∉ transactions_of (getTransactions tie' db user q')).
Proof.
  intros page. split; [reflexivity|].
  split; [vm_compute; reflexivity|]. split; [vm_compute; reflexivity|].
  split; [vm_compute; reflexivity|]. split.
  { unfold selected. simpl. repeat split; intros; discriminate. }
  intros H.
  apply (H Sample.coffee_first Sample.books_first Sample.store Sample.alice
           (Sample.query (Some "1") (Some "1"))
           (Sample.query (Some "2") (Some "1")) 1 Sample.coffee
           sample_store_unique_ids eq_refl eq_refl eq_refl eq_refl).
  - repeat split.
  - change (Sample.coffee ∈ page Sample.coffee_first "1").
    assert (page Sample.coffee_first "1" = [Sample.coffee]) as ->
      by (vm_compute; reflexivity).
    apply list_elem_of_here.
  - change (Sample.coffee ∈ page Sample.books_first "2").
    assert (page Sample.books_first "2" = [Sample.coffee]) as ->
      by (vm_compute; reflexivity).
    apply list_elem_of_here.
Qed.

(** * Further properties of the controller *)

(** ** Isolation between users *)

Lemma filter_filter_implied {A : Type} (p q : A -> bool) (l : list A) :
  (forall x, p x = true -> q x = true) ->
  List.filter p (List.filter q l) = List.filter p l.
Proof.
  intros Himp. induction l as [|x l IH]; simpl; [reflexivity|].
  destruct (q x) eqn:Hq; simpl.
  - rewrite IH. reflexivity.
  - destruct (p x) eqn:Hp; [|exact IH].
    rewrite (Himp x Hp) in Hq. discriminate Hq.
Qed.

Lemma matches_owned (user : ObjectId) (q : ListQuery) (db : Store) :
  List.filter (matches (buildFilter user q)) (owned user db)
  = List.filter (matches (buildFilter user q)) db.
Proof.
  apply filter_filter_implied. intros t Ht.
  unfold matches in Ht. simpl in Ht.
  repeat (apply andb_true_iff in Ht as [Ht _]). exact Ht.
Qed.

Lemma owned_idem (user : ObjectId) (db : Store) :
  owned user (owned user db) = owned user db.
Proof. apply filter_filter_implied. auto. Qed.

(** The three read operations see only the caller's documents: two
    stores in which the caller owns the same documents, in the same
    order, give the same list page, the same summary and the same
    analytics, whatever the other users have stored. *)
Theorem reads_depend_on_own_documents (h : Host) (tie : ObjectId -> Z)
    (now : Date) (db db' : Store) (user : ObjectId) (q : ListQuery) :
  owned user db = owned user db' ->
  getTransactions tie db user q = getTransactions tie db' user q
  /\ getSummary h now db user = getSummary h now db' user
  /\ getAnalytics h db user = getAnalytics h db' user.
Proof.
  intros Hown.
  assert (forall d, getTransactions tie d user q
                    = getTransactions tie (owned user d) user q) as Hlist.
  { intros d.
    unfold getTransactions, try_getTransactions, countDocuments, find_sorted.
    rewrite matches_owned. reflexivity. }
  assert (forall d, getSummary h now d user
                    = getSummary h now (owned user d) user)
    as Hsum.
  { intros d.
    unfold getSummary, monthly_pipeline, category_pipeline, totals_pipeline.
    fold (owned user d). fold (owned user (owned user d)).
    rewrite owned_idem.
    assert (List.filter
              (fun t => String.eqb (userId t) user
                        && (summary_startDate h now <=? date t))
              (owned user d)
            = List.filter
                (fun t => String.eqb (userId t) user
                          && (summary_startDate h now <=? date t)) d) as ->;
      [|reflexivity].
    apply filter_filter_implied.
    intros t Ht. apply andb_true_iff in Ht as [Ht _]. exact Ht. }
  assert (forall d, getAnalytics h d user = getAnalytics h (owned user d) user)
    as Han.
  { intros d. unfold getAnalytics. fold (owned user d).
    fold (owned user (owned user d)). rewrite owned_idem. reflexivity. }
  rewrite (Hlist db), (Hlist db'), (Hsum db), (Hsum db'), (Han db), (Han db').
  rewrite Hown. auto.
Qed.

(** Bob's rent, present or not, changes nothing of what Alice reads. *)
Lemma reads_depend_on_own_documents_witness :
  owned Sample.alice Sample.store
  = owned Sample.alice [Sample.coffee; Sample.salary; Sample.books]
  /\ getSummary Host_UTC 0 Sample.store Sample.alice
     = getSummary Host_UTC 0 [Sample.coffee; Sample.salary; Sample.books]
         Sample.alice.
Proof.
  split; [reflexivity|].
  exact (proj1 (proj2 (reads_depend_on_own_documents Host_UTC
                         Sample.coffee_first 0 Sample.store
                         [Sample.coffee; Sample.salary; Sample.books]
                         Sample.alice (Sample.query None None) eq_refl))).
Defined.

(** ** Sizes of the pages *)

(** With resolved page [p] and size [L] (within the range of exact
    integers, the date bounds being dates), a page never holds more than
    [L] documents; every page before the last is full; and the last
    page holds what remains, at least one document. *)
Theorem page_sizes (tie : ObjectId -> Z) (db : Store) (user : ObjectId)
    (q : ListQuery) (p L : Z) :
  pageNum q = JNum p -> lim q = JNum L -> dated_bounds q -> safe_page p L ->
  let total := Z.of_nat (length (filter (selected user q) db)) in
  let pages := Math_ceil_div total L in
  let n := Z.of_nat (length (transactions_of (getTransactions tie db user q))) in
  n <= L
  /\ n = Z.max 0 (Z.min L (total - (p - 1) * L))
  /\ (p < pages -> n = L)
  /\ (p = pages -> n = total - (pages - 1) * L /\ 1 <= n).
Proof.
  intros Hp HL Hd Hsafe total pages n.
  destruct (resolved_at_least_1 q p L Hp HL) as [Hp1 HL1].
  pose proof (Math_ceil_div_bounds total L ltac:(lia)) as Hc. fold pages in Hc.
  assert (n = Z.max 0 (Z.min L (total - (p - 1) * L))) as Hn.
  { unfold n, getTransactions.
    rewrite (list_page_resolved tie db user q p L Hp HL Hd Hsafe).
    unfold transactions_of. cbn [body res_json].
    rewrite length_take, length_drop, merge_sort_Permutation.
    fold total. unfold total. nia. }
  split; [lia|]. split; [exact Hn|]. split.
  - intros Hlt. nia.
  - intros ->. nia.
Qed.

Lemma page_sizes_witness :
  pageNum (Sample.query (Some "2") (Some "2")) = JNum 2
  /\ lim (Sample.query (Some "2") (Some "2")) = JNum 2
  /\ Z.of_nat (length (transactions_of
                 (getTransactions Sample.books_first Sample.store Sample.alice
                    (Sample.query (Some "2") (Some "2"))))) <= 2.
Proof.
  split; [reflexivity|]. split; [reflexivity|].
  exact (proj1 (page_sizes Sample.books_first Sample.store Sample.alice
                  (Sample.query (Some "2") (Some "2")) 2 2 eq_refl eq_refl
                  (sample_query_dated _ _)
                  (small_page_safe 2 2 ltac:(lia) ltac:(lia)))).
Defined.

(** ** What the writing handlers do to the store *)

(** A document that [create] accepts is appended to the collection
    under the fresh id, with the caller as its owner. *)
Lemma Transaction_create_Some (now : Date) (fresh : ObjectId) (db : Store)
    (owner : ObjectId) (req : NewTransaction) (doc : ITransaction) (db' : Store) :
  Transaction_create now fresh db owner req = Some (doc, db') ->
  db' = db ++ [doc] /\ _id doc = fresh /\ userId doc = owner
  /\ createdAt doc = now /\ updatedAt doc = now.
Proof.
  unfold Transaction_create.
  destruct (cast (new_title req)); simpl; [|discriminate].
  destruct (cast (new_amount req)); simpl; [|discriminate].
  destruct (cast (new_type req)); simpl; [|discriminate].
  destruct (cast (new_category req)); simpl; [|discriminate].
  destruct (cast (new_date req)); simpl; [|discriminate].
  destruct (valid_type _); [|discriminate].
  intros [= <- <-]. auto.
Qed.

(** The effect of each write on the store, by the status of its answer. *)
Lemma store_changes_only_on_success (now : Date) (fresh : ObjectId)
    (db : Store) (user : ObjectId) (id : string) (req : NewTransaction)
    (updates : Updates) :
  let created := createTransaction now fresh db user req in
  let updated := updateTransaction now db user id updates in
  let deleted := deleteTransaction db user id in
  (status created.1 <> 201 -> created.2 = db)
  /\ (status created.1 = 201 -> length created.2 = S (length db))
  /\ (status updated.1 <> 200 -> updated.2 = db)
  /\ (status updated.1 = 200 -> length updated.2 = length db)
  /\ (status deleted.1 <> 200 -> deleted.2 = db)
  /\ (status deleted.1 = 200 -> S (length deleted.2) = length db).
Proof.
  cbn zeta. repeat split.
  - unfold createTransaction.
    destruct (_ || _); [reflexivity|].
    destruct (Transaction_create _ _ _ _ _) as [[doc db']|]; simpl;
      [contradiction|reflexivity].
  - unfold createTransaction.
    destruct (_ || _); [discriminate|].
    destruct (Transaction_create _ _ _ _ _) as [[doc db']|] eqn:Hc; simpl;
      [|discriminate].
    intros _. apply Transaction_create_Some in Hc as (-> & _).
    rewrite length_app. simpl. lia.
  - unfold updateTransaction.
    destruct (isValidObjectId id); simpl; [|reflexivity].
    destruct (findById db id) as [[i t]|]; simpl; [|reflexivity].
    destruct (String.eqb (userId t) user); simpl; [|reflexivity].
    destruct (castUpdates updates); simpl; [contradiction|reflexivity].
  - unfold updateTransaction.
    destruct (isValidObjectId id); simpl; [|discriminate].
    destruct (findById db id) as [[i t]|]; simpl; [|discriminate].
    destruct (String.eqb (userId t) user); simpl; [|discriminate].
    destruct (castUpdates updates); simpl; [|discriminate].
    intros _. apply length_insert.
  - unfold deleteTransaction.
    destruct (isValidObjectId id); simpl; [|reflexivity].
    destruct (findById db id) as [[i t]|]; simpl; [|reflexivity].
    destruct (String.eqb (userId t) user); simpl; [contradiction|reflexivity].
  - unfold deleteTransaction.
    destruct (isValidObjectId id); simpl; [|discriminate].
    destruct (findById db id) as [[i t]|] eqn:Hf; simpl; [|discriminate].
    destruct (String.eqb (userId t) user); simpl; [|discriminate].
    intros _. apply list_find_Some in Hf as (Hi & _).
    rewrite length_delete by (rewrite Hi; eauto).
    apply lookup_lt_Some in Hi. lia.
Qed.

(** A write that is not answered with success leaves the store as it
    was; a successful create adds one document, a successful delete
    removes one, and a successful update keeps the number of
    documents. *)
Theorem writes_change_store_only_on_success (now : Date) (fresh : ObjectId)
    (db : Store) (user : ObjectId) (id : string) (req : NewTransaction)
    (updates : Updates) :
  let created := createTransaction now fresh db user req in
  let updated := updateTransaction now db user id updates in
  let deleted := deleteTransaction db user id in
  (status created.1 <> 201 -> created.2 = db)
  /\ (status created.1 = 201 -> length created.2 = S (length db))
  /\ (status updated.1 <> 200 -> updated.2 = db)
  /\ (status updated.1 = 200 -> length updated.2 = length db)
  /\ (status deleted.1 <> 200 -> deleted.2 = db)
  /\ (status deleted.1 = 200 -> S (length deleted.2) = length db).
Proof. exact (store_changes_only_on_success now fresh db user id req updates). Qed.

Lemma writes_change_store_only_on_success_witness :
  status (deleteTransaction Sample.store Sample.bob
            "65a000000000000000000001").1 <> 200
  /\ (deleteTransaction Sample.store Sample.bob
        "65a000000000000000000001").2 = Sample.store.
Proof.
  assert (status (deleteTransaction Sample.store Sample.bob
                    "65a000000000000000000001").1 <> 200) as Hne
    by (vm_compute; discriminate).
  split; [exact Hne|].
  exact (proj1 (proj2 (proj2 (proj2 (proj2
           (writes_change_store_only_on_success 0 "" Sample.store Sample.bob
              "65a000000000000000000001"
              (mkNewTransaction Absent Absent Absent Absent Absent)
              Sample.no_updates))))) Hne).
Defined.

Lemma applyUpdates_id (now : Date) (updates : CastedUpdates) (t : ITransaction) :
  _id (applyUpdates now updates t) = _id t.
Proof. reflexivity. Qed.

(** Each write keeps the ids of the store distinct. *)
Lemma ids_stay_unique (now : Date) (fresh : ObjectId) (db : Store)
    (user : ObjectId) (id : string) (req : NewTransaction) (updates : Updates) :
  unique_ids db ->
  (fresh ∉ (_id <$> db) ->
     unique_ids (createTransaction now fresh db user req).2)
  /\ unique_ids (updateTransaction now db user id updates).2
  /\ unique_ids (deleteTransaction db user id).2.
Proof.
  intros Hu. unfold unique_ids in *. split; [|split].
  - intros Hfresh. unfold createTransaction.
    destruct (_ || _); [exact Hu|].
    destruct (Transaction_create _ _ _ _ _) as [[doc db']|] eqn:Hc; simpl;
      [|exact Hu].
    apply Transaction_create_Some in Hc as (-> & Hid & _).
    rewrite fmap_app. apply NoDup_app. split; [exact Hu|].
    split; [|apply NoDup_singleton].
    intros x Hx Hx'. apply list_elem_of_singleton in Hx'. simpl in Hx'.
    subst x. rewrite Hid in Hx. contradiction.
  - unfold updateTransaction.
    destruct (isValidObjectId id); simpl; [|exact Hu].
    destruct (findById db id) as [[i t]|] eqn:Hf; simpl; [|exact Hu].
    destruct (String.eqb (userId t) user); simpl; [|exact Hu].
    destruct (castUpdates updates) as [casted|]; simpl; [|exact Hu].
    apply list_find_Some in Hf as (Hi & _).
    rewrite list_fmap_insert, applyUpdates_id.
    rewrite list_insert_id; [exact Hu|].
    rewrite list_lookup_fmap, Hi. reflexivity.
  - unfold deleteTransaction.
    destruct (isValidObjectId id); simpl; [|exact Hu].
    destruct (findById db id) as [[i t]|]; simpl; [|exact Hu].
    destruct (String.eqb (userId t) user); simpl; [|exact Hu].
    apply (sublist_NoDup _ (_id <$> db) Hu).
    apply fmap_sublist, sublist_delete.
Qed.

(** The primary key stays a key: from a store with unique ids, a create
    with an id not yet in the store, an update and a delete each lead to
    a store with unique ids. *)
Theorem writes_keep_ids_unique (now : Date) (fresh : ObjectId) (db : Store)
    (user : ObjectId) (id : string) (req : NewTransaction) (updates : Updates) :
  unique_ids db ->
  (fresh ∉ (_id <$> db) ->
     unique_ids (createTransaction now fresh db user req).2)
  /\ unique_ids (updateTransaction now db user id updates).2
  /\ unique_ids (deleteTransaction db user id).2.
Proof. exact (ids_stay_unique now fresh db user id req updates). Qed.

Lemma writes_keep_ids_unique_witness :
  unique_ids Sample.store
  /\ unique_ids (updateTransaction 7 Sample.store Sample.alice
                   "65a000000000000000000001"
                   (mkUpdates Absent Absent (Given 8) Absent Absent Absent)).2.
Proof.
  split; [exact sample_store_unique_ids|].
  exact (proj1 (proj2 (writes_keep_ids_unique 7 "" Sample.store Sample.alice
                         "65a000000000000000000001"
                         (mkNewTransaction Absent Absent Absent Absent Absent)
                         (mkUpdates Absent Absent (Given 8) Absent Absent Absent)
                         sample_store_unique_ids))).
Defined.

(** ** Reading after writing *)

Lemma get_by_id_absent (db : Store) (user : ObjectId) (id : string) :
  isValidObjectId id = true ->
  (forall t, t ∈ db -> _id t <> lower_hex_string id) ->
  getTransactionById db user id
  = res_status_json 404 (Message "Transaction not found").
Proof.
  intros Hv Hnone. apply findById_None in Hnone.
  unfold getTransactionById. rewrite Hv, Hnone. reflexivity.
Qed.

Lemma get_by_id_present (db : Store) (user : ObjectId) (id : string)
    (t : ITransaction) :
  unique_ids db -> isValidObjectId id = true ->
  t ∈ db -> _id t = lower_hex_string id ->
  getTransactionById db user id
  = if String.eqb (userId t) user then res_json (Document t)
    else res_status_json 403 (Message "Not authorized").
Proof.
  intros Hu Hv [i Hi]%list_elem_of_lookup_1 Ht.
  unfold getTransactionById.
  rewrite Hv, (findById_Some _ _ _ _ Hu Hi Ht). simpl.
  destruct (String.eqb (userId t) user); reflexivity.
Qed.

Lemma get_by_id_invalid (db : Store) (user : ObjectId) (id : string) :
  isValidObjectId id = false ->
  getTransactionById db user id = res_status_json 400 (Message "Invalid id").
Proof. intros Hv. unfold getTransactionById. rewrite Hv. reflexivity. Qed.

(** Two stores that hold the same documents under the id [id] answer a
    get-by-id alike. *)
Lemma get_by_id_same_documents (db db' : Store) (user : ObjectId) (id : string) :
  unique_ids db -> unique_ids db' ->
  (forall t, _id t = lower_hex_string id -> t ∈ db <-> t ∈ db') ->
  getTransactionById db' user id = getTransactionById db user id.
Proof.
  intros Hu Hu' Hsame.
  destruct (isValidObjectId id) eqn:Hv;
    [|rewrite !get_by_id_invalid by exact Hv; reflexivity].
  destruct (findById db id) as [[i t]|] eqn:Hf.
  - apply list_find_Some in Hf as (Hi & Ht & _).
    apply list_elem_of_lookup_2 in Hi.
    rewrite (get_by_id_present db user id t Hu Hv Hi Ht).
    apply (get_by_id_present db' user id t Hu' Hv); [|exact Ht].
    apply Hsame; assumption.
  - pose proof (proj1 (findById_None db id) Hf) as Hnone.
    rewrite (get_by_id_absent db user id Hv Hnone).
    apply get_by_id_absent; [exact Hv|].
    intros t Ht Hid. apply (Hnone t); [|exact Hid]. apply Hsame; assumption.
Qed.

Lemma elem_of_delete_unique (db : Store) (i : nat) (t t' : ITransaction) :
  unique_ids db -> db !! i = Some t ->
  t' ∈ delete i db <-> t' ∈ db /\ _id t' <> _id t.
Proof.
  intros Hu Hi. split.
  - intros Hin. split; [eapply list_elem_of_delete_inv; exact Hin|].
    apply list_elem_of_lookup_1 in Hin as [j Hj].
    rewrite list_lookup_delete in Hj.
    intros Hid. destruct (decide (j < i)%nat) as [Hlt|Hge].
    + assert (j = i); [|lia].
      apply (NoDup_lookup (_id <$> db) j i (_id t) Hu);
        rewrite list_lookup_fmap; [rewrite Hj|rewrite Hi]; simpl; congruence.
    + assert (S j = i); [|lia].
      apply (NoDup_lookup (_id <$> db) (S j) i (_id t) Hu);
        rewrite list_lookup_fmap; [rewrite Hj|rewrite Hi]; simpl; congruence.
  - intros [[j Hj]%list_elem_of_lookup_1 Hid].
    assert (j <> i) as Hne by (intros ->; congruence).
    destruct (decide (j < i)%nat) as [Hlt|Hge].
    + apply (list_elem_of_lookup_2 _ j). rewrite list_lookup_delete.
      rewrite decide_True by exact Hlt. exact Hj.
    + apply (list_elem_of_lookup_2 _ (j - 1)). rewrite list_lookup_delete.
      rewrite decide_False by lia.
      replace (S (j - 1)) with j by lia. exact Hj.
Qed.

(** After a successful delete the id answers 404 to every caller, and
    every other id is answered as before the delete. *)
Theorem delete_then_get (db : Store) (user : ObjectId) (id : string) :
  unique_ids db ->
  status (deleteTransaction db user id).1 = 200 ->
  (forall u,
     getTransactionById (deleteTransaction db user id).2 u id
     = res_status_json 404 (Message "Transaction not found"))
  /\ (forall u id',
        lower_hex_string id' <> lower_hex_string id ->
        getTransactionById (deleteTransaction db user id).2 u id'
        = getTransactionById db u id').
Proof.
  intros Hu Hok.
  pose proof (proj2 (proj2 (ids_stay_unique 0 "" db user id
                              (mkNewTransaction Absent Absent Absent Absent Absent)
                              (mkUpdates Absent Absent Absent Absent Absent Absent) Hu)))
    as Hu'.
  revert Hok Hu'. unfold deleteTransaction.
  destruct (isValidObjectId id) eqn:Hv; simpl; [|discriminate].
  destruct (findById db id) as [[i t]|] eqn:Hf; simpl; [|discriminate].
  destruct (String.eqb (userId t) user); simpl; [|discriminate].
  intros _ Hu'. apply list_find_Some in Hf as (Hi & Ht & _). split.
  - intros u. apply get_by_id_absent; [exact Hv|].
    intros t' Hin. apply (elem_of_delete_unique db i t t' Hu Hi) in Hin.
    rewrite <- Ht. tauto.
  - intros u id' Hne. apply get_by_id_same_documents; [exact Hu|exact Hu'|].
    intros t' Hid. rewrite (elem_of_delete_unique db i t t' Hu Hi).
    split; [|tauto]. intros Hin. split; [exact Hin|]. congruence.
Qed.

Lemma delete_then_get_witness :
  unique_ids Sample.store
  /\ status (deleteTransaction Sample.store Sample.alice
               "65a000000000000000000001").1 = 200
  /\ getTransactionById
       (deleteTransaction Sample.store Sample.alice
          "65a000000000000000000001").2 Sample.alice
       "65a000000000000000000001"
     = res_status_json 404 (Message "Transaction not found").
Proof.
  split; [exact sample_store_unique_ids|]. split; [reflexivity|].
  exact (proj1 (delete_then_get Sample.store Sample.alice
                  "65a000000000000000000001" sample_store_unique_ids eq_refl)
           Sample.alice).
Defined.

(** After a successful create that was given a well-formed id not yet in
    the store, the owner reads the new document back under that id,
    every other caller is refused with 403, and every id that was
    answered before is answered the same. *)
Theorem create_then_get (now : Date) (fresh : ObjectId) (db db' : Store)
    (user : ObjectId) (req : NewTransaction) (doc : ITransaction) :
  unique_ids db -> fresh ∉ (_id <$> db) ->
  isValidObjectId fresh = true -> lower_hex_string fresh = fresh ->
  createTransaction now fresh db user req
  = (res_status_json 201 (Document doc), db') ->
  getTransactionById db' user fresh = res_json (Document doc)
  /\ (forall u, u <> user -> status (getTransactionById db' u fresh) = 403)
  /\ (forall u id, lower_hex_string id <> fresh ->
        getTransactionById db' u id = getTransactionById db u id).
Proof.
  intros Hu Hfresh Hv Hcanon Hcreate.
  pose proof (proj1 (ids_stay_unique now fresh db user ""
                       req (mkUpdates Absent Absent Absent Absent Absent Absent) Hu)
                Hfresh) as Hu'.
  rewrite Hcreate in Hu'. simpl in Hu'.
  revert Hcreate. unfold createTransaction.
  destruct (_ || _); [discriminate|].
  destruct (Transaction_create _ _ _ _ _) as [[doc0 db0]|] eqn:Hc;
    [|discriminate].
  intros [= -> ->].
  apply Transaction_create_Some in Hc as (-> & Hdoc & Hown & _).
  assert (doc ∈ db ++ [doc]) as Hin
    by (apply elem_of_app; right; apply list_elem_of_here).
  assert (_id doc = lower_hex_string fresh) as Hid by congruence.
  split; [|split].
  - rewrite (get_by_id_present _ user fresh doc Hu' Hv Hin Hid).
    rewrite Hown, String.eqb_refl. reflexivity.
  - intros u Hne.
    rewrite (get_by_id_present _ u fresh doc Hu' Hv Hin Hid).
    rewrite eqb_string_false by congruence. reflexivity.
  - intros u id Hne. apply get_by_id_same_documents; [exact Hu|exact Hu'|].
    intros t Ht. rewrite elem_of_app, list_elem_of_singleton.
    split; [tauto|]. intros [Hdb | ->]; [exact Hdb|].
    congruence.
Qed.

Lemma create_then_get_witness :
  let req := mkNewTransaction (Given "Tea") (Given 3) (Given "expense")
               (Given "Food") Absent in
  let doc := mkTransaction "65a000000000000000000005" Sample.alice "Tea" 3
               "expense" (Some "Food") 9 9 9 in
  unique_ids Sample.store
  /\ ("65a000000000000000000005" ∉ (_id <$> Sample.store))
  /\ getTransactionById (Sample.store ++ [doc]) Sample.alice
       "65a000000000000000000005"
     = res_json (Document doc).
Proof.
  intros req doc.
  assert ("65a000000000000000000005" ∉ (_id <$> Sample.store)) as Hfresh.
  { apply (bool_decide_unpack _). vm_compute. exact I. }
  split; [exact sample_store_unique_ids|]. split; [exact Hfresh|].
  exact (proj1 (create_then_get 9 "65a000000000000000000005" Sample.store
                  (Sample.store ++ [doc]) Sample.alice req doc
                  sample_store_unique_ids Hfresh eq_refl eq_refl eq_refl)).
Defined.

Lemma castUpdates_owner (updates : Updates) (casted : CastedUpdates) :
  castUpdates updates = Some casted ->
  c_userId casted = lower_hex_string <$> value_of (set_userId updates).
Proof.
  destruct (castable updates) eqn:Hc.
  - rewrite (castUpdates_castable _ Hc). intros [= <-]. reflexivity.
  - rewrite (castUpdates_not_castable _ Hc). discriminate.
Qed.

(** After a successful update the document is read back, in its new
    state, by the owner it now has (the caller, unless the body set
    [userId]); every other caller is refused with 403; and every other
    id is answered as before. *)
Theorem update_then_get (now : Date) (db db' : Store) (user : ObjectId)
    (id : string) (updates : Updates) (t' : ITransaction) :
  unique_ids db ->
  updateTransaction now db user id updates = (res_json (Document t'), db') ->
  userId t' = default user (lower_hex_string <$> value_of (set_userId updates))
  /\ getTransactionById db' (userId t') id = res_json (Document t')
  /\ (forall u, u <> userId t' -> status (getTransactionById db' u id) = 403)
  /\ (forall u id',
        lower_hex_string id' <> lower_hex_string id ->
        getTransactionById db' u id' = getTransactionById db u id').
Proof.
  intros Hu Hupd.
  pose proof (proj1 (proj2 (ids_stay_unique now "" db user id
                              (mkNewTransaction Absent Absent Absent Absent Absent)
                              updates Hu))) as Hu'.
  rewrite Hupd in Hu'. simpl in Hu'.
  revert Hupd. unfold updateTransaction.
  destruct (isValidObjectId id) eqn:Hv; simpl; [|discriminate].
  destruct (findById db id) as [[i t]|] eqn:Hf; simpl; [|discriminate].
  destruct (String.eqb (userId t) user) eqn:Ho; simpl; [|discriminate].
  destruct (castUpdates updates) as [casted|] eqn:Hcast; simpl; [|discriminate].
  intros [= <- <-]. apply String.eqb_eq in Ho.
  apply list_find_Some in Hf as (Hi & Ht & _).
  set (t' := applyUpdates now casted t) in *.
  assert (t' ∈ <[i := t']> db) as Hin.
  { apply (list_elem_of_lookup_2 _ i), list_lookup_insert_eq.
    eapply lookup_lt_Some. exact Hi. }
  assert (_id t' = lower_hex_string id) as Hid by exact Ht.
  split; [|split; [|split]].
  - unfold t'. simpl. rewrite Ho. f_equal.
    apply castUpdates_owner. exact Hcast.
  - rewrite (get_by_id_present _ (userId t') id t' Hu' Hv Hin Hid).
    rewrite String.eqb_refl. reflexivity.
  - intros u Hne.
    rewrite (get_by_id_present _ u id t' Hu' Hv Hin Hid).
    rewrite eqb_string_false by congruence. reflexivity.
  - intros u id' Hne. apply get_by_id_same_documents; [exact Hu|exact Hu'|].
    intros x Hx. split.
    + intros [j Hj]%list_elem_of_lookup_1.
      destruct (decide (j = i)) as [->|Hji]; [congruence|].
      apply (list_elem_of_lookup_2 _ j).
      rewrite list_lookup_insert_ne by congruence. exact Hj.
    + intros [j Hj]%list_elem_of_lookup_1.
      destruct (decide (i = j)) as [->|Hji].
      * rewrite list_lookup_insert_eq in Hj by (eapply lookup_lt_Some; exact Hi).
        injection Hj as <-. congruence.
      * rewrite list_lookup_insert_ne in Hj by exact Hji.
        eapply list_elem_of_lookup_2. exact Hj.
Qed.

(** Alice hands her coffee over to Bob: afterwards Bob reads it and
    Alice is refused. *)
Lemma update_then_get_witness :
  let updates := mkUpdates (Given Sample.bob) Absent Absent Absent Absent Absent in
  let t' := mkTransaction "65a000000000000000000001" Sample.bob "Coffee" 5
              "expense" (Some "Food") 1736467200000 1736467200000 7 in
  unique_ids Sample.store
  /\ getTransactionById (<[0%nat := t']> Sample.store) Sample.bob
       "65a000000000000000000001" = res_json (Document t')
  /\ status (getTransactionById (<[0%nat := t']> Sample.store) Sample.alice
               "65a000000000000000000001") = 403.
Proof.
  intros updates t'.
  destruct (update_then_get 7 Sample.store (<[0%nat := t']> Sample.store)
              Sample.alice "65a000000000000000000001" updates t'
              sample_store_unique_ids eq_refl) as (_ & Hget & Hother & _).
  split; [exact sample_store_unique_ids|]. split; [exact Hget|].
  apply Hother. discriminate.
Defined.

(** ** Summary: the category totals and the monthly series *)

Lemma foldl_sum_acc (l : list ITransaction) (o : option Z) :
  foldl (fun o t => Some (sum_acc amount o t)) o l
  = match l with
    | [] => o
    | _ :: _ => Some (default 0 o + sum_amount l)
    end.
Proof.
  revert o. induction l as [|t l IH]; intros o; [reflexivity|].
  simpl foldl. rewrite IH. unfold sum_acc.
  destruct l as [|t' l]; simpl; f_equal; lia.
Qed.

(** The groups of the [$group] stage on [category]: one per stored
    category value, holding the sum of its documents. *)
Lemma category_groups (l : list ITransaction) (c : option string) (x : Z) :
  (c, x) ∈ group_by category (sum_acc amount) l
  <-> with_category c l <> [] /\ x = sum_amount (with_category c l).
Proof.
  rewrite (assoc_elem_of _ _ _ (group_by_NoDup _ _ _)).
  rewrite assoc_group_by. fold (with_category c l). rewrite foldl_sum_acc.
  destruct (with_category c l) as [|t l'].
  - split; [discriminate|intros [[] _]; reflexivity].
  - cbn [default]. rewrite Z.add_0_l. split.
    + intros [= <-]. split; [discriminate|reflexivity].
    + intros [_ ->]. reflexivity.
Qed.

#[local] Instance total_desc_total : Total total_desc.
Proof. intros a b. unfold total_desc. lia. Qed.

#[local] Instance total_desc_trans : Transitive total_desc.
Proof. intros a b c. unfold total_desc. lia. Qed.

(** The [category] list of the summary holds at most ten groups, in
    descending order of total, no category twice.  Each group is keyed
    by a category exactly as stored (an absent category and an empty one
    are two groups, neither is relabelled) and holds the sum of all of
    the owner's documents stored with it, of either type.  A category
    of the owner that is not listed was cut by the limit: the list is
    then full and none of its totals is smaller. *)
Theorem summary_category_totals (db : Store) (user : ObjectId) :
  let result := category_pipeline user db in
  (length result <= 10)%nat
  /\ StronglySorted total_desc result
  /\ NoDup result.*1
  /\ (forall c x, (c, x) ∈ result ->
        with_category c (owned user db) <> []
        /\ x = sum_amount (with_category c (owned user db)))
  /\ (forall c, with_category c (owned user db) <> [] -> c ∉ result.*1 ->
        length result = 10%nat
        /\ forall g, g ∈ result ->
             sum_amount (with_category c (owned user db)) <= g.2).
Proof.
  unfold category_pipeline. fold (owned user db).
  set (grouped := group_by category (sum_acc amount) (owned user db)).
  set (sorted := merge_sort total_desc grouped).
  assert (sorted ≡ₚ grouped) as Hperm by apply merge_sort_Permutation.
  assert (StronglySorted total_desc sorted) as Hsorted
    by (apply StronglySorted_merge_sort; apply _).
  assert (NoDup sorted.*1) as Hnd
    by (rewrite Hperm; apply group_by_NoDup).
  cbn zeta. split; [rewrite length_take; lia|]. split.
  { rewrite <- (take_drop 10 sorted) in Hsorted.
    eapply StronglySorted_app_1_l. exact Hsorted. }
  split.
  { apply (sublist_NoDup _ sorted.*1 Hnd), fmap_sublist, sublist_take. }
  split.
  - intros c x Hin. apply category_groups. fold grouped. rewrite <- Hperm.
    apply elem_of_take in Hin as (i & Hi & _).
    eapply list_elem_of_lookup_2. exact Hi.
  - intros c Hne Hout.
    set (x := sum_amount (with_category c (owned user db))).
    assert ((c, x) ∈ sorted) as Hin.
    { rewrite Hperm. apply category_groups. auto. }
    rewrite <- (take_drop 10 sorted) in Hin, Hsorted.
    apply elem_of_app in Hin as [Hin|Hin].
    { exfalso. apply Hout. apply list_elem_of_fmap. exists (c, x). auto. }
    split.
    + rewrite length_take. apply Nat.min_l.
      destruct (decide (10 <= length sorted)%nat) as [Hle|Hgt]; [exact Hle|].
      rewrite drop_ge in Hin by lia. apply elem_of_nil in Hin. contradiction.
    + intros g Hg.
      exact (StronglySorted_app_1_elem_of _ _ _ g (c, x) Hsorted Hg Hin).
Qed.

(** On the sample collection Alice's groups are the absent category with
    her salary and ["Food"] with her two purchases. *)
Example summary_category_sample :
  category_pipeline Sample.alice Sample.store = [(None, 1000); (Some "Food", 45)].
Proof. reflexivity. Qed.

(** On a server whose local time is a fixed offset from UTC, the monthly
    window opens at a midnight of the server's time. *)
Lemma summary_startDate_midnight (offset : Z) (names : list string) (now : Date) :
  LocalTime (fixed_host offset names)
    (summary_startDate (fixed_host offset names) now) mod msPerDay = 0.
Proof.
  unfold summary_startDate, setHours0, LocalTime, UTC. simpl.
  match goal with
  | |- (?d * msPerDay - offset + offset) mod msPerDay = 0 =>
      replace (d * msPerDay - offset + offset) with (d * msPerDay) by lia
  end.
  apply Z.mod_mul. discriminate.
Qed.

(** The [monthly] list of the summary, for the window the handler
    computes: its groups come in ascending (year, month) order, no month
    twice; and a group is present exactly when the owner has a document
    dated at or after the opening instant whose date falls, in UTC, in
    that month of that year of the Gregorian calendar, with the sums of
    the amounts of those documents of type ["income"] and of type
    ["expense"].  On a server at a fixed offset from UTC the window opens
    at a midnight of the server's time. *)
Theorem summary_monthly_series (h : Host) (now : Date) (db : Store)
    (user : ObjectId) :
  exists monthly category totalIncome totalExpense,
    getSummary h now db user
    = res_json (Summary monthly category totalIncome totalExpense)
    /\ StronglySorted month_asc monthly
    /\ NoDup ((fun g => (mg_year g, mg_month g)) <$> monthly)
    /\ (forall g,
          g ∈ monthly
          <-> let l := in_window_month (summary_startDate h now) user
                         (mg_year g) (mg_month g) db in
              l <> []
              /\ mg_income g = sum_amount (of_type "income" l)
              /\ mg_expense g = sum_amount (of_type "expense" l))
    /\ civil_from_days 0 = (1970, 1, 1)
    /\ (forall z, civil_from_days (z + 1) = next_day (civil_from_days z))
    /\ (forall offset names, h = fixed_host offset names ->
          LocalTime h (summary_startDate h now) mod msPerDay = 0).
Proof.
  unfold getSummary. eexists _, _, _, _. split; [reflexivity|].
  destruct (monthly_pipeline_spec (summary_startDate h now) user db)
    as (Hs & Hnd & Hg).
  split; [exact Hs|]. split; [exact Hnd|]. split; [exact Hg|].
  split; [exact civil_from_days_epoch|]. split; [exact civil_from_days_next|].
  intros offset names ->. apply summary_startDate_midnight.
Qed.

(** On the sample collection, at noon of 2024-03-15 on a server in UTC:
    the window opens at 2023-10-15 00:00, and Alice's monthly series has
    the January of 2024 with her salary and, apart from it, the January
    of 2025 with her two purchases. *)
Lemma summary_monthly_series_witness :
  summary_startDate Host_UTC 1710504000000 = 1697328000000
  /\ exists category totalIncome totalExpense,
       getSummary Host_UTC 1710504000000 Sample.store Sample.alice
       = res_json (Summary [mkMonthGroup 2024 1 1000 0; mkMonthGroup 2025 1 0 45]
                     category totalIncome totalExpense)
       /\ in_window_month 1697328000000 Sample.alice 2025 1 Sample.store
          = [Sample.coffee; Sample.books]
       /\ LocalTime Host_UTC (summary_startDate Host_UTC 1710504000000)
          mod msPerDay = 0.
Proof.
  split; [vm_compute; reflexivity|].
  destruct (summary_monthly_series Host_UTC 1710504000000 Sample.store
              Sample.alice)
    as (monthly & category & ti & te & Hr & _ & _ & _ & _ & _ & Hmid).
  exists category, ti, te. split; [|split].
  - rewrite Hr. vm_compute in Hr. injection Hr as <- _ _ _. reflexivity.
  - vm_compute. reflexivity.
  - exact (Hmid 0 english_months eq_refl).
Defined.

(** The same instant on a server two hours east of UTC: the window opens
    at the midnight of that server, 22:00 of the day before in UTC. *)
Example summary_window_on_another_server :
  summary_startDate Host_east 1710504000000 = 1697320800000.
Proof. vm_compute. reflexivity. Qed.

(** ** Analytics against the summary *)

Lemma map_sum_insert {V : Type} (g : V -> Z) (m : gmap string V) (k : string)
    (v : V) :
  map_fold (fun _ v s => g v + s) 0 (<[k := v]> m)
  = map_fold (fun _ v s => g v + s) 0 m - from_option g 0 (m !! k) + g v.
Proof.
  destruct (m !! k) as [w|] eqn:Hk; simpl.
  - rewrite <- insert_delete_eq.
    rewrite map_fold_insert_L;
      [|intros; lia|apply lookup_delete_eq].
    rewrite (map_fold_delete_L _ _ k w m); [lia|intros; lia|exact Hk].
  - rewrite map_fold_insert_L; [lia|intros; lia|exact Hk].
Qed.

Lemma monthly_step_insert (h : Host) (m : gmap string JsObject)
    (t : ITransaction) :
  plain_months h ->
  monthly_step h m t
  = <[month_short h (date t)
      := add_amount (type t) (amount t)
           (default new_bucket (m !! month_short h (date t)))]> m.
Proof.
  intros Hplain. unfold monthly_step.
  rewrite (inherited_false (month_short h (date t))) by apply Hplain.
  destruct (m !! month_short h (date t)); reflexivity.
Qed.

Lemma sum_buckets_foldl (h : Host) (k : string) (l : list ITransaction)
    (m : gmap string JsObject) :
  plain_months h -> k ∉ Object_prototype ->
  new_bucket !! k = Some (VNum 0) -> buckets_hold k m ->
  map_fold (fun _ b s => held (b !! k) + s) 0 (foldl (monthly_step h) m l)
  = map_fold (fun _ b s => held (b !! k) + s) 0 m + sum_amount (of_type k l).
Proof.
  intros Hplain Hk Hnew. revert m.
  induction l as [|t l IH]; intros m Hm; simpl foldl.
  - simpl. lia.
  - set (month := month_short h (date t)).
    assert (exists x, default new_bucket (m !! month) !! k = Some (VNum x))
      as [x Hx].
    { destruct (m !! month) as [b|] eqn:Hb; simpl; [exact (Hm _ _ Hb)|].
      exists 0. exact Hnew. }
    assert (add_amount (type t) (amount t) (default new_bucket (m !! month)) !! k
            = Some (VNum (x + if decide (type t = k) then amount t else 0)))
      as Hadd.
    { rewrite add_amount_lookup by exact Hk.
      destruct (decide (type t = k)) as [->|Hne].
      - rewrite String.eqb_refl. unfold js_get. rewrite Hx. reflexivity.
      - rewrite (eqb_string_false _ _ Hne), Hx. do 2 f_equal. lia. }
    rewrite IH.
    + rewrite (monthly_step_insert h m t Hplain). fold month.
      rewrite (map_sum_insert (fun b => held (b !! k))), Hadd.
      assert (from_option (fun b => held (b !! k)) 0 (m !! month) = x) as ->.
      { destruct (m !! month) as [b|] eqn:Hb; simpl in *.
        - rewrite Hx. reflexivity.
        - rewrite Hnew in Hx. injection Hx as <-. reflexivity. }
      cbn [of_type List.filter]. fold (of_type k l).
      destruct (decide (type t = k)) as [Ht|Ht].
      * rewrite bool_decide_eq_true_2 by exact Ht. unfold held. simpl. lia.
      * rewrite bool_decide_eq_false_2 by exact Ht. unfold held. simpl. lia.
    + intros name b. rewrite (monthly_step_insert h m t Hplain). fold month.
      destruct (decide (month = name)) as [<-|Hne].
      * rewrite lookup_insert_eq. intros [= <-]. eexists. exact Hadd.
      * rewrite lookup_insert_ne by exact Hne. apply Hm.
Qed.

Lemma sum_values_foldl (l : list ITransaction) (m : JsObject) :
  (forall t, t ∈ l -> type t = "expense" -> label_of t ∉ Object_prototype) ->
  (forall c v, m !! c = Some v -> exists x, v = VNum x) ->
  sum_values (foldl category_step m l)
  = sum_values m + sum_amount (of_type "expense" l).
Proof.
  revert m. induction l as [|t l IH]; intros m Hl Hm; simpl foldl.
  - simpl. lia.
  - assert (forall t', t' ∈ l -> type t' = "expense" ->
                       label_of t' ∉ Object_prototype) as Hl'
      by (intros t' Ht'; apply Hl; apply list_elem_of_further; exact Ht').
    cbn [of_type List.filter]. fold (of_type "expense" l).
    unfold category_step. rewrite category_label_spec.
    destruct (String.eqb_spec (type t) "expense") as [He|He].
    + rewrite bool_decide_eq_true_2 by exact He.
      pose proof (Hl t (list_elem_of_here _ _) He) as Hplain.
      assert (String.eqb (label_of t) "__proto__" = false) as Hp.
      { apply String.eqb_neq. intros Heq. apply Hplain. rewrite Heq.
        apply proto_in_prototype. }
      assert (or_zero_plus (js_get m (label_of t)) (amount t)
              = VNum (held (m !! label_of t) + amount t)) as Hplus.
      { unfold js_get, held. rewrite (inherited_false _ Hplain).
        destruct (m !! label_of t) as [v|] eqn:Hv; [|reflexivity].
        destruct (Hm _ _ Hv) as [x ->]. reflexivity. }
      unfold js_set. rewrite Hp, Hplus.
      rewrite IH; [|exact Hl'|].
      * unfold sum_values.
        rewrite (map_sum_insert (fun v => default 0 (number_of v))).
        unfold held. simpl.
        destruct (m !! label_of t) as [v|]; simpl; lia.
      * intros c v. destruct (decide (label_of t = c)) as [<-|Hne].
        -- rewrite lookup_insert_eq. intros [= <-]. eexists. reflexivity.
        -- rewrite lookup_insert_ne by exact Hne. apply Hm.
    + rewrite bool_decide_eq_false_2 by exact He. apply IH; assumption.
Qed.

(** The two aggregation views agree on their totals, on a server whose
    month names are none of the names that plain objects inherit, when
    no expense of the owner is filed under such a name and the sizes of
    the amounts add up within the range of exact integers: the entries
    of the analytics' [categoryTotals] add up to the summary's
    [totalExpense], and the income and expense fields of the analytics'
    [monthly] buckets add up to [totalIncome] and [totalExpense]. *)
Theorem analytics_agrees_with_summary (h : Host) (now : Date) (db : Store)
    (user : ObjectId) :
  plain_months h ->
  (forall t, t ∈ owned user db -> type t = "expense" ->
             label_of t ∉ Object_prototype) ->
  sum_abs (owned user db) <= MAX_SAFE ->
  exists monthlyA categoryTotals monthlyS category totalIncome totalExpense,
    getAnalytics h db user = res_json (Analytics monthlyA categoryTotals)
    /\ getSummary h now db user
       = res_json (Summary monthlyS category totalIncome totalExpense)
    /\ sum_values categoryTotals = totalExpense
    /\ sum_incomes monthlyA = totalIncome
    /\ sum_expenses monthlyA = totalExpense.
Proof.
  intros Hplain Hlabels _.
  unfold getAnalytics, getSummary. fold (owned user db).
  eexists _, _, _, _, _, _. split; [reflexivity|]. split; [reflexivity|].
  rewrite !total_of_totals.
  assert (buckets_hold "income" ∅ /\ buckets_hold "expense" ∅) as [Hbi Hbe].
  { split; intros name b Hb; rewrite lookup_empty in Hb; discriminate Hb. }
  split; [|split].
  - rewrite sum_values_foldl; [|exact Hlabels|].
    + unfold sum_values. rewrite map_fold_empty. lia.
    + intros c v Hv. rewrite lookup_empty in Hv. discriminate Hv.
  - unfold sum_incomes.
    rewrite (sum_buckets_foldl h "income" _ ∅ Hplain income_plain eq_refl Hbi).
    rewrite map_fold_empty. lia.
  - unfold sum_expenses.
    rewrite (sum_buckets_foldl h "expense" _ ∅ Hplain expense_plain eq_refl Hbe).
    rewrite map_fold_empty. lia.
Qed.

Lemma sample_labels_plain :
  forall t, t ∈ owned Sample.alice Sample.store -> type t = "expense" ->
            label_of t ∉ Object_prototype.
Proof.
  intros t Ht _. apply list_elem_of_In in Ht. simpl in Ht.
  destruct Ht as [<-|[<-|[<-|[]]]];
    apply (bool_decide_unpack _); vm_compute; exact I.
Defined.

(** Alice's expenses on the sample collection: 45 in both views. *)
Lemma analytics_agrees_with_summary_witness :
  exists monthlyA categoryTotals monthlyS category,
    getAnalytics Host_UTC Sample.store Sample.alice
    = res_json (Analytics monthlyA categoryTotals)
    /\ getSummary Host_UTC 0 Sample.store Sample.alice
       = res_json (Summary monthlyS category 1000 45)
    /\ sum_values categoryTotals = 45
    /\ sum_incomes monthlyA = 1000.
Proof.
  destruct (analytics_agrees_with_summary Host_UTC 0 Sample.store Sample.alice
              Host_UTC_plain sample_labels_plain sample_amounts_safe)
    as (mA & cT & mS & cat & ti & te & Ha & Hs & Hv & Hi & _).
  exists mA, cT, mS, cat. split; [exact Ha|].
  assert (ti = 1000 /\ te = 45) as [-> ->].
  { vm_compute in Hs. injection Hs as _ _ <- <-. split; reflexivity. }
  split; [exact Hs|]. split; [exact Hv|exact Hi].
Defined.

(** ** Page and limit texts *)
















(** ** Filters that nothing satisfies *)

Lemma filter_none {A : Type} (P : A -> Prop) `{forall x, Decision (P x)}
    (l : list A) :
  (forall x, x ∈ l -> ~ P x) -> filter P l = [].
Proof.
  intros Hl. induction l as [|x l IH]; [reflexivity|].
  rewrite filter_cons, decide_False by (apply Hl, list_elem_of_here).
  apply IH. intros y Hy. apply Hl, list_elem_of_further, Hy.
Qed.

(** A [type] parameter that none of the owner's documents carries, or a
    start date after the end date, is no error: the request is answered
    200 with an empty page, [total = 0] and [pages = 0]. *)
Theorem unmatchable_filter_gives_empty_page (tie : ObjectId -> Z) (db : Store)
    (user : ObjectId) (q : ListQuery) (p L : Z) :
  pageNum q = JNum p -> lim q = JNum L -> dated_bounds q -> safe_page p L ->
  (exists ty, q_type q = Some ty /\ ty <> ""
              /\ forall t, t ∈ db -> userId t = user -> type t <> ty)
  \/ (exists a b, q_startDate q = Given a /\ q_endDate q = Given b /\ b < a) ->
  getTransactions tie db user q = res_json (Page [] 0 p 0).
Proof.
  intros Hp HL Hd Hsafe Hq.
  assert (filter (selected user q) db = []) as Hnil.
  { apply filter_none. intros t Ht (Ho & Hty & _ & Hge & Hle).
    destruct Hq as [(ty & Hq & Hne & Hnone) | (a & b & Ha & Hb & Hab)].
    - exact (Hnone t Ht Ho (Hty ty Hq Hne)).
    - specialize (Hge a Ha). specialize (Hle b Hb). lia. }
  destruct (resolved_at_least_1 q p L Hp HL) as [_ HL1].
  unfold getTransactions.
  rewrite (list_page_resolved tie db user q p L Hp HL Hd Hsafe), Hnil.
  cbn [length]. rewrite Math_ceil_div_0 by lia.
  change (merge_sort (query_order tie) []) with (@nil ITransaction).
  rewrite drop_nil, take_nil. reflexivity.
Qed.

Lemma unmatchable_filter_gives_empty_page_witness :
  let q := mkListQuery None None Absent Absent None (Some "transfer") in
  pageNum q = JNum 1 /\ lim q = JNum 20
  /\ getTransactions Sample.coffee_first Sample.store Sample.alice q
     = res_json (Page [] 0 1 0).
Proof.
  intros q. split; [reflexivity|]. split; [reflexivity|].
  apply (unmatchable_filter_gives_empty_page Sample.coffee_first Sample.store
           Sample.alice q 1 20 eq_refl eq_refl).
  - split; discriminate.
  - apply small_page_safe; lia.
  - left. exists "transfer". split; [reflexivity|]. split; [discriminate|].
    intros t Ht _. apply list_elem_of_In in Ht. simpl in Ht.
    destruct Ht as [<-|[<-|[<-|[<-|[]]]]]; discriminate.
Defined.

(** Once an update has stored the type ["transfer"], the same filter
    finds that document. *)
Example retyped_record_is_listed :
  let retype := mkUpdates Absent Absent Absent (Given "transfer") Absent Absent in
  let db := (updateTransaction 7 Sample.store Sample.alice
               "65a000000000000000000001" retype).2 in
  exists t,
    getTransactions Sample.coffee_first db Sample.alice
      (mkListQuery None None Absent Absent None (Some "transfer"))
    = res_json (Page [t] 1 1 1)
    /\ _id t = "65a000000000000000000001" /\ type t = "transfer".
Proof. eexists. split; [vm_compute; reflexivity|]. split; reflexivity. Qed.

(** * Authentication *)

Section AuthProperties.
Variable bcrypt_hash : string -> string -> string.
Variable bcrypt_compare : string -> string -> bool.
Variable JWT_SECRET : option string.
Variable jwt_sign : Z -> string -> string -> string.
Variable jwt_verify : Z -> string -> string -> option (option string).

Lemma falsy_Some_false (s : string) : s <> "" -> falsy (Some s) = false.
Proof. intros H. simpl. apply String.eqb_neq. exact H. Qed.

Lemma User_findOne_None (users : Users) (email : string) :
  User_findOne users email = None <-> email ∉ u_email <$> users.
Proof.
  unfold User_findOne. rewrite fmap_None, list_find_None, Forall_forall.
  rewrite list_elem_of_fmap. split.
  - intros H (u & -> & Hu). exact (H u Hu eq_refl).
  - intros H u Hu He. apply H. exists u. auto.
Qed.

Lemma User_findOne_new (users : Users) (u : IUser) :
  User_findOne users (u_email u) = None ->
  User_findOne (users ++ [u]) (u_email u) = Some u.
Proof.
  unfold User_findOne. intros Hnone. apply fmap_None in Hnone.
  rewrite list_find_app_r by exact Hnone. simpl.
  rewrite decide_True by reflexivity. reflexivity.
Qed.

(** Registration.  A request with an absent or empty name, email or
    password, or with an email already registered, is answered 400 and
    stores nothing.  Otherwise it is answered 201 and exactly one user
    is appended, whose password field is the hash of the password, not
    the password as sent; and emails stay unique among the users. *)
Theorem register_outcomes (now : Date) (fresh : ObjectId) (salt : string)
    (users : Users) (req : RegisterBody) :
  let result := registerUser bcrypt_hash JWT_SECRET jwt_sign now fresh salt users req in
  (falsy (reg_name req) = true \/ falsy (reg_email req) = true
   \/ falsy (reg_password req) = true ->
     result = (mkAuthResponse 400 (AuthMessage "Please fill all fields"), users))
  /\ (forall name email password,
        reg_name req = Some name -> name <> "" ->
        reg_email req = Some email -> email <> "" ->
        reg_password req = Some password -> password <> "" ->
        (email ∈ u_email <$> users ->
           result
           = (mkAuthResponse 400 (AuthMessage "User already exists"), users))
        /\ (email ∉ u_email <$> users ->
            result
            = (mkAuthResponse 201
                 (Session fresh name email
                    (jwt_sign now (signing_secret JWT_SECRET) fresh)),
               users ++ [mkUser fresh name email (bcrypt_hash password salt)
                           now now])))
  /\ (NoDup (u_email <$> users) -> NoDup (u_email <$> result.2)).
Proof.
  cbn zeta. unfold registerUser. split; [|split].
  - intros Hm.
    assert (falsy (reg_name req) || falsy (reg_email req)
            || falsy (reg_password req) = true) as ->; [|reflexivity].
    destruct Hm as [-> | [-> | ->]]; rewrite ?orb_true_r; reflexivity.
  - intros name email password -> Hn -> He -> Hp.
    rewrite !falsy_Some_false by assumption. simpl. split.
    + intros Hin. destruct (User_findOne users email) eqn:Hf; [reflexivity|].
      apply User_findOne_None in Hf. contradiction.
    + intros Hout. apply User_findOne_None in Hout. rewrite Hout. reflexivity.
  - intros Hnd. destruct (_ || _); [exact Hnd|].
    destruct (User_findOne users _) eqn:Hf; [exact Hnd|]. simpl.
    apply User_findOne_None in Hf.
    rewrite fmap_app. apply NoDup_app. split; [exact Hnd|].
    split; [|apply NoDup_singleton].
    intros x Hx ->%list_elem_of_singleton. contradiction.
Qed.


(** A user who has just registered can log in with the same email and
    password, at any later time, and is answered with the id the
    registration returned.  This rests on [bcrypt.compare] accepting the
    hash [bcrypt.hash] made of the same password. *)
Theorem login_after_register (now now' : Date) (fresh : ObjectId)
    (salt : string) (users users' : Users) (req : RegisterBody)
    (name email password token : string) :
  (forall p s, bcrypt_compare p (bcrypt_hash p s) = true) ->
  reg_password req = Some password ->
  registerUser bcrypt_hash JWT_SECRET jwt_sign now fresh salt users req
  = (mkAuthResponse 201 (Session fresh name email token), users') ->
  loginUser bcrypt_compare JWT_SECRET jwt_sign now' users' (mkLoginBody email password)
  = mkAuthResponse 200
      (Session fresh name email
         (jwt_sign now' (signing_secret JWT_SECRET) fresh)).
Proof.
  intros Hbcrypt Hpw. unfold registerUser.
  destruct (_ || _); [discriminate|].
  destruct (User_findOne users _) eqn:Hf; [discriminate|].
  rewrite Hpw. simpl. intros [= <- <- _ <-].
  unfold loginUser. simpl.
  rewrite (User_findOne_new users (mkUser fresh _ _ _ now now) Hf). simpl.
  rewrite Hbcrypt. reflexivity.
Qed.
End AuthProperties.

Lemma login_after_register_witness :
  let req := mkRegisterBody (Some "Dan") (Some "dan@example.org")
               (Some "hunter2") in
  (forall p s, Toy.compare p (Toy.hash p s) = true)
  /\ loginUser Toy.compare (Some "k") Toy.sign 9 (Toy.users ++
       [mkUser "dddddddddddddddddddddddd" "Dan" "dan@example.org"
          (Toy.hash "hunter2" "na") 8 8])
       (mkLoginBody "dan@example.org" "hunter2")
     = mkAuthResponse 200
         (Session "dddddddddddddddddddddddd" "Dan" "dan@example.org"
            (Toy.sign 9 "k" "dddddddddddddddddddddddd")).
Proof.
  intros req.
  assert (forall p s, Toy.compare p (Toy.hash p s) = true) as Hbcrypt.
  { intros p s. unfold Toy.compare, Toy.hash. apply String.eqb_refl. }
  split; [exact Hbcrypt|].
  exact (login_after_register Toy.hash Toy.compare (Some "k") Toy.sign 8 9
           "dddddddddddddddddddddddd" "na" Toy.users _ req
           "Dan" "dan@example.org" "hunter2" _ Hbcrypt eq_refl eq_refl).
Defined.

Lemma register_outcomes_witness :
  "carol@example.org" ∈ (u_email <$> Toy.users)
  /\ registerUser Toy.hash (Some "k") Toy.sign 9 "dddddddddddddddddddddddd" "na" Toy.users
       (mkRegisterBody (Some "Eve") (Some "carol@example.org") (Some "pw"))
     = (mkAuthResponse 400 (AuthMessage "User already exists"), Toy.users).
Proof.
  assert ("carol@example.org" ∈ (u_email <$> Toy.users)) as Hin
    by (apply (bool_decide_unpack _); vm_compute; exact I).
  assert ("Eve" <> "") as H1 by discriminate.
  assert ("carol@example.org" <> "") as H2 by discriminate.
  assert ("pw" <> "") as H3 by discriminate.
  split; [exact Hin|].
  exact (proj1 (proj1 (proj2 (register_outcomes Toy.hash (Some "k") Toy.sign 9
                                "dddddddddddddddddddddddd" "na" Toy.users
                                (mkRegisterBody (Some "Eve")
                                   (Some "carol@example.org") (Some "pw"))))
                  "Eve" "carol@example.org" "pw"
                  eq_refl H1 eq_refl H2 eq_refl H3) Hin).
Defined.


(** ** The middleware *)

Lemma lower_hex_idem (c : ascii) : lower_hex (lower_hex c) = lower_hex c.
Proof. destruct c as [[|] [|] [|] [|] [|] [|] [|] [|]]; reflexivity. Qed.

Lemma lower_hex_string_idem (s : string) :
  lower_hex_string (lower_hex_string s) = lower_hex_string s.
Proof.
  induction s as [|c s IH]; simpl; [reflexivity|].
  rewrite lower_hex_idem, IH. reflexivity.
Qed.

Lemma split_space_no_space (s : string) :
  no_space s = true -> split_space s = [s].
Proof.
  induction s as [|c s IH]; simpl; [reflexivity|].
  destruct (Ascii.eqb c " "); simpl; [discriminate|].
  intros Hs. rewrite (IH Hs). reflexivity.
Qed.

Lemma split_space_bearer (token : string) :
  no_space token = true ->
  split_space ("Bearer " +:+ token) !! 1%nat = Some token.
Proof.
  intros Hs. change ("Bearer " +:+ token)
    with (String "B" (String "e" (String "a" (String "r" (String "e"
            (String "r" (String " " token))))))).
  cbn [split_space Ascii.eqb Bool.eqb].
  rewrite (split_space_no_space token Hs). reflexivity.
Qed.

Section Middleware.
Variable JWT_SECRET : option string.
Variable jwt_sign : Z -> string -> string -> string.
Variable jwt_verify : Z -> string -> string -> option (option string).

(** When [protect] calls [next()] and what it answers otherwise. *)
Lemma protect_cases (now : Date) (users : Users) (h : option string) :
  (forall pu,
     protect JWT_SECRET jwt_verify now users h = Next pu <->
     exists s token id u,
       h = Some s /\ String.prefix "Bearer" s = true
       /\ split_space s !! 1%nat = Some token /\ token <> ""
       /\ jwt_verify now (verifying_secret JWT_SECRET) token = Some (Some id)
       /\ isValidObjectId id = true
       /\ User_findById users id = Some u
       /\ pu = without_password u)
  /\ (forall r, protect JWT_SECRET jwt_verify now users h = Answered r ->
        status r = 401 /\ exists m, body r = Message m).
Proof.
  unfold protect. split.
  - intros pu. split.
    + destruct h as [s|]; simpl; [|discriminate].
      destruct (String.eqb s ""); simpl; [discriminate|].
      destruct (String.prefix "Bearer" s) eqn:Hpre; [|discriminate].
      destruct (split_space s !! 1%nat) as [token|] eqn:Htok; simpl;
        [|discriminate].
      destruct (String.eqb token "") eqn:He; [discriminate|].
      apply String.eqb_neq in He.
      destruct (jwt_verify now _ token) as [[id|]|] eqn:Hv; try discriminate.
      destruct (isValidObjectId id) eqn:Hid; simpl; [|discriminate].
      destruct (User_findById users id) as [u|] eqn:Hu; [|discriminate].
      intros [= <-]. exists s, token, id, u. auto 10.
    + intros (s & token & id & u & -> & Hpre & Htok & He & Hv & Hid & Hu & ->).
      simpl.
      assert (String.eqb s "" = false) as ->.
      { destruct s; [discriminate Hpre|reflexivity]. }
      simpl. rewrite Hpre, Htok. simpl.
      rewrite (proj2 (String.eqb_neq _ _) He), Hv, Hid, Hu. reflexivity.
  - intros r.
    destruct (negb (falsy h) && String.prefix "Bearer" (default "" h));
      [|intros [= <-]; simpl; eauto].
    destruct (falsy (split_space (default "" h) !! 1%nat));
      [intros [= <-]; simpl; eauto|].
    destruct (jwt_verify now _ _) as [[id|]|];
      [|intros [= <-]; simpl; eauto..].
    destruct (negb (isValidObjectId id)); [intros [= <-]; simpl; eauto|].
    destruct (User_findById users id); [discriminate|].
    intros [= <-]; simpl; eauto.
Qed.

(** [protect] lets a request through exactly when its [Authorization]
    header begins with ["Bearer"], the field after the first space is a
    non-empty token that verifies to a payload with an id, the id is the
    text of an ObjectId and a user with that id exists; the user is
    attached without its password.  Every other request is answered by
    the middleware itself, with status 401 and a message. *)
Theorem protect_outcomes (now : Date) (users : Users) (h : option string) :
  (forall pu,
     protect JWT_SECRET jwt_verify now users h = Next pu <->
     exists s token id u,
       h = Some s /\ String.prefix "Bearer" s = true
       /\ split_space s !! 1%nat = Some token /\ token <> ""
       /\ jwt_verify now (verifying_secret JWT_SECRET) token = Some (Some id)
       /\ isValidObjectId id = true
       /\ User_findById users id = Some u
       /\ pu = without_password u)
  /\ (forall r, protect JWT_SECRET jwt_verify now users h = Answered r ->
        status r = 401 /\ exists m, body r = Message m).
Proof. exact (protect_cases now users h). Qed.

(** The user [protect] attaches is found again by [getProfile], which
    answers 200 with that same user, its password left out. *)
Theorem profile_of_authenticated (now : Date) (users : Users)
    (h : option string) (pu : PublicUser) :
  protect JWT_SECRET jwt_verify now users h = Next pu ->
  getProfile users pu = mkAuthResponse 200 (Profile pu).
Proof.
  intros Hp. apply protect_cases in Hp
    as (s & token & id & u & _ & _ & _ & _ & _ & _ & Hu & ->).
  unfold getProfile, User_findById in *. simpl.
  apply fmap_Some in Hu as ([i u'] & Hf & ->). simpl in *.
  pose proof Hf as Hf'. apply list_find_Some in Hf' as (_ & Hid & _).
  rewrite Hid, lower_hex_string_idem, Hf. reflexivity.
Qed.

(** The token handed out by a login authenticates its bearer as the
    user who logged in, for as long as the token lives, on a server
    whose [JWT_SECRET] is set to a non-empty text: sent as
    ["Bearer <token>"], it passes [protect], which attaches that user.
    The token counts time in whole seconds: it is accepted while the
    second of the clock is before the second of its issue plus thirty
    days.  This rests on [jwt.verify] recovering, within that lifetime
    and under the secret that signed, the id that [jwt.sign] was given,
    on the tokens of ObjectIds being non-empty texts without spaces, and
    on user ids being unique, canonical ObjectIds. *)
Theorem login_token_authenticates (bcrypt_compare : string -> string -> bool)
    (secret : string) (now now' : Date) (users : Users) (req : LoginBody)
    (id : ObjectId) (name email token : string) :
  JWT_SECRET = Some secret -> secret <> "" ->
  (forall t t' i,
     seconds t <= seconds t' < seconds t + token_lifetime ->
     jwt_verify t' secret (jwt_sign t secret i) = Some (Some i)) ->
  (forall t i, isValidObjectId i = true ->
     no_space (jwt_sign t secret i) = true /\ jwt_sign t secret i <> "") ->
  NoDup (u_id <$> users) ->
  (forall u, u ∈ users ->
     isValidObjectId (u_id u) = true /\ lower_hex_string (u_id u) = u_id u) ->
  loginUser bcrypt_compare JWT_SECRET jwt_sign now users req
  = mkAuthResponse 200 (Session id name email token) ->
  seconds now <= seconds now' < seconds now + token_lifetime ->
  exists u,
    u ∈ users /\ u_id u = id /\ u_email u = login_email req
    /\ protect JWT_SECRET jwt_verify now' users (Some ("Bearer " +:+ token))
       = Next (without_password u).
Proof.
  intros Hsecret Hnonempty Hjwt Hcompact Hnd Hids Hlogin Hlife.
  assert (signing_secret JWT_SECRET = secret
          /\ verifying_secret JWT_SECRET = secret) as [Hsign Hverify].
  { unfold signing_secret, verifying_secret. rewrite Hsecret.
    rewrite (falsy_Some_false _ Hnonempty). split; reflexivity. }
  unfold loginUser in Hlogin.
  destruct (User_findOne users (login_email req)) as [u|] eqn:Hf;
    [|discriminate].
  destruct (negb _); [discriminate|].
  injection Hlogin as <- _ _ <-.
  unfold User_findOne in Hf.
  apply fmap_Some in Hf as ([i u'] & Hf & ->). simpl in *.
  apply list_find_Some in Hf as (Hi & He & _).
  assert (u' ∈ users) as Hin by (eapply list_elem_of_lookup_2; exact Hi).
  destruct (Hids u' Hin) as [Hvalid Hcanon].
  destruct (Hcompact now (u_id u') Hvalid) as [Hns Hne].
  exists u'. split; [exact Hin|]. split; [reflexivity|]. split; [exact He|].
  apply protect_cases.
  exists ("Bearer " +:+ generateToken JWT_SECRET jwt_sign now (u_id u')),
    (jwt_sign now secret (u_id u')), (u_id u'), u'.
  unfold generateToken. rewrite Hsign, Hverify.
  split; [reflexivity|]. split; [reflexivity|].
  split; [apply split_space_bearer; exact Hns|]. split; [exact Hne|].
  split; [apply Hjwt; exact Hlife|]. split; [exact Hvalid|].
  split; [|reflexivity].
  unfold User_findById. rewrite Hcanon.
  assert (list_find (fun u => u_id u = u_id u') users = Some (i, u')) as ->;
    [|reflexivity].
  apply list_find_Some. split; [exact Hi|]. split; [reflexivity|].
  intros j y Hj Hlt Hy. assert (j = i); [|lia].
  apply (NoDup_lookup (u_id <$> users) j i (u_id u') Hnd);
    rewrite list_lookup_fmap; [rewrite Hj|rewrite Hi]; simpl; congruence.
Qed.

(** On a server whose [JWT_SECRET] is not set, or is empty, tokens are
    signed with the secret [" "] and verified with the secret [""]: as
    [jwt.verify] refuses an empty secret, no header passes [protect],
    and every request that brings a token is answered 401. *)
Theorem no_secret_no_entry (now : Date) (users : Users) (h : option string) :
  falsy JWT_SECRET = true ->
  (forall t token, jwt_verify t "" token = None) ->
  signing_secret JWT_SECRET = " "
  /\ verifying_secret JWT_SECRET = ""
  /\ exists r, protect JWT_SECRET jwt_verify now users h = Answered r
               /\ status r = 401.
Proof.
  intros Hunset Hrefuse. unfold signing_secret, verifying_secret.
  rewrite Hunset. split; [reflexivity|]. split; [reflexivity|].
  unfold protect, verifying_secret. rewrite Hunset.
  destruct (negb (falsy h) && String.prefix "Bearer" (default "" h));
    [|eexists; split; reflexivity].
  destruct (falsy (split_space (default "" h) !! 1%nat));
    [eexists; split; reflexivity|].
  rewrite Hrefuse. eexists; split; reflexivity.
Qed.
End Middleware.

Lemma is_hex_not_space (c : ascii) :
  is_hex c = true -> Ascii.eqb c " " = false.
Proof.
  destruct c as [[|] [|] [|] [|] [|] [|] [|] [|]];
    try reflexivity; vm_compute; discriminate.
Qed.

Lemma all_hex_no_space (s : string) : all_hex s = true -> no_space s = true.
Proof.
  induction s as [|c s IH]; simpl; [reflexivity|].
  intros [Hc Hs]%andb_true_iff.
  rewrite (is_hex_not_space c Hc), (IH Hs). reflexivity.
Qed.

Lemma valid_id_compact (i : string) :
  isValidObjectId i = true -> no_space i = true /\ i <> "".
Proof.
  unfold isValidObjectId. intros [Hlen Hhex]%andb_true_iff.
  split; [apply all_hex_no_space; exact Hhex|].
  intros ->. discriminate Hlen.
Qed.

Lemma toy_users_ids :
  NoDup (u_id <$> Toy.users)
  /\ forall u, u ∈ Toy.users ->
       isValidObjectId (u_id u) = true /\ lower_hex_string (u_id u) = u_id u.
Proof.
  split; [apply (bool_decide_unpack _); vm_compute; exact I|].
  intros u Hu. apply list_elem_of_singleton in Hu. subst u.
  split; reflexivity.
Defined.

(** Carol's header passes the middleware; a header with two spaces
    before the token is answered 401. *)
Lemma protect_outcomes_witness :
  protect (Some "k") Toy.verify 9 Toy.users (Some "Bearer k.cccccccccccccccccccccccc")
  = Next (without_password Toy.carol)
  /\ status (res_status_json 401 (Message "Not authorized, token missing")) = 401
  /\ protect (Some "k") Toy.verify 9 Toy.users (Some "Bearer  k.cccccccccccccccccccccccc")
     = Answered (res_status_json 401 (Message "Not authorized, token missing")).
Proof.
  split; [|split].
  - apply (proj1 (protect_outcomes (Some "k") Toy.verify 9 Toy.users
                    (Some "Bearer k.cccccccccccccccccccccccc"))).
    exists "Bearer k.cccccccccccccccccccccccc", "k.cccccccccccccccccccccccc",
      "cccccccccccccccccccccccc", Toy.carol.
    repeat split; try reflexivity. discriminate.
  - exact (proj1 (proj2 (protect_outcomes (Some "k") Toy.verify 9 Toy.users
                           (Some "Bearer  k.cccccccccccccccccccccccc"))
                    _ eq_refl)).
  - reflexivity.
Defined.

Lemma profile_of_authenticated_witness :
  protect (Some "k") Toy.verify 9 Toy.users (Some "Bearer k.cccccccccccccccccccccccc")
  = Next (without_password Toy.carol)
  /\ getProfile Toy.users (without_password Toy.carol)
     = mkAuthResponse 200 (Profile (without_password Toy.carol)).
Proof.
  split; [reflexivity|].
  exact (profile_of_authenticated (Some "k") Toy.verify 9 Toy.users
           (Some "Bearer k.cccccccccccccccccccccccc")
           (without_password Toy.carol) eq_refl).
Defined.

Lemma toy_tokens (t t' : Date) (i : string) :
  Toy.verify t' "k" (Toy.sign t "k" i) = Some (Some i).
Proof. reflexivity. Defined.

Lemma toy_tokens_compact (t : Date) (i : string) :
  isValidObjectId i = true ->
  no_space (Toy.sign t "k" i) = true /\ Toy.sign t "k" i <> "".
Proof.
  intros Hi. split; [|discriminate].
  exact (proj1 (valid_id_compact i Hi)).
Defined.

(** Carol logs in at 9 ms and her token passes a second later. *)
Lemma login_token_authenticates_witness :
  loginUser Toy.compare (Some "k") Toy.sign 9 Toy.users
    (mkLoginBody "carol@example.org" "secret")
  = mkAuthResponse 200
      (Session "cccccccccccccccccccccccc" "Carol" "carol@example.org"
         "k.cccccccccccccccccccccccc")
  /\ exists u,
       u ∈ Toy.users /\ u_id u = "cccccccccccccccccccccccc"
       /\ u_email u = "carol@example.org"
       /\ protect (Some "k") Toy.verify 1009 Toy.users
            (Some ("Bearer " +:+ "k.cccccccccccccccccccccccc"))
          = Next (without_password u).
Proof.
  split; [reflexivity|].
  apply (login_token_authenticates (Some "k") Toy.sign Toy.verify Toy.compare
           "k" 9 1009 Toy.users (mkLoginBody "carol@example.org" "secret")
           "cccccccccccccccccccccccc" "Carol" "carol@example.org"
           "k.cccccccccccccccccccccccc").
  - reflexivity.
  - discriminate.
  - intros t t' i _. apply toy_tokens.
  - exact toy_tokens_compact.
  - exact (proj1 toy_users_ids).
  - exact (proj2 toy_users_ids).
  - reflexivity.
  - vm_compute. split; [discriminate|reflexivity].
Defined.

(** With no secret set, even the token that the same server has just
    signed for Carol is turned away. *)
Lemma no_secret_no_entry_witness :
  falsy (@None string) = true
  /\ (forall t token, Toy.verify t "" token = None)
  /\ exists r,
       protect None Toy.verify 9 Toy.users
         (Some ("Bearer " +:+ generateToken None Toy.sign 9
                                "cccccccccccccccccccccccc"))
       = Answered r
       /\ status r = 401.
Proof.
  assert (forall t token, Toy.verify t "" token = None) as Hrefuse
    by (intros t token; reflexivity).
  split; [reflexivity|]. split; [exact Hrefuse|].
  exact (proj2 (proj2 (no_secret_no_entry None Toy.verify 9 Toy.users _
                         eq_refl Hrefuse))).
Defined.

(** * Routing *)

Section Routes.
Variable JWT_SECRET : option string.
Variable jwt_verify : Z -> string -> string -> option (option string).

(** Every route of the router stands behind [protect].  When the
    middleware answers, that answer, a 401, is the response and the
    store is untouched.  The store changes only on a request that passed
    the middleware and is a POST answered 201, a PUT answered 200 or a
    DELETE answered 200; no GET ever changes it. *)
Theorem routes_are_guarded (h : Host) (tie : ObjectId -> Z) (now : Date)
    (fresh : ObjectId) (users : Users)
    (db db' : Store) (req : Request) (resp : Response) :
  transactionRoutes JWT_SECRET jwt_verify h tie now fresh users db req
  = Some (resp, db') ->
  (forall r, protect JWT_SECRET jwt_verify now users (authorization req) = Answered r ->
     resp = r /\ db' = db /\ status resp = 401)
  /\ (db' <> db ->
      (exists user, protect JWT_SECRET jwt_verify now users (authorization req) = Next user)
      /\ (method req = POST /\ status resp = 201
          \/ method req = PUT /\ status resp = 200
          \/ method req = DELETE /\ status resp = 200)).
Proof.
  intros Hroute.
  assert (exists handler,
            (resp, db') = protected JWT_SECRET jwt_verify now users db req handler
            /\ forall user,
                 (handler user).2 <> db ->
                 method req = POST /\ status (handler user).1 = 201
                 \/ method req = PUT /\ status (handler user).1 = 200
                 \/ method req = DELETE /\ status (handler user).1 = 200)
    as (handler & Hresp & Hchange).
  { unfold transactionRoutes in Hroute.
    destruct (path req) as [|seg [|seg' rest]], (method req) eqn:Hm;
      try discriminate Hroute.
    - injection Hroute as Hroute. eexists. split; [symmetry; exact Hroute|].
      intros user Hne. contradiction.
    - injection Hroute as Hroute. eexists. split; [symmetry; exact Hroute|].
      intros user Hne. left. split; [reflexivity|].
      destruct (Z.eq_dec
                  (status (createTransaction now fresh db (p_id user)
                             (create_body req)).1) 201) as [He|He];
        [exact He|].
      exfalso. apply Hne.
      exact (proj1 (store_changes_only_on_success now fresh db
                      (p_id user) "" (create_body req) (update_body req)) He).
    - destruct (String.eqb seg "summary");
        [|destruct (String.eqb seg "analytics")];
        injection Hroute as Hroute;
        (eexists; split; [symmetry; exact Hroute|]);
        intros user Hne; contradiction.
    - injection Hroute as Hroute. eexists. split; [symmetry; exact Hroute|].
      intros user Hne. right. left. split; [reflexivity|].
      destruct (Z.eq_dec
                  (status (updateTransaction now db (p_id user) seg
                             (update_body req)).1) 200) as [He|He];
        [exact He|].
      exfalso. apply Hne.
      exact (proj1 (proj2 (proj2 (store_changes_only_on_success now fresh
                      db (p_id user) seg (create_body req) (update_body req))))
               He).
    - injection Hroute as Hroute. eexists. split; [symmetry; exact Hroute|].
      intros user Hne. right. right. split; [reflexivity|].
      destruct (Z.eq_dec
                  (status (deleteTransaction db (p_id user) seg).1) 200)
        as [He|He]; [exact He|].
      exfalso. apply Hne.
      exact (proj1 (proj2 (proj2 (proj2 (proj2
               (store_changes_only_on_success now fresh db (p_id user)
                  seg (create_body req) (update_body req)))))) He). }
  unfold protected in Hresp. split.
  - intros r Hr. rewrite Hr in Hresp. injection Hresp as -> ->.
    split; [reflexivity|]. split; [reflexivity|].
    exact (proj1 (proj2 (protect_cases JWT_SECRET jwt_verify now users
                           (authorization req)) r Hr)).
  - intros Hne.
    destruct (protect JWT_SECRET jwt_verify now users (authorization req)) as [user|r].
    + split; [eauto|]. specialize (Hchange user).
      rewrite <- Hresp in Hchange. simpl in Hchange. exact (Hchange Hne).
    + injection Hresp as -> ->. contradiction.
Qed.
End Routes.

(** A DELETE without a header is turned away and deletes nothing. *)
Lemma routes_are_guarded_witness :
  let req := mkRequest DELETE ["65a000000000000000000001"] None
               (Sample.query None None)
               (mkNewTransaction Absent Absent Absent Absent Absent)
               Sample.no_updates in
  transactionRoutes (Some "k") Toy.verify Host_UTC Sample.coffee_first 9 ""
    Toy.users Sample.store req
  = Some (res_status_json 401 (Message "Not authorized, no token"), Sample.store)
  /\ status (res_status_json 401 (Message "Not authorized, no token")) = 401.
Proof.
  intros req. split; [reflexivity|].
  exact (proj2 (proj2 (proj1 (routes_are_guarded (Some "k") Toy.verify Host_UTC
                                Sample.coffee_first 9 "" Toy.users
                                Sample.store Sample.store req _ eq_refl)
                         _ eq_refl))).
Defined.
